(** * Cosmic-Impact: the local physics engine

    A shallow embedding of [services/geminiService.ts] (the "Local Physics
    Engine": [DENSITY_MAP], [analyzeAsteroid], [getComposition],
    [generateSummary]) together with the record types of [types.ts] and the
    default input of [constants.ts], and the properties of the engine.

    Numbers.  The engine is embedded at two levels.

    At the first level (section [Engine]) a JavaScript [number] is an exact
    real or [NaN] and every operation is its exact counterpart: nothing is
    rounded, nothing overflows, and the infinities and the signed zero do
    not occur.  [NaN] is kept because the engine can meet it (an empty form
    field parses to [NaN], a negative base under a fractional exponent gives
    [NaN]) and because comparisons, [Math.max] and [Math.min] treat it
    specially.  This level carries the properties that do not hinge on how
    an operation rounds: the shape of the result, the trace, the composition
    and the report, the order properties of the classifier, and the
    behaviour of the page.

    At the second level (module [F64]) a number is an IEEE 754 binary64
    value, as in the source: every operation rounds to nearest, overflows to
    an infinity and underflows to a zero, a property lookup walks the
    prototype chain, and [Math.pow] is the host's where the language leaves
    its value open.  This level carries the statements about the values the
    engine computes: the kinetic energy, the probability, the crater size
    and the degenerate inputs.

    Host functions.  [Number::toString], [toExponential], [toLocaleString]
    and [String.prototype.toUpperCase] depend on the host (locale, Unicode
    tables, shortest round-trip printing); they are the fields of a [Host]
    record that the engine takes as an argument.  [toFixed] and [parseFloat],
    through which the impact probability passes, are modelled in full. *)

From Stdlib Require Import Reals Lra Lia ZArith NArith String Ascii List.
From Stdlib Require Floats.
From stdpp Require Import base strings list gmap.

Local Open Scope R_scope.

(** ** JavaScript numbers *)

Module JS.

Inductive number : Type :=
  | NaN : number
  | Num : R -> number.

Definition lift2 (f : R -> R -> R) (a b : number) : number :=
  match a, b with
  | Num x, Num y => Num (f x y)
  | _, _ => NaN
  end.

Definition add : number -> number -> number := lift2 Rplus.
Definition sub : number -> number -> number := lift2 Rminus.
Definition mul : number -> number -> number := lift2 Rmult.

(** [a / b].  A zero divisor gives an infinity (or [NaN]) in JavaScript; the
    model has no infinities and answers [NaN].  The engine divides by the
    non-zero literals 2, 3, 2500, 4.184e15 and 41629 only. *)
Definition div (a b : number) : number :=
  match a, b with
  | Num x, Num y => if Req_dec_T y 0 then NaN else Num (x / y)
  | _, _ => NaN
  end.

(** [a < b] and [a > b]: false as soon as one side is [NaN]. *)
Definition lt (a b : number) : bool :=
  match a, b with
  | Num x, Num y => if Rlt_dec x y then true else false
  | _, _ => false
  end.

Definition gt (a b : number) : bool := lt b a.

Definition le (a b : number) : bool :=
  match a, b with
  | Num x, Num y => if Rle_dec x y then true else false
  | _, _ => false
  end.

(** [Math.max] and [Math.min] of two arguments. *)
Definition Math_max (a b : number) : number := lift2 Rmax a b.
Definition Math_min (a b : number) : number := lift2 Rmin a b.

Definition Math_PI : number := Num PI.

(** An exponent that is an integral number. *)
Definition integral (y : R) : bool :=
  if Req_dec_T y (IZR (Zfloor y)) then true else false.

(** [Math.pow(base, exponent)], after Number::exponentiate: a [NaN] exponent
    gives [NaN], a zero exponent gives 1 (also for a [NaN] base), zero to a
    positive power is zero, a negative base needs an integral exponent.
    Zero to a negative power is [+Infinity] in JavaScript and [NaN] here; the
    engine's only negative exponent is applied to the literal 9.81. *)
Definition Math_pow (base exponent : number) : number :=
  match exponent with
  | NaN => NaN
  | Num y =>
    if Req_dec_T y 0 then Num 1 else
    match base with
    | NaN => NaN
    | Num x =>
      if Rlt_dec 0 x then Num (Rpower x y)
      else if Req_dec_T x 0 then (if Rlt_dec 0 y then Num 0 else NaN)
      else if integral y then Num (powerRZ x (Zfloor y))
      else NaN
    end
  end.

(** ToBoolean on a number, and [v || d] where [v] is a property lookup that
    may be [undefined] ([None]). *)
Definition truthy (v : number) : bool :=
  match v with
  | NaN => false
  | Num x => if Req_dec_T x 0 then false else true
  end.

Definition or_else (v : option number) (d : number) : number :=
  match v with
  | Some n => if truthy n then n else d
  | None => d
  end.

(** *** Host-dependent functions *)

Record Host : Type := {
  (** Number::toString, as used by template literals. *)
  Number_toString : number -> string;
  (** [x.toExponential(digits)]. *)
  toExponential : number -> nat -> string;
  (** [x.toLocaleString(undefined, {maximumFractionDigits})], [None] for
      the call without arguments. *)
  toLocaleString : number -> option nat -> string;
  (** [s.toUpperCase()]. *)
  toUpperCase : string -> string
}.

(** *** Decimal digits *)

Definition digit_char (d : N) : ascii := ascii_of_N (48 + d).

Definition is_digit (c : ascii) : bool :=
  (48 <=? N_of_ascii c)%N && (N_of_ascii c <=? 57)%N.

Definition digit_val (c : ascii) : N := (N_of_ascii c - 48)%N.

(** The decimal digits of [n], most significant first, "0" for zero. *)
Fixpoint digits_aux (fuel : nat) (n : N) : list ascii :=
  match fuel with
  | O => []
  | S k =>
    (if (n / 10 =? 0)%N then [] else digits_aux k (n / 10))
      ++ [digit_char (n mod 10)]
  end.

Definition digits (n : N) : list ascii := digits_aux (S (N.size_nat n)) n.

(** The value of a run of decimal digits. *)
Definition digits_value (l : list ascii) : N :=
  fold_left (fun acc c => (10 * acc + digit_val c)%N) l 0%N.

Definition all_digits (l : list ascii) : Prop :=
  Forall (fun c => is_digit c = true) l.

Fixpoint span_digits (l : list ascii) : list ascii * list ascii :=
  match l with
  | c :: t =>
    if is_digit c then let (ds, rest) := span_digits t in (c :: ds, rest)
    else ([], l)
  | [] => ([], [])
  end.

(** *** Number.prototype.toFixed

    [x.toFixed(f)] for [0 <= f <= 100] (the engine passes 1 and 2; other
    values raise a RangeError before any digit is produced).  [n] is the
    integer closest to [|x| * 10^f], the larger one on a tie; its digits are
    padded with zeros up to [f + 1] of them and the point is placed before
    the last [f]. *)
Definition fixed_digits (n : N) (f : nat) : list ascii :=
  let m := digits n in
  match f with
  | O => m
  | _ =>
    let k := length m in
    let m := if (k <=? f)%nat then replicate (f + 1 - k) "0"%char ++ m
             else m in
    let k := length m in
    take (k - f) m ++ ["."%char] ++ drop (k - f) m
  end.

Definition toFixed (h : Host) (x : number) (f : nat) : string :=
  match x with
  | NaN => "NaN"
  | Num r =>
    let s := if Rlt_dec r 0 then ["-"%char] else [] in
    let a := Rabs r in
    if Rle_dec (10 ^ 21) a then
      string_of_list_ascii s +:+ Number_toString h (Num a)
    else
      let n := Z.to_N (Zfloor (a * 10 ^ f + / 2)) in
      string_of_list_ascii (s ++ fixed_digits n f)
  end.

(** The value [toFixed] prints for a magnitude [a]: [a] rounded to [f]
    decimal places, a tie going up. *)
Definition round_half_up (f : nat) (a : R) : R :=
  IZR (Zfloor (a * 10 ^ f + / 2)) / 10 ^ f.

(** *** parseFloat

    Leading white space is skipped, then the longest prefix that is a
    decimal literal (sign, digits, fraction, exponent) is read; anything
    after it is ignored, and no digit at all gives [NaN].  The literal
    "Infinity" has no value in the model and reads as [NaN]. *)
Definition is_space (c : ascii) : bool :=
  let n := N_of_ascii c in
  (n =? 32)%N || ((9 <=? n)%N && (n <=? 13)%N).

Fixpoint trim_start (l : list ascii) : list ascii :=
  match l with
  | c :: t => if is_space c then trim_start t else l
  | [] => []
  end.

Definition read_sign (l : list ascii) : bool * list ascii :=
  match l with
  | c :: t =>
    if Ascii.eqb c "-" then (true, t)
    else if Ascii.eqb c "+" then (false, t)
    else (false, l)
  | [] => (false, [])
  end.

Definition read_exponent (l : list ascii) : Z :=
  match l with
  | c :: t =>
    if Ascii.eqb c "e" || Ascii.eqb c "E" then
      let (neg, t) := read_sign t in
      let (ds, _) := span_digits t in
      match ds with
      | [] => 0%Z
      | _ => let e := Z.of_N (digits_value ds) in if neg then (- e)%Z else e
      end
    else 0%Z
  | [] => 0%Z
  end.

(** The decimal literal at the head of a text: its sign, the value of its
    digits taken together, the number of fraction digits and the exponent. *)
Definition read_decimal (l : list ascii) : option (bool * N * nat * Z) :=
  let l := trim_start l in
  let (neg, l) := read_sign l in
  let (ip, l) := span_digits l in
  let (fp, l) :=
    match l with
    | c :: t => if Ascii.eqb c "." then span_digits t else ([], l)
    | [] => ([], [])
    end in
  match ip ++ fp with
  | [] => None
  | ds => Some (neg, digits_value ds, length fp, read_exponent l)
  end.

Definition parseFloat (s : string) : number :=
  match read_decimal (list_ascii_of_string s) with
  | None => NaN
  | Some (neg, m, k, e) =>
    let magnitude := IZR (Z.of_N m) / 10 ^ k * powerRZ 10 e in
    Num (if neg then - magnitude else magnitude)
  end.

End JS.

(** Source-like notation for the arithmetic of JavaScript numbers; a real
    literal stands for the number it denotes. *)
Declare Scope js_scope.
Delimit Scope js_scope with js.
Bind Scope js_scope with JS.number.
Coercion JS.Num : R >-> JS.number.
Infix "+" := JS.add : js_scope.
Infix "-" := JS.sub : js_scope.
Infix "*" := JS.mul : js_scope.
Infix "/" := JS.div : js_scope.
Infix "<?" := JS.lt (at level 70) : js_scope.
Infix ">?" := JS.gt (at level 70) : js_scope.
Infix "<=?" := JS.le (at level 70) : js_scope.
Notation "v '||' d" := (JS.or_else v d) (at level 50, left associativity) : js_scope.

(** ** types.ts *)

(** [enum AsteroidType]: a string enum, so a value of this type is a string
    at run time and [input.type] is modelled as one. *)
Module AsteroidType.
Definition STONY : string := "Stony (Silicate)".
Definition METALLIC : string := "Metallic (Iron-Nickel)".
Definition ICY : string := "Icy (Cometary)".
Definition CARBONACEOUS : string := "Carbonaceous (C-type)".
Definition members : list string := [STONY; METALLIC; ICY; CARBONACEOUS].
End AsteroidType.

Record AsteroidInput : Type := {
  name : string;
  diameter : JS.number; (* in meters *)
  velocity : JS.number; (* in km/s *)
  distance : JS.number; (* in km *)
  type : string
}.

Record DimensionalStep : Type := {
  step : string;
  equation : string;
  explanation : string;
  result : string
}.

Record CompositionElement : Type := {
  element : string;
  percentage : JS.number;
  fill : string
}.

Record AnalysisResult : Type := {
  isHit : bool;
  impactProbability : JS.number; (* 0-100 *)
  kineticEnergyMegatons : JS.number;
  craterSizeMeters : JS.number;
  analysisSummary : string;
  dimensionalProcess : list DimensionalStep;
  composition : list CompositionElement;
  rawMarkdown : string;
  timestamp : JS.number
}.

(** The settled state of the promise an [async] function returns. *)
Inductive Promise (A : Type) : Type :=
  | Fulfilled (value : A)
  | Rejected (reason : string).
Arguments Fulfilled {A} value.
Arguments Rejected {A} reason.

(** ** constants.ts *)

Definition DEFAULT_INPUT : AsteroidInput := {|
  name := "Neo-X1";
  diameter := 50;
  velocity := 17;
  distance := 384400; (* Distance to moon approx *)
  type := AsteroidType.STONY
|}.

(** ** services/geminiService.ts: the local physics engine *)

Section Engine.

Import JS.

(** The host functions, and the value [Date.now()] reads when the result is
    assembled. *)
Variable h : Host.
Variable now : number.

(* Physics Constants *)
(** [DENSITY_MAP[input.type]] is modelled as a lookup among the four own
    properties of the object literal: [input.type] is a member of the enum
    or, at worst, a string that is not the name of a property every object
    inherits (such as "constructor"); [F64.Get] has the inherited ones. *)
Definition DENSITY_MAP : gmap string number :=
  <[AsteroidType.STONY := Num 2700]>        (* kg/m^3 (S-Type) *)
  (<[AsteroidType.METALLIC := Num 7870]>    (* kg/m^3 (Iron) *)
  (<[AsteroidType.ICY := Num 1000]>         (* kg/m^3 (Water ice) *)
  (<[AsteroidType.CARBONACEOUS := Num 1300]> (* kg/m^3 (C-Type) *)
   ∅))).

Definition TNT_JOULES : number := 4.184e15. (* 1 Megaton TNT in Joules *)
Definition EARTH_RADIUS_KM : number := 6371.

Definition getComposition (type : string) : list CompositionElement :=
  if String.eqb type AsteroidType.STONY then
    [ {| element := "Silicates"; percentage := 70; fill := "#a8a29e" |};
      {| element := "Iron/Nickel"; percentage := 15; fill := "#94a3b8" |};
      {| element := "Pyroxene"; percentage := 10; fill := "#d6d3d1" |};
      {| element := "Olivine"; percentage := 5; fill := "#86efac" |} ]
  else if String.eqb type AsteroidType.METALLIC then
    [ {| element := "Iron"; percentage := 85; fill := "#64748b" |};
      {| element := "Nickel"; percentage := 14; fill := "#cbd5e1" |};
      {| element := "Iridium"; percentage := 1; fill := "#f1f5f9" |} ]
  else if String.eqb type AsteroidType.ICY then
    [ {| element := "Water Ice"; percentage := 60; fill := "#bfdbfe" |};
      {| element := "CO2 Ice"; percentage := 20; fill := "#e0f2fe" |};
      {| element := "Dust"; percentage := 15; fill := "#7dd3fc" |};
      {| element := "Organics"; percentage := 5; fill := "#0ea5e9" |} ]
  else if String.eqb type AsteroidType.CARBONACEOUS then
    [ {| element := "Carbon"; percentage := 45; fill := "#475569" |};
      {| element := "Water"; percentage := 20; fill := "#334155" |};
      {| element := "Silicates"; percentage := 25; fill := "#94a3b8" |};
      {| element := "Sulfides"; percentage := 10; fill := "#fbbf24" |} ]
  else [].

Definition LF : string := String (ascii_of_nat 10) EmptyString.

Definition generateSummary
    (name : string) (isHit : bool) (energy : number) (type : string)
    (prob : number) : string :=
  let energyStr :=
    if (energy <? 1)%js then "Local Damage"
    else if (energy <? 100)%js then "Regional Destruction"
    else if (energy <? 10000)%js then "Continental Catastrophe"
    else "Extinction Event" in
  let status :=
    if isHit then "CRITICAL: IMPACT TRAJECTORY CONFIRMED."
    else "SAFE: NO INTERSECTION DETECTED." in
  "PHYSICS ENGINE REPORT // TARGET: " +:+ toUpperCase h name +:+ LF +:+
  "    " +:+ LF +:+
  "    CLASSIFICATION: " +:+ type +:+ LF +:+
  "    TRAJECTORY ANALYSIS: " +:+ Number_toString h prob +:+
    "% Probability of Impact." +:+ LF +:+
  "    STATUS: " +:+ status +:+ LF +:+
  "    " +:+ LF +:+
  "    KINETIC YIELD: ~" +:+ toLocaleString h energy (Some 2%nat) +:+
    " Megatons." +:+ LF +:+
  "    THREAT LEVEL: " +:+ toUpperCase h energyStr +:+ "." +:+ LF +:+
  "    " +:+ LF +:+
  "    Dimensional analysis verifies mass-velocity integration. All constants valid.".

(**
 * Local Physics Engine
 * Performs dimensional analysis and impact estimation without external APIs.
 *)
Definition analyzeAsteroid (input : AsteroidInput) : Promise AnalysisResult :=
  (* the awaited 800 ms timer paces the interface and carries no value *)
  (
  (* 1. Determine Constants *)
  let density := DENSITY_MAP !! type input || 2500 in

  (* 2. Geometry Calculations (Dimensional Analysis: Length -> Volume) *)
  let radius := diameter input / 2 in
  let volume := (4 / 3) * Math_PI * Math_pow radius 3 in

  (* 3. Mass Derivation (Volume * Density -> Mass) *)
  let mass := density * volume in

  (* 4. Kinematics (Velocity Unit Conversion & Kinetic Energy) *)
  let velocityMs := velocity input * 1000 in (* km/s to m/s *)
  let energyJoules := 0.5 * mass * Math_pow velocityMs 2 in
  let energyMt := energyJoules / TNT_JOULES in

  (* 5. Impact Probability Logic *)
  let '(impactProb, isHit) :=
    if distance input <? EARTH_RADIUS_KM + 2000 then
      (Num 100, true)
    else if distance input <? 50000 then
      (* Linear decay from 100% at ~8000km to 0% at 50000km *)
      let closeLimit := EARTH_RADIUS_KM + 2000 in
      let outerLimit := Num 50000 in
      let range := outerLimit - closeLimit in
      let position := distance input - closeLimit in
      let impactProb := 100 * (1 - (position / range)) in
      (impactProb, impactProb >? 60)
    else
      (Num 0, false) in

  (* Clean up probability number *)
  let impactProb :=
    Math_max 0 (Math_min 100 (parseFloat (toFixed h impactProb 1))) in

  (* 6. Crater Estimation (Transient crater diameter scaling law) *)
  (* D_t = 1.161 * (rho_i / rho_t)^(1/3) * L^0.78 * v^0.44 * g^-0.22 *)
  let rho_i := density in
  let rho_t := Num 2500 in (* Target density (Earth crust) *)
  let L := diameter input in
  let v := velocityMs in
  let g := Num 9.81 in

  let term1 := Math_pow (rho_i / rho_t) (1 / 3) in
  let term2 := Math_pow L 0.78 in
  let term3 := Math_pow v 0.44 in
  let term4 := Math_pow g (-0.22) in

  let craterDiameter := 1.161 * term1 * term2 * term3 * term4 in

  (* 7. Generate Dimensional Process Steps (The "Show Your Work" part) *)
  let steps : list DimensionalStep := [
    {| step := "Calculate Radius";
       equation := "r = d / 2 = " +:+ Number_toString h (diameter input) +:+ " / 2";
       explanation := "Derive radius from diameter to determine spherical volume.";
       result := toFixed h radius 2 +:+ " m" |};
    {| step := "Calculate Volume";
       equation := "V = (4/3) * π * r^3";
       explanation := "Compute volume of sphere.";
       result := toExponential h volume 2 +:+ " m³" |};
    {| step := "Derive Mass";
       equation := "M = ρ * V";
       explanation := "Calculate mass using " +:+ type input +:+ " density (" +:+
                      Number_toString h density +:+ " kg/m³).";
       result := toExponential h mass 2 +:+ " kg" |};
    {| step := "Velocity Conversion";
       equation := "v_ms = v_km * 1000";
       explanation := "Convert km/s to m/s for standard Joule calculation.";
       result := toLocaleString h velocityMs None +:+ " m/s" |};
    {| step := "Kinetic Energy";
       equation := "E_k = (1/2) * M * v^2";
       explanation := "Compute kinetic energy using classical mechanics.";
       result := toExponential h energyJoules 2 +:+ " J" |};
    {| step := "TNT Equivalent";
       equation := "MT = E_k / 4.184e15";
       explanation := "Convert Joules to Megatons of TNT for impact context.";
       result := toFixed h energyMt 2 +:+ " MT" |}
  ] in

  (* 8. Generate Composition Data *)
  let composition := getComposition (type input) in

  (* 9. Generate Summary *)
  let analysisSummary :=
    generateSummary (name input) isHit energyMt (type input) impactProb in

  Fulfilled {|
    isHit := isHit;
    impactProbability := impactProb;
    kineticEnergyMegatons := energyMt;
    craterSizeMeters := craterDiameter;
    analysisSummary := analysisSummary;
    dimensionalProcess := steps;
    composition := composition;
    rawMarkdown := "Generated via Local Physics Engine.";
    timestamp := now
  |}
  )%js.

End Engine.

(** The local constants of [analyzeAsteroid] as functions of the input, under
    the names they have in the source, for use in statements.  Each body is
    the right-hand side of the corresponding [const]. *)
Module Local.
Import JS.
Section Constants.
Variable input : AsteroidInput.

Definition density : number := (DENSITY_MAP !! type input || 2500)%js.
Definition radius : number := (diameter input / 2)%js.
Definition volume : number := ((4 / 3) * Math_PI * Math_pow radius 3)%js.
Definition mass : number := (density * volume)%js.
Definition velocityMs : number := (velocity input * 1000)%js.
Definition energyJoules : number := (0.5 * mass * Math_pow velocityMs 2)%js.
Definition energyMt : number := (energyJoules / TNT_JOULES)%js.
Definition term1 : number := Math_pow (density / 2500)%js (1 / 3)%js.
Definition term2 : number := Math_pow (diameter input) 0.78.
Definition term3 : number := Math_pow velocityMs 0.44.
Definition term4 : number := Math_pow 9.81 (-0.22).
Definition craterDiameter : number :=
  (1.161 * term1 * term2 * term3 * term4)%js.
End Constants.
End Local.

(** ** The specification's tables and rules

    Definitions written after the words of the specification, against which
    the engine is compared. *)

Module Spec.

(** Density by type, in kg/m³: Stony 2700, Metallic 7870, Icy 1000,
    Carbonaceous 1300, and the default 2500 for any other value. *)
Definition density (type : string) : R :=
  if String.eqb type AsteroidType.STONY then 2700
  else if String.eqb type AsteroidType.METALLIC then 7870
  else if String.eqb type AsteroidType.ICY then 1000
  else if String.eqb type AsteroidType.CARBONACEOUS then 1300
  else 2500.

(** The probability before clamping and rounding, piecewise in the distance
    (km): 100 below 8371, linear decay down to 50000, 0 from there on. *)
Definition probability (distance : R) : R :=
  if Rlt_dec distance 8371 then 100
  else if Rlt_dec distance 50000 then
    100 * (1 - (distance - 8371) / (50000 - 8371))
  else 0.

(** Clamping to [0,100] and rounding to one decimal place. *)
Definition clamp (p : R) : R := Rmax 0 (Rmin 100 p).
Definition round1 (p : R) : R := JS.round_half_up 1 p.

(** The four severity tiers of the narrative. *)
Definition severity (megatons : JS.number) : string :=
  if (megatons <? 1)%js then "Local Damage"
  else if (megatons <? 100)%js then "Regional Destruction"
  else if (megatons <? 10000)%js then "Continental Catastrophe"
  else "Extinction Event".

(** The report template, with its six slots: name, type label, probability,
    hit or miss, energy value and severity tier. *)
Definition report (h : JS.Host) (name type : string) (prob : JS.number)
    (hit : bool) (energy : JS.number) (tier : string) : string :=
  "PHYSICS ENGINE REPORT // TARGET: " +:+ JS.toUpperCase h name +:+ LF +:+
  "    " +:+ LF +:+
  "    CLASSIFICATION: " +:+ type +:+ LF +:+
  "    TRAJECTORY ANALYSIS: " +:+ JS.Number_toString h prob +:+
    "% Probability of Impact." +:+ LF +:+
  "    STATUS: " +:+
    (if hit then "CRITICAL: IMPACT TRAJECTORY CONFIRMED."
     else "SAFE: NO INTERSECTION DETECTED.") +:+ LF +:+
  "    " +:+ LF +:+
  "    KINETIC YIELD: ~" +:+ JS.toLocaleString h energy (Some 2%nat) +:+
    " Megatons." +:+ LF +:+
  "    THREAT LEVEL: " +:+ JS.toUpperCase h tier +:+ "." +:+ LF +:+
  "    " +:+ LF +:+
  "    Dimensional analysis verifies mass-velocity integration. All constants valid.".

(** The InvalidInput condition: a non-positive diameter or velocity, or a
    negative distance. *)
Definition invalid (input : AsteroidInput) : bool :=
  (diameter input <=? 0)%js || (velocity input <=? 0)%js
  || (distance input <? 0)%js.

(** The sum of the percentages of a composition. *)
Definition total_percentage (l : list CompositionElement) : JS.number :=
  foldr (fun e acc => (percentage e + acc)%js) (JS.Num 0) l.

End Spec.

(** Inputs outside the documented ranges. *)
Definition NEGATIVE_INPUT : AsteroidInput := {|
  name := "Neo-X1";
  diameter := -50;
  velocity := 17;
  distance := -1;
  type := AsteroidType.STONY
|}.

(** The input [input] moved to the distance [d], every other field kept. *)
Definition with_distance (input : AsteroidInput) (d : JS.number)
    : AsteroidInput := {|
  name := name input;
  diameter := diameter input;
  velocity := velocity input;
  distance := d;
  type := type input
|}.

(** A host for concrete runs: upper case is computed on the ASCII letters,
    and the three number printers print nothing. *)
Definition ascii_upper (c : ascii) : ascii :=
  let n := N_of_ascii c in
  if (97 <=? n)%N && (n <=? 122)%N then ascii_of_N (n - 32) else c.

Definition silent_host : JS.Host := {|
  JS.Number_toString := fun _ => EmptyString;
  JS.toExponential := fun _ _ => EmptyString;
  JS.toLocaleString := fun _ _ => EmptyString;
  JS.toUpperCase := fun s =>
    string_of_list_ascii (map ascii_upper (list_ascii_of_string s))
|}.

(** * The rest of the repository

    The callers and consumers of the engine: the options of the form
    ([constants.ts]), the history record ([types.ts]), the handlers of the
    page ([App.tsx]), the values the results panel computes
    ([ResultsDisplay.tsx], [DimensionalStepCard.tsx]), and the variant of
    [analyzeAsteroid] that asks a text-generation service. *)

(** ** constants.ts *)

Module Constants.

Record TypeOption : Type := {
  value : string;
  label : string;
  desc : string
}.

Definition ASTEROID_TYPES : list TypeOption := [
  {| value := AsteroidType.STONY; label := "🪨 Stony (S-Type)";
     desc := "Common, silicate rock" |};
  {| value := AsteroidType.METALLIC; label := "⚙️ Metallic (M-Type)";
     desc := "Dense, iron-nickel" |};
  {| value := AsteroidType.ICY; label := "❄️ Icy (Comet)";
     desc := "Low density, volatile" |};
  {| value := AsteroidType.CARBONACEOUS; label := "🌑 Carbonaceous (C-Type)";
     desc := "Dark, primitive" |}
].

Definition COLORS : list string :=
  ["#8884d8"; "#83a6ed"; "#8dd1e1"; "#82ca9d"; "#a4de6c"; "#d0ed57"].

End Constants.

(** ** types.ts: [HistoryItem] *)

Module HistoryItem.

Record t : Type := {
  id : string;
  input : AsteroidInput;
  result : AnalysisResult
}.

End HistoryItem.

(** A whole number as JavaScript prints it: its decimal digits. *)
Definition decimal (n : nat) : string :=
  string_of_list_ascii (JS.digits (N.of_nat n)).

(** ** components/DimensionalStepCard.tsx

    The two values the card computes from its properties: the text of its
    heading, [Step {index + 1}: {data.step}], and whether the arrow below it
    is rendered, [!isLast]. *)

Module DimensionalStepCard.

Record Props : Type := {
  data : DimensionalStep;
  index : nat;
  isLast : bool
}.

Definition title (p : Props) : string :=
  "Step " +:+ decimal (index p + 1) +:+ ": " +:+ step (data p).

Definition arrow (p : Props) : bool := negb (isLast p).

End DimensionalStepCard.

(** ** components/ResultsDisplay.tsx

    The constants the panel computes from a result before it renders, and
    the properties it hands to each step card. *)

Module ResultsDisplay.


Record Bar : Type := {
  name : string;
  size : JS.number
}.

Section Render.

Variable result : AnalysisResult.

Definition impactColor : string :=
  if (impactProbability result >? 50)%js then "text-red-500"
  else "text-emerald-500".


(** The heading of the banner (line 42). *)
Definition heading : string :=
  if isHit result then "Impact Warning" else "Safe Trajectory".

(* Data for Crater Size comparison chart (log scale visual approximation) *)
Definition craterData : list Bar := [
  {| name := "Barringer Crater"; size := 1200 |};
  {| name := "This Impact"; size := craterSizeMeters result |};
  {| name := "Chicxulub"; size := 150000 |}
].

(** [result.dimensionalProcess.map((step, index) => ...)] (lines 68-75). *)
Definition cards : list DimensionalStepCard.Props :=
  imap (fun index step =>
          {| DimensionalStepCard.data := step;
             DimensionalStepCard.index := index;
             DimensionalStepCard.isLast :=
               (Z.of_nat index
                =? Z.of_nat (length (dimensionalProcess result)) - 1)%Z |})
       (dimensionalProcess result).

End Render.

End ResultsDisplay.

(** ** App.tsx: the state of the page and its handlers

    The component keeps five state variables.  [handleSubmit] is an [async]
    function: it runs up to its [await], other events may then be handled,
    and it resumes when the promise settles, still holding the [input] it
    closed over when the form was submitted. *)

Module App.

Record State : Type := {
  input : AsteroidInput;
  loading : bool;
  result : option AnalysisResult;
  history : list HistoryItem.t;
  isSidebarOpen : bool
}.

Definition initial : State := {|
  input := DEFAULT_INPUT;
  loading := false;
  result := None;
  history := [];
  isSidebarOpen := false
|}.

(** [setInput(prev => ({...prev, [name]: ...}))].  The five fields of the
    form are named name, diameter, velocity, distance and type; any other
    key would add a property that nothing reads. *)
Definition handleInputChange (name value : string) (s : State) : State :=
  let prev := input s in
  let '(Build_AsteroidInput prev_name prev_diameter prev_velocity
          prev_distance prev_type) := prev in
  let next :=
    if String.eqb name "diameter" then
      Build_AsteroidInput prev_name (JS.parseFloat value) prev_velocity
        prev_distance prev_type
    else if String.eqb name "velocity" then
      Build_AsteroidInput prev_name prev_diameter (JS.parseFloat value)
        prev_distance prev_type
    else if String.eqb name "distance" then
      Build_AsteroidInput prev_name prev_diameter prev_velocity
        (JS.parseFloat value) prev_type
    else if String.eqb name "name" then
      Build_AsteroidInput value prev_diameter prev_velocity prev_distance
        prev_type
    else if String.eqb name "type" then
      Build_AsteroidInput prev_name prev_diameter prev_velocity prev_distance
        value
    else prev in
  {| input := next; loading := loading s; result := result s;
     history := history s; isSidebarOpen := isSidebarOpen s |}.

(** [handleSubmit] up to the [await] (lines 27-29). *)
Definition handleSubmit_start (s : State) : State :=
  {| input := input s; loading := true; result := None;
     history := history s; isSidebarOpen := isSidebarOpen s |}.

(** [handleSubmit] from the [await] on (lines 33-48): [captured] is the
    [input] of the closure, [now] the clock read by the engine and [stamp]
    the clock read for the [id].  The second component is the text passed
    to [alert], if any. *)
Definition handleSubmit_resume (h : JS.Host) (now stamp : JS.number)
    (captured : AsteroidInput) (s : State) : State * list string :=
  match analyzeAsteroid h now captured with
  | Fulfilled data =>
    let newHistoryItem := {|
      HistoryItem.id := JS.Number_toString h stamp;
      HistoryItem.input := captured;
      HistoryItem.result := data
    |} in
    ({| input := input s; loading := false; result := Some data;
        history := newHistoryItem :: history s;
        isSidebarOpen := isSidebarOpen s |}, [])
  | Rejected error =>
    ({| input := input s; loading := false; result := result s;
        history := history s; isSidebarOpen := isSidebarOpen s |},
     ["Physics engine computation error."])
  end.

Definition loadHistoryItem (item : HistoryItem.t) (s : State) : State :=
  {| input := HistoryItem.input item; loading := loading s;
     result := Some (HistoryItem.result item);
     history := history s; isSidebarOpen := false |}.

Definition setIsSidebarOpen (open : bool) (s : State) : State :=
  {| input := input s; loading := loading s; result := result s;
     history := history s; isSidebarOpen := open |}.

(** The page in its environment: the state, the inputs of the analyses that
    were started and have not settled yet, and the alerts shown so far. *)
Record World : Type := {
  state : State;
  inflight : list AsteroidInput;
  alerts : list string
}.

Definition start : World :=
  {| state := initial; inflight := []; alerts := [] |}.

(** What can happen to the page.  [Submit] is the form being submitted,
    which the disabled button forbids while [loading] holds; [Settle k] is
    the [k]-th pending promise settling; [Load i] is a click on the [i]-th
    entry of the history list. *)
Inductive Event : Type :=
  | Change (name value : string)
  | Submit
  | Settle (k : nat) (now stamp : JS.number)
  | Load (i : nat)
  | OpenSidebar
  | CloseSidebar.

Definition dispatch (h : JS.Host) (w : World) (e : Event) : World :=
  match e with
  | Change name value =>
    {| state := handleInputChange name value (state w);
       inflight := inflight w; alerts := alerts w |}
  | Submit =>
    if loading (state w) then w
    else {| state := handleSubmit_start (state w);
            inflight := inflight w ++ [input (state w)];
            alerts := alerts w |}
  | Settle k now stamp =>
    match inflight w !! k with
    | Some captured =>
      let (s, shown) := handleSubmit_resume h now stamp captured (state w) in
      {| state := s; inflight := delete k (inflight w);
         alerts := alerts w ++ shown |}
    | None => w
    end
  | Load i =>
    match history (state w) !! i with
    | Some item =>
      {| state := loadHistoryItem item (state w);
         inflight := inflight w; alerts := alerts w |}
    | None => w
    end
  | OpenSidebar =>
    {| state := setIsSidebarOpen true (state w);
       inflight := inflight w; alerts := alerts w |}
  | CloseSidebar =>
    {| state := setIsSidebarOpen false (state w);
       inflight := inflight w; alerts := alerts w |}
  end.

Definition run (h : JS.Host) (w : World) (events : list Event) : World :=
  foldl (dispatch h) w events.

(** Every logged item pairs an input with what the engine returns for it,
    what is on display was logged, and no alert was shown. *)
Definition consistent (h : JS.Host) (w : World) : Prop :=
  (forall item, item ∈ history (state w) ->
     exists now, analyzeAsteroid h now (HistoryItem.input item)
                 = Fulfilled (HistoryItem.result item))
  /\ (forall r, result (state w) = Some r ->
        exists item, item ∈ history (state w) /\ HistoryItem.result item = r)
  /\ alerts w = [].

(** No analysis is pending exactly when the page is not loading, and at
    most one is. *)
Definition single_flight (w : World) : Prop :=
  (loading (state w) = true <-> inflight w <> [])
  /\ (length (inflight w) <= 1)%nat.

Definition is_settle (e : Event) : bool :=
  match e with Settle _ _ _ => true | _ => false end.

(** The events of a user who edits the form: one [Change] per edit. *)
Definition edits (l : list (string * string)) : list Event :=
  map (fun p => Change (fst p) (snd p)) l.

(** An event the form can produce: the type select only delivers the value
    of one of its options. *)
Definition from_form (e : Event) : Prop :=
  match e with
  | Change name value =>
    name = "type" -> value ∈ map Constants.value Constants.ASTEROID_TYPES
  | _ => True
  end.

(** The type of the input on the form, of every pending analysis and of
    every logged input is a member of the enum. *)
Definition recognised (w : World) : Prop :=
  type (input (state w)) ∈ AsteroidType.members
  /\ (forall i, i ∈ inflight w -> type i ∈ AsteroidType.members)
  /\ (forall item, item ∈ history (state w) ->
        type (HistoryItem.input item) ∈ AsteroidType.members).

End App.

(** ** The generative variant of [analyzeAsteroid]

    The service behind [ai.models.generateContent] and [JSON.parse] are taken
    as given: the first maps the prompt to a settled promise carrying
    [response.text] ([None] for [undefined]), the second maps a text to the
    parsed value or to the error it throws. *)

Module Remote.
Import JS.

#[local] Set Warnings "-register-all".
Inductive json : Type :=
  | JNull
  | JBool (b : bool)
  | JNum (n : number)
  | JStr (s : string)
  | JArr (items : list json)
  | JObj (props : gmap string json).

(** The own enumerable properties a spread copies: the properties of an
    object, the indexed elements of an array, the indexed characters of a
    string, nothing for [null], a boolean or a number. *)
Definition own_properties (v : json) : gmap string json :=
  match v with
  | JObj props => props
  | JArr items => list_to_map (imap (fun i x => (decimal i, x)) items)
  | JStr s =>
    list_to_map
      (imap (fun i c => (decimal i, JStr (String c EmptyString)))
            (list_ascii_of_string s))
  | _ => ∅
  end.

Record Service : Type := {
  generateContent : string -> Promise (option string);
  JSON_parse : string -> Promise json
}.

Definition DQ : string := String (ascii_of_nat 34) EmptyString.

Definition prompt (h : Host) (input : AsteroidInput) : string :=
  LF +:+
  "    Perform a rigorous dimensional analysis and impact assessment for an asteroid." +:+ LF +:+
  "    " +:+ LF +:+
  "    INPUT DATA:" +:+ LF +:+
  "    Name: " +:+ name input +:+ LF +:+
  "    Diameter: " +:+ Number_toString h (diameter input) +:+ " meters" +:+ LF +:+
  "    Velocity: " +:+ Number_toString h (velocity input) +:+ " km/s relative to Earth" +:+ LF +:+
  "    Distance: " +:+ Number_toString h (distance input) +:+ " km from Earth" +:+ LF +:+
  "    Type: " +:+ type input +:+ LF +:+
  LF +:+
  "    REFERENCE CONSTANTS (Use these for calculation):" +:+ LF +:+
  "    - Density (Stony): 2700 kg/m^3" +:+ LF +:+
  "    - Density (Metallic): 8000 kg/m^3" +:+ LF +:+
  "    - Density (Icy): 1000 kg/m^3" +:+ LF +:+
  "    - Density (Carbonaceous): 1300 kg/m^3" +:+ LF +:+
  "    - 1 Megaton TNT = 4.184 x 10^15 Joules" +:+ LF +:+
  "    - Volume of Sphere = (4/3) * pi * (radius^3)" +:+ LF +:+
  LF +:+
  "    TASK:" +:+ LF +:+
  "    1. Calculate Radius (Diameter / 2)." +:+ LF +:+
  "    2. Calculate Volume (m^3)." +:+ LF +:+
  "    3. Calculate Mass (kg) = Density * Volume." +:+ LF +:+
  "    4. Calculate Kinetic Energy (Joules) = 0.5 * Mass * (Velocity in m/s)^2. " +:+ LF +:+
  "       *IMPORTANT*: Convert Velocity from km/s to m/s (multiply by 1000) BEFORE squaring." +:+ LF +:+
  "    5. Convert Energy to Megatons (MT)." +:+ LF +:+
  "    6. Estimate Impact Probability: If distance < 50,000 km, probability is > 90%." +:+ LF +:+
  "    " +:+ LF +:+
  "    OUTPUT:" +:+ LF +:+
  "    Return a structured JSON response." +:+ LF +:+
  "    In the " +:+ DQ +:+ "dimensionalProcess" +:+ DQ +:+ " array, you MUST show the full unit cancellation path." +:+ LF +:+
  "    Example format for step: " +:+ DQ +:+ "17 km/s * (1000 m / 1 km) = 17,000 m/s" +:+ DQ +:+ "." +:+ LF +:+
  "  ".

Definition analyzeAsteroid (h : Host) (service : Service) (now : number)
    (input : AsteroidInput) (apiKey : string)
    : Promise (gmap string json) :=
  if String.eqb apiKey "" then Rejected "API Key is required" else
  (* try *)
  match generateContent service (prompt h input) with
  | Fulfilled response_text =>
    match response_text with
    | Some text =>
      if String.eqb text "" then Rejected "No response from Gemini" else
      match JSON_parse service text with
      | Fulfilled data =>
        Fulfilled (<["timestamp" := JNum now]> (own_properties data))
      | Rejected error => Rejected error (* catch: throw error *)
      end
    | None => Rejected "No response from Gemini"
    end
  | Rejected error => Rejected error (* catch: throw error *)
  end.

End Remote.

(** A service that answers every prompt with [text] and parses every text
    to [data]. *)
Definition canned_service (text : string) (data : Remote.json)
    : Remote.Service := {|
  Remote.generateContent := fun _ => Fulfilled (Some text);
  Remote.JSON_parse := fun _ => Fulfilled data
|}.


(** * The engine in binary64 arithmetic

    The same engine with its numbers as the source has them: IEEE 754
    binary64 values, every operation rounded to nearest (ties to even),
    with the two infinities, the two zeros and [NaN].  A [number] is a
    primitive [float]; [+], [-], [*], [/] and the comparisons are the
    primitive operations, whose specification is [SpecFloat].

    [Math.pow] follows Number::exponentiate: the cases the language fixes
    (a [NaN] or zero exponent, a [NaN], infinite or zero base, an infinite
    exponent, a negative base under a non-integral exponent) are written
    out, and the remaining case, a finite non-zero base under a finite
    non-zero exponent, is "implementation-approximated" and is the field
    [pow_approx] of the host.  [toFixed] and [parseFloat] are modelled in
    full on the exact value of the number; the other printers are fields of
    the host.

    A property lookup on [DENSITY_MAP] walks the prototype chain: a key
    that is not one of the four own properties but names a property of
    [Object.prototype] yields that property (a function, or the prototype
    itself for ["__proto__"]), which is truthy and is not a number. *)

Module F64.
Import Floats.FloatClass Floats.PrimFloat Floats.SpecFloat Floats.FloatOps.
#[local] Set Warnings "-inexact-float".
Local Open Scope float_scope.

(** ** types.ts *)

Record AsteroidInput : Type := {
  name : string;
  diameter : float; (* in meters *)
  velocity : float; (* in km/s *)
  distance : float; (* in km *)
  type : string
}.

Record CompositionElement : Type := {
  element : string;
  percentage : float;
  fill : string
}.

Record AnalysisResult : Type := {
  isHit : bool;
  impactProbability : float; (* 0-100 *)
  kineticEnergyMegatons : float;
  craterSizeMeters : float;
  analysisSummary : string;
  dimensionalProcess : list DimensionalStep;
  composition : list CompositionElement;
  rawMarkdown : string;
  timestamp : float
}.

(** ** The host *)

Record Host : Type := {
  (** [Math.pow] on a finite non-zero base and a finite non-zero exponent
      (with an integral exponent if the base is negative). *)
  pow_approx : float -> float -> float;
  (** Number::toString, as used by template literals. *)
  Number_toString : float -> string;
  (** The text a template literal gives for the value inherited from
      [Object.prototype] under a name. *)
  inherited_toString : string -> string;
  (** [x.toExponential(digits)]. *)
  toExponential : float -> nat -> string;
  (** [x.toLocaleString(undefined, {maximumFractionDigits})], [None] for
      the call without arguments. *)
  toLocaleString : float -> option nat -> string;
  (** [s.toUpperCase()]. *)
  toUpperCase : string -> string
}.

(** ** Values and property lookup *)

(** What a lookup on [DENSITY_MAP] can yield: a number, or the value
    inherited from [Object.prototype] under a name. *)
Inductive value : Type :=
  | Number (x : float)
  | Inherited (key : string).

(** ToNumber: a function or a plain object converts to [NaN]. *)
Definition ToNumber (v : value) : float :=
  match v with
  | Number x => x
  | Inherited _ => nan
  end.

(** ToBoolean: a number is falsy when it is [NaN] or a zero, an object is
    truthy. *)
Definition ToBoolean (v : value) : bool :=
  match v with
  | Number x => negb (is_nan x || is_zero x)
  | Inherited _ => true
  end.

Definition ToString (h : Host) (v : value) : string :=
  match v with
  | Number x => Number_toString h x
  | Inherited key => inherited_toString h key
  end.

(** The property names of [Object.prototype] (the standard ones and those
    of Annex B). *)
Definition Object_prototype : list string :=
  [ "constructor"; "hasOwnProperty"; "isPrototypeOf";
    "propertyIsEnumerable"; "toLocaleString"; "toString"; "valueOf";
    "__proto__"; "__defineGetter__"; "__defineSetter__";
    "__lookupGetter__"; "__lookupSetter__" ].

(** [o[key]] for an object literal [o] with the own properties [own]:
    [None] is [undefined]. *)
Definition Get (own : gmap string float) (key : string) : option value :=
  match own !! key with
  | Some x => Some (Number x)
  | None =>
    if existsb (String.eqb key) Object_prototype then Some (Inherited key)
    else None
  end.

(** [v || d]. *)
Definition or_else (v : option value) (d : value) : value :=
  match v with
  | Some x => if ToBoolean x then x else d
  | None => d
  end.

(** ** Math *)

Definition Math_PI : float := 0x1.921fb54442d18p+1.

(** [Math.max] and [Math.min] of two arguments: [NaN] if one of them is,
    and [+0] counts as larger than [-0]. *)
Definition Math_max (a b : float) : float :=
  if is_nan a || is_nan b then nan
  else if a <? b then b
  else if b <? a then a
  else if get_sign a then b else a.

Definition Math_min (a b : float) : float :=
  if is_nan a || is_nan b then nan
  else if a <? b then a
  else if b <? a then b
  else if get_sign a then a else b.

(** The integer a number is, if it is one. *)
Definition integer_value (y : float) : option Z :=
  match Prim2SF y with
  | S754_zero _ => Some 0%Z
  | S754_finite s m e =>
    if (0 <=? e)%Z then Some (cond_Zopp s (Zpos m * 2 ^ e))
    else if (Zpos m mod 2 ^ (- e) =? 0)%Z
         then Some (cond_Zopp s (Zpos m / 2 ^ (- e)))
         else None
  | _ => None
  end.

Definition is_integral (y : float) : bool :=
  match integer_value y with Some _ => true | None => false end.

Definition is_odd_integer (y : float) : bool :=
  match integer_value y with Some n => Z.odd n | None => false end.

(** [Math.pow(base, exponent)], after Number::exponentiate. *)
Definition Math_pow (h : Host) (base exponent : float) : float :=
  if is_nan exponent then nan
  else if is_zero exponent then 1
  else if is_nan base then nan
  else
    match classify base with
    | PInf => if 0 <? exponent then infinity else 0
    | NInf =>
      if 0 <? exponent
      then (if is_odd_integer exponent then neg_infinity else infinity)
      else (if is_odd_integer exponent then neg_zero else 0)
    | PZero => if 0 <? exponent then 0 else infinity
    | NZero =>
      if 0 <? exponent
      then (if is_odd_integer exponent then neg_zero else 0)
      else (if is_odd_integer exponent then neg_infinity else infinity)
    | _ =>
      if is_infinity exponent then
        if 1 <? abs base then (if 0 <? exponent then infinity else 0)
        else if abs base =? 1 then nan
        else (if 0 <? exponent then 0 else infinity)
      else if (base <? 0) && negb (is_integral exponent) then nan
      else pow_approx h base exponent
    end.

(** ** Number.prototype.toFixed

    [x.toFixed(f)] for [0 <= f <= 100].  A number that is not finite prints
    as Number::toString does.  Otherwise [n] is the integer closest to
    [|x| * 10^f] (the exact value of [x]), the larger one on a tie, printed
    by [JS.fixed_digits]; from 10^21 on the text is that of
    Number::toString. *)

(** The integer closest to [a * 10^f], the larger one on a tie, for a
    finite [a >= 0]: with [a = m * 2^e], the floor of
    [m * 10^f * 2^e + 1/2]. *)
Definition scaled (a : float) (f : nat) : Z :=
  match Prim2SF a with
  | S754_finite _ m e =>
    let k := (Zpos m * 10 ^ Z.of_nat f)%Z in
    if (0 <=? e)%Z then (k * 2 ^ e)%Z
    else ((2 * k + 2 ^ (- e)) / 2 ^ (1 - e))%Z
  | _ => 0%Z
  end.

Definition toFixed (h : Host) (x : float) (f : nat) : string :=
  if is_nan x then "NaN"
  else if is_infinity x then (if x <? 0 then "-Infinity" else "Infinity")
  else
    let s := if x <? 0 then ["-"%char] else [] in
    let a := abs x in
    if 1e21 <=? a then string_of_list_ascii s +:+ Number_toString h a
    else string_of_list_ascii (s ++ JS.fixed_digits (Z.to_N (scaled a f)) f).

(** ** parseFloat

    The number nearest to a decimal: [m * 10^z] with the sign [neg],
    rounded to nearest, ties to even.  A non-negative power of ten is
    multiplied in and the integer rounded; a negative one is divided out,
    the quotient of two integers being rounded once. *)
Definition of_decimal (neg : bool) (m : N) (z : Z) : float :=
  SF2Prim
    match m with
    | N0 => S754_zero neg
    | Npos p =>
      if (0 <=? z)%Z then
        binary_normalize prec emax (cond_Zopp neg (Zpos p * 10 ^ z)) 0 neg
      else
        SFdiv prec emax (S754_finite neg p 0)
          (S754_finite false (Z.to_pos (10 ^ (- z))) 0)
    end.

(** Leading white space is skipped; then "Infinity", with or without a
    sign, reads as an infinity; otherwise the longest prefix that is a
    decimal literal is read, and no digit at all gives [NaN].  The value is
    the number nearest to the literal; for a literal of more than twenty
    significant digits the language also allows the value of the literal
    cut after the twentieth digit, which the engine never feeds it. *)
Definition parseFloat (s : string) : float :=
  let (neg, rest) :=
    JS.read_sign (JS.trim_start (list_ascii_of_string s)) in
  if String.prefix "Infinity" (string_of_list_ascii rest) then
    if neg then neg_infinity else infinity
  else
    match JS.read_decimal (list_ascii_of_string s) with
    | None => nan
    | Some (neg, m, k, e) => of_decimal neg m (e - Z.of_nat k)
    end.

(** ** services/geminiService.ts: the local physics engine *)

Section Engine.

(** The host, and the value [Date.now()] reads when the result is
    assembled. *)
Variable h : Host.
Variable now : float.

(* Physics Constants *)
Definition DENSITY_MAP : gmap string float :=
  <[AsteroidType.STONY := 2700]>        (* kg/m^3 (S-Type) *)
  (<[AsteroidType.METALLIC := 7870]>    (* kg/m^3 (Iron) *)
  (<[AsteroidType.ICY := 1000]>         (* kg/m^3 (Water ice) *)
  (<[AsteroidType.CARBONACEOUS := 1300]> (* kg/m^3 (C-Type) *)
   ∅))).

Definition TNT_JOULES : float := 4.184e15. (* 1 Megaton TNT in Joules *)
Definition EARTH_RADIUS_KM : float := 6371.

Definition getComposition (type : string) : list CompositionElement :=
  if String.eqb type AsteroidType.STONY then
    [ {| element := "Silicates"; percentage := 70; fill := "#a8a29e" |};
      {| element := "Iron/Nickel"; percentage := 15; fill := "#94a3b8" |};
      {| element := "Pyroxene"; percentage := 10; fill := "#d6d3d1" |};
      {| element := "Olivine"; percentage := 5; fill := "#86efac" |} ]
  else if String.eqb type AsteroidType.METALLIC then
    [ {| element := "Iron"; percentage := 85; fill := "#64748b" |};
      {| element := "Nickel"; percentage := 14; fill := "#cbd5e1" |};
      {| element := "Iridium"; percentage := 1; fill := "#f1f5f9" |} ]
  else if String.eqb type AsteroidType.ICY then
    [ {| element := "Water Ice"; percentage := 60; fill := "#bfdbfe" |};
      {| element := "CO2 Ice"; percentage := 20; fill := "#e0f2fe" |};
      {| element := "Dust"; percentage := 15; fill := "#7dd3fc" |};
      {| element := "Organics"; percentage := 5; fill := "#0ea5e9" |} ]
  else if String.eqb type AsteroidType.CARBONACEOUS then
    [ {| element := "Carbon"; percentage := 45; fill := "#475569" |};
      {| element := "Water"; percentage := 20; fill := "#334155" |};
      {| element := "Silicates"; percentage := 25; fill := "#94a3b8" |};
      {| element := "Sulfides"; percentage := 10; fill := "#fbbf24" |} ]
  else [].

Definition generateSummary
    (name : string) (isHit : bool) (energy : float) (type : string)
    (prob : float) : string :=
  let energyStr :=
    if energy <? 1 then "Local Damage"
    else if energy <? 100 then "Regional Destruction"
    else if energy <? 10000 then "Continental Catastrophe"
    else "Extinction Event" in
  let status :=
    if isHit then "CRITICAL: IMPACT TRAJECTORY CONFIRMED."
    else "SAFE: NO INTERSECTION DETECTED." in
  "PHYSICS ENGINE REPORT // TARGET: " +:+ toUpperCase h name +:+ LF +:+
  "    " +:+ LF +:+
  "    CLASSIFICATION: " +:+ type +:+ LF +:+
  "    TRAJECTORY ANALYSIS: " +:+ Number_toString h prob +:+
    "% Probability of Impact." +:+ LF +:+
  "    STATUS: " +:+ status +:+ LF +:+
  "    " +:+ LF +:+
  "    KINETIC YIELD: ~" +:+ toLocaleString h energy (Some 2%nat) +:+
    " Megatons." +:+ LF +:+
  "    THREAT LEVEL: " +:+ toUpperCase h energyStr +:+ "." +:+ LF +:+
  "    " +:+ LF +:+
  "    Dimensional analysis verifies mass-velocity integration. All constants valid.".

(**
 * Local Physics Engine
 * Performs dimensional analysis and impact estimation without external APIs.
 *)
Definition analyzeAsteroid (input : AsteroidInput) : Promise AnalysisResult :=
  (* the awaited 800 ms timer paces the interface and carries no value *)

  (* 1. Determine Constants *)
  let density := or_else (Get DENSITY_MAP (type input)) (Number 2500) in

  (* 2. Geometry Calculations (Dimensional Analysis: Length -> Volume) *)
  let radius := diameter input / 2 in
  let volume := (4 / 3) * Math_PI * Math_pow h radius 3 in

  (* 3. Mass Derivation (Volume * Density -> Mass) *)
  let mass := ToNumber density * volume in

  (* 4. Kinematics (Velocity Unit Conversion & Kinetic Energy) *)
  let velocityMs := velocity input * 1000 in (* km/s to m/s *)
  let energyJoules := 0.5 * mass * Math_pow h velocityMs 2 in
  let energyMt := energyJoules / TNT_JOULES in

  (* 5. Impact Probability Logic *)
  let '(impactProb, isHit) :=
    if distance input <? EARTH_RADIUS_KM + 2000 then
      (100, true)
    else if distance input <? 50000 then
      (* Linear decay from 100% at ~8000km to 0% at 50000km *)
      let closeLimit := EARTH_RADIUS_KM + 2000 in
      let outerLimit := 50000 in
      let range := outerLimit - closeLimit in
      let position := distance input - closeLimit in
      let impactProb := 100 * (1 - (position / range)) in
      (impactProb, 60 <? impactProb)
    else
      (0, false) in

  (* Clean up probability number *)
  let impactProb :=
    Math_max 0 (Math_min 100 (parseFloat (toFixed h impactProb 1))) in

  (* 6. Crater Estimation (Transient crater diameter scaling law) *)
  (* D_t = 1.161 * (rho_i / rho_t)^(1/3) * L^0.78 * v^0.44 * g^-0.22 *)
  let rho_i := density in
  let rho_t := 2500 in (* Target density (Earth crust) *)
  let L := diameter input in
  let v := velocityMs in
  let g := 9.81 in

  let term1 := Math_pow h (ToNumber rho_i / rho_t) (1 / 3) in
  let term2 := Math_pow h L 0.78 in
  let term3 := Math_pow h v 0.44 in
  let term4 := Math_pow h g (-0.22) in

  let craterDiameter := 1.161 * term1 * term2 * term3 * term4 in

  (* 7. Generate Dimensional Process Steps (The "Show Your Work" part) *)
  let steps : list DimensionalStep := [
    {| step := "Calculate Radius";
       equation := "r = d / 2 = " +:+ Number_toString h (diameter input) +:+ " / 2";
       explanation := "Derive radius from diameter to determine spherical volume.";
       result := toFixed h radius 2 +:+ " m" |};
    {| step := "Calculate Volume";
       equation := "V = (4/3) * π * r^3";
       explanation := "Compute volume of sphere.";
       result := toExponential h volume 2 +:+ " m³" |};
    {| step := "Derive Mass";
       equation := "M = ρ * V";
       explanation := "Calculate mass using " +:+ type input +:+ " density (" +:+
                      ToString h density +:+ " kg/m³).";
       result := toExponential h mass 2 +:+ " kg" |};
    {| step := "Velocity Conversion";
       equation := "v_ms = v_km * 1000";
       explanation := "Convert km/s to m/s for standard Joule calculation.";
       result := toLocaleString h velocityMs None +:+ " m/s" |};
    {| step := "Kinetic Energy";
       equation := "E_k = (1/2) * M * v^2";
       explanation := "Compute kinetic energy using classical mechanics.";
       result := toExponential h energyJoules 2 +:+ " J" |};
    {| step := "TNT Equivalent";
       equation := "MT = E_k / 4.184e15";
       explanation := "Convert Joules to Megatons of TNT for impact context.";
       result := toFixed h energyMt 2 +:+ " MT" |}
  ] in

  (* 8. Generate Composition Data *)
  let composition := getComposition (type input) in

  (* 9. Generate Summary *)
  let analysisSummary :=
    generateSummary (name input) isHit energyMt (type input) impactProb in

  Fulfilled {|
    isHit := isHit;
    impactProbability := impactProb;
    kineticEnergyMegatons := energyMt;
    craterSizeMeters := craterDiameter;
    analysisSummary := analysisSummary;
    dimensionalProcess := steps;
    composition := composition;
    rawMarkdown := "Generated via Local Physics Engine.";
    timestamp := now
  |}.

(** The local constants of [analyzeAsteroid] as functions of the input,
    under the names they have in the source; each body is the right-hand
    side of the corresponding [const]. *)
Section Constants.
Variable input : AsteroidInput.

Definition density : value :=
  or_else (Get DENSITY_MAP (type input)) (Number 2500).
Definition radius : float := diameter input / 2.
Definition volume : float := (4 / 3) * Math_PI * Math_pow h radius 3.
Definition mass : float := ToNumber density * volume.
Definition velocityMs : float := velocity input * 1000.
Definition energyJoules : float := 0.5 * mass * Math_pow h velocityMs 2.
Definition energyMt : float := energyJoules / TNT_JOULES.
Definition term1 : float := Math_pow h (ToNumber density / 2500) (1 / 3).
Definition term2 : float := Math_pow h (diameter input) 0.78.
Definition term3 : float := Math_pow h velocityMs 0.44.
Definition term4 : float := Math_pow h 9.81 (-0.22).
Definition craterDiameter : float := 1.161 * term1 * term2 * term3 * term4.
End Constants.

End Engine.

(** ** The specification's tables and rules, in binary64

    Definitions written after the words of the specification ("all
    arithmetic is double-precision floating point"), against which the
    engine is compared. *)

Module Spec.

(** Density by type, in kg/m³. *)
Definition density (type : string) : float :=
  if String.eqb type AsteroidType.STONY then 2700
  else if String.eqb type AsteroidType.METALLIC then 7870
  else if String.eqb type AsteroidType.ICY then 1000
  else if String.eqb type AsteroidType.CARBONACEOUS then 1300
  else 2500.

(** radius = diameter / 2; volume = (4/3) · π · radius³;
    mass = density · volume;
    kineticEnergyMegatons = 0.5 · mass · (velocity · 1000)² / 4.184e15. *)
Definition volume (h : Host) (diameter : float) : float :=
  4 / 3 * Math_PI * Math_pow h (diameter / 2) 3.

Definition mass (h : Host) (type : string) (diameter : float) : float :=
  density type * volume h diameter.

Definition kineticEnergyMegatons
    (h : Host) (type : string) (diameter velocity : float) : float :=
  0.5 * mass h type diameter * Math_pow h (velocity * 1000) 2 / 4.184e15.

(** The one-line formula
    0.5 · density · (4/3) · π · (diameter/2)³ · (velocity·1000)² / 4.184e15
    with its products taken from left to right. *)
Definition kineticEnergy_as_written
    (h : Host) (type : string) (diameter velocity : float) : float :=
  0.5 * density type * (4 / 3) * Math_PI * Math_pow h (diameter / 2) 3
  * Math_pow h (velocity * 1000) 2 / 4.184e15.

(** The probability before clamping and rounding, piecewise in the distance
    (km): 100 below 8371, linear decay down to 50000, 0 from there on (and
    for a distance that is [NaN]). *)
Definition probability (distance : float) : float :=
  if distance <? 8371 then 100
  else if distance <? 50000 then
    100 * (1 - (distance - 8371) / (50000 - 8371))
  else 0.

(** Rounding to one decimal place: the integer [n] nearest to ten times
    the magnitude (the larger one on a tie), then the number nearest to
    [n / 10], with the sign put back. *)
Definition tenths (p : float) : N := Z.to_N (scaled (abs p) 1).

Definition round1 (p : float) : float :=
  of_decimal (p <? 0) (tenths p) (-1).

(** Clamping to [0,100]. *)
Definition clamp (p : float) : float := Math_max 0 (Math_min 100 p).

(** The crater law, the factors multiplied from left to right. *)
Definition craterSizeMeters
    (h : Host) (density diameter velocity : float) : float :=
  1.161 * Math_pow h (density / 2500) (1 / 3) * Math_pow h diameter 0.78
  * Math_pow h (velocity * 1000) 0.44 * Math_pow h 9.81 (-0.22).

End Spec.

(** A number that is zero or finite and below [2^k] in magnitude. *)
Definition below (k : Z) (x : spec_float) : Prop :=
  match x with
  | S754_zero _ => True
  | S754_finite _ m e => (Zpos (digits2_pos m) + e <= k)%Z
  | _ => False
  end.

(** ** constants.ts, and inputs for concrete runs *)

Definition DEFAULT_INPUT : AsteroidInput := {|
  name := "Neo-X1";
  diameter := 50;
  velocity := 17;
  distance := 384400; (* Distance to moon approx *)
  type := AsteroidType.STONY
|}.

Definition with_velocity (input : AsteroidInput) (v : float)
    : AsteroidInput := {|
  name := name input;
  diameter := diameter input;
  velocity := v;
  distance := distance input;
  type := type input
|}.

Definition with_diameter (input : AsteroidInput) (d : float)
    : AsteroidInput := {|
  name := name input;
  diameter := d;
  velocity := velocity input;
  distance := distance input;
  type := type input
|}.

Definition with_distance (input : AsteroidInput) (d : float)
    : AsteroidInput := {|
  name := name input;
  diameter := diameter input;
  velocity := velocity input;
  distance := d;
  type := type input
|}.

Definition with_type (input : AsteroidInput) (t : string)
    : AsteroidInput := {|
  name := name input;
  diameter := diameter input;
  velocity := velocity input;
  distance := distance input;
  type := t
|}.

(** A host for concrete runs: a whole power up to the cube is computed by
    multiplication, any other power is left at 1, upper case is computed on
    the ASCII letters and the printers print nothing. *)
Definition plain_host : Host := {|
  pow_approx := fun b e =>
    if e =? 2 then b * b else if e =? 3 then b * b * b else 1;
  Number_toString := fun _ => EmptyString;
  inherited_toString := fun _ => EmptyString;
  toExponential := fun _ _ => EmptyString;
  toLocaleString := fun _ _ => EmptyString;
  toUpperCase := fun s =>
    string_of_list_ascii (map ascii_upper (list_ascii_of_string s))
|}.

End F64.

(** * Properties *)

(** ** Decimal printing and reading *)

Module JSFacts.
Import JS.

Lemma N_of_digit_char (d : N) :
  (d < 10)%N -> N_of_ascii (digit_char d) = (48 + d)%N.
Proof.
  intros Hd. unfold digit_char. apply N_ascii_embedding. lia.
Qed.

Lemma digit_val_char (d : N) : (d < 10)%N -> digit_val (digit_char d) = d.
Proof.
  intros Hd. unfold digit_val. rewrite N_of_digit_char by assumption. lia.
Qed.

Lemma is_digit_char (d : N) : (d < 10)%N -> is_digit (digit_char d) = true.
Proof.
  intros Hd. unfold is_digit. rewrite N_of_digit_char by assumption.
  apply andb_true_intro; split; apply N.leb_le; lia.
Qed.

Lemma fold_digits_shift (l : list ascii) (a : N) :
  fold_left (fun acc c => (10 * acc + digit_val c)%N) l a
  = (a * 10 ^ N.of_nat (length l) + digits_value l)%N.
Proof.
  unfold digits_value. revert a.
  induction l as [|c l IH]; intros a.
  - simpl. lia.
  - cbn [fold_left length]. rewrite IH, (IH (10 * 0 + digit_val c)%N).
    rewrite Nat2N.inj_succ, N.pow_succ_r'. lia.
Qed.

Lemma digits_value_app (l1 l2 : list ascii) :
  digits_value (l1 ++ l2)
  = (digits_value l1 * 10 ^ N.of_nat (length l2) + digits_value l2)%N.
Proof.
  unfold digits_value at 1. rewrite fold_left_app.
  apply fold_digits_shift.
Qed.

Lemma digits_value_snoc (l : list ascii) (c : ascii) :
  digits_value (l ++ [c]) = (10 * digits_value l + digit_val c)%N.
Proof.
  rewrite digits_value_app. unfold digits_value at 2. simpl. lia.
Qed.

Lemma digits_value_zeros (k : nat) (l : list ascii) :
  digits_value (replicate k "0"%char ++ l) = digits_value l.
Proof.
  induction k as [|k IH]; [reflexivity|].
  unfold digits_value in *. simpl. exact IH.
Qed.

Lemma digits_aux_value (fuel : nat) (n : N) :
  (n < 2 ^ N.of_nat fuel)%N -> digits_value (digits_aux fuel n) = n.
Proof.
  revert n. induction fuel as [|k IH]; intros n Hn.
  - simpl in Hn. assert (n = 0%N) by lia. subst. reflexivity.
  - cbn [digits_aux]. rewrite digits_value_snoc.
    rewrite digit_val_char by (apply N.mod_lt; lia).
    destruct (N.eqb_spec (n / 10) 0) as [Hq|Hq].
    + change (digits_value []) with 0%N.
      rewrite (N.div_mod n 10) at 2 by lia. rewrite Hq. lia.
    + rewrite IH.
      * rewrite (N.div_mod n 10) at 3 by lia. lia.
      * rewrite Nat2N.inj_succ, N.pow_succ_r' in Hn.
        apply N.Div0.div_lt_upper_bound. lia.
Qed.

Lemma size_nat_size (n : N) : N.of_nat (N.size_nat n) = N.size n.
Proof.
  destruct n as [|p]; [reflexivity|]. simpl.
  induction p as [p IH|p IH|]; simpl; try reflexivity;
    rewrite Nat2N.inj_succ, IH; reflexivity.
Qed.

Lemma digits_value_digits (n : N) : digits_value (digits n) = n.
Proof.
  unfold digits. apply digits_aux_value.
  rewrite Nat2N.inj_succ, N.pow_succ_r', size_nat_size.
  assert (H := N.size_gt n). lia.
Qed.

Lemma digits_aux_all (fuel : nat) (n : N) : all_digits (digits_aux fuel n).
Proof.
  revert n. induction fuel as [|k IH]; intros n; [constructor|].
  cbn [digits_aux]. apply Forall_app; split.
  - destruct (n / 10 =? 0)%N; [constructor | apply IH].
  - constructor; [|constructor]. apply is_digit_char, N.mod_lt. lia.
Qed.

Lemma digits_length (n : N) : (1 <= length (digits n))%nat.
Proof.
  unfold digits. cbn [digits_aux]. rewrite length_app. simpl. lia.
Qed.

Lemma digit_not_space (c : ascii) : is_digit c = true -> is_space c = false.
Proof.
  unfold is_digit, is_space. intros H.
  apply andb_prop in H as [H1 H2]. apply N.leb_le in H1. apply N.leb_le in H2.
  apply orb_false_intro.
  - apply N.eqb_neq. lia.
  - apply andb_false_intro2. apply N.leb_gt. lia.
Qed.

Lemma digit_not_char (c d : ascii) :
  is_digit c = true -> is_digit d = false -> Ascii.eqb c d = false.
Proof.
  intros Hc Hd. apply Ascii.eqb_neq. intros ->. congruence.
Qed.

Lemma span_digits_app (ds rest : list ascii) :
  all_digits ds ->
  match rest with c :: _ => is_digit c = false | [] => True end ->
  span_digits (ds ++ rest) = (ds, rest).
Proof.
  intros Hds Hrest. induction Hds as [|c ds Hc _ IH]; simpl.
  - destruct rest as [|c t]; [reflexivity|]. simpl. now rewrite Hrest.
  - now rewrite Hc, IH.
Qed.

Lemma read_decimal_fixed (neg : bool) (a b : list ascii) :
  all_digits a -> all_digits b -> a <> [] ->
  read_decimal ((if neg then ["-"%char] else []) ++ a ++ ["."%char] ++ b)
  = Some (neg, digits_value (a ++ b), length b, 0%Z).
Proof.
  intros Ha Hb Hne. unfold read_decimal.
  destruct a as [|c a]; [contradiction|].
  assert (Hc : is_digit c = true) by (inversion Ha; assumption).
  assert (Hsp : is_space c = false) by (apply digit_not_space, Hc).
  assert (Hm : Ascii.eqb c "-" = false) by (apply digit_not_char; auto).
  assert (Hp : Ascii.eqb c "+" = false) by (apply digit_not_char; auto).
  assert (Hspan : span_digits ((c :: a) ++ ["."%char] ++ b)
                  = (c :: a, "."%char :: b))
    by (apply span_digits_app; [assumption | reflexivity]).
  assert (Hspanb : span_digits b = (b, []))
    by (rewrite <- (app_nil_r b) at 1; apply span_digits_app; auto).
  assert (Hsign : read_sign ((c :: a) ++ ["."%char] ++ b)
                  = (false, (c :: a) ++ ["."%char] ++ b))
    by (simpl; now rewrite Hm, Hp).
  assert (Htrim : trim_start ((c :: a) ++ ["."%char] ++ b)
                  = (c :: a) ++ ["."%char] ++ b)
    by (simpl; now rewrite Hsp).
  destruct neg.
  - change (trim_start (["-"%char] ++ (c :: a) ++ ["."%char] ++ b))
      with (["-"%char] ++ (c :: a) ++ ["."%char] ++ b).
    change (read_sign (["-"%char] ++ (c :: a) ++ ["."%char] ++ b))
      with (true, (c :: a) ++ ["."%char] ++ b).
    cbv iota beta. rewrite Hspan. cbv iota beta.
    change (Ascii.eqb "." ".") with true. cbv iota.
    rewrite Hspanb. reflexivity.
  - change ([] ++ (c :: a) ++ ["."%char] ++ b)
      with ((c :: a) ++ ["."%char] ++ b).
    rewrite Htrim, Hsign. cbv iota beta. rewrite Hspan. cbv iota beta.
    change (Ascii.eqb "." ".") with true. cbv iota.
    rewrite Hspanb. reflexivity.
Qed.

Lemma parseFloat_decimal (neg : bool) (a b : list ascii) :
  all_digits a -> all_digits b -> a <> [] ->
  parseFloat (string_of_list_ascii
                ((if neg then ["-"%char] else []) ++ a ++ ["."%char] ++ b))
  = Num (let v := IZR (Z.of_N (digits_value (a ++ b))) / 10 ^ length b in
         if neg then - v else v).
Proof.
  intros Ha Hb Hne. unfold parseFloat.
  rewrite list_ascii_of_string_of_list_ascii.
  rewrite (read_decimal_fixed neg a b Ha Hb Hne).
  change (powerRZ 10 0) with 1. cbv zeta. rewrite Rmult_1_r. reflexivity.
Qed.

Lemma Zfloor_half_nonneg (a : R) : 0 <= a -> (0 <= Zfloor (a + / 2))%Z.
Proof. intros Ha. apply Zfloor_lub. simpl. lra. Qed.

(** Reading back what [toFixed] printed gives the rounded value, for at
    least one fraction digit and a magnitude below 10^21. *)
Lemma parseFloat_toFixed (h : Host) (r : R) (f : nat) :
  Rabs r < 10 ^ 21 ->
  parseFloat (toFixed h (Num r) (S f))
  = Num (if Rlt_dec r 0 then - round_half_up (S f) (Rabs r)
         else round_half_up (S f) (Rabs r)).
Proof.
  intros Hr. unfold toFixed.
  destruct (Rle_dec (10 ^ 21) (Rabs r)) as [Hbig|_]; [lra|].
  set (n := Z.to_N (Zfloor (Rabs r * 10 ^ S f + / 2))).
  unfold fixed_digits. cbv zeta.
  set (m := if (length (digits n) <=? S f)%nat
            then replicate (S f + 1 - length (digits n)) "0"%char ++ digits n
            else digits n).
  assert (Hall : all_digits m).
  { subst m. destruct (length (digits n) <=? S f)%nat.
    - apply Forall_app; split; [|apply digits_aux_all].
      apply Forall_replicate. reflexivity.
    - apply digits_aux_all. }
  assert (Hval : digits_value m = n).
  { subst m. destruct (length (digits n) <=? S f)%nat.
    - rewrite digits_value_zeros. apply digits_value_digits.
    - apply digits_value_digits. }
  assert (Hlen : (S f < length m)%nat).
  { subst m. destruct (Nat.leb_spec (length (digits n)) (S f)) as [Hk|Hk].
    - rewrite length_app, length_replicate. lia.
    - exact Hk. }
  set (k := (length m - S f)%nat) in *.
  assert (Hn : Z.of_N n = Zfloor (Rabs r * 10 ^ S f + / 2)).
  { subst n. apply Z2N.id, Zfloor_half_nonneg.
    apply Rmult_le_pos; [apply Rabs_pos | apply pow_le; lra]. }
  assert (Hparse := fun neg =>
    parseFloat_decimal neg (take k m) (drop k m)
      (Forall_take _ k m Hall) (Forall_drop _ k m Hall)).
  rewrite take_drop, Hval, Hn, length_drop in Hparse.
  replace (length m - k)%nat with (S f) in Hparse by (subst k; lia).
  assert (Hne : take k m <> []).
  { intros E. apply (f_equal length) in E. rewrite length_take in E.
    simpl in E. subst k. lia. }
  unfold round_half_up.
  destruct (Rlt_dec r 0).
  - apply (Hparse true Hne).
  - apply (Hparse false Hne).
Qed.

(** What [toFixed] prints for a magnitude below 10^21, once the rounded
    integer [z] is known; the text is then computed. *)
Lemma toFixed_text (h : Host) (r : R) (f : nat) (z : Z) :
  Rabs r < 10 ^ 21 ->
  IZR z <= Rabs r * 10 ^ f + / 2 < IZR z + 1 ->
  toFixed h (Num r) f
  = string_of_list_ascii
      ((if Rlt_dec r 0 then ["-"%char] else []) ++ fixed_digits (Z.to_N z) f).
Proof.
  intros Hr Hz. unfold toFixed.
  destruct (Rle_dec (10 ^ 21) (Rabs r)); [lra|].
  now rewrite (Zfloor_eq z) by exact Hz.
Qed.

Example toFixed_100 (h : Host) : toFixed h (Num 100) 1 = "100.0".
Proof.
  rewrite (toFixed_text h 100 1 1000).
  - destruct (Rlt_dec 100 0); [lra|reflexivity].
  - rewrite Rabs_pos_eq; lra.
  - rewrite Rabs_pos_eq; simpl; lra.
Qed.

Example toFixed_tie (h : Host) : toFixed h (Num 42.35) 1 = "42.4".
Proof.
  rewrite (toFixed_text h 42.35 1 424).
  - destruct (Rlt_dec 42.35 0); [lra|reflexivity].
  - rewrite Rabs_pos_eq; lra.
  - rewrite Rabs_pos_eq; simpl; lra.
Qed.

Example toFixed_padded (h : Host) : toFixed h (Num 0.004) 2 = "0.00".
Proof.
  rewrite (toFixed_text h 0.004 2 0).
  - destruct (Rlt_dec 0.004 0); [lra|reflexivity].
  - rewrite Rabs_pos_eq; lra.
  - rewrite Rabs_pos_eq; simpl; lra.
Qed.

Example toFixed_negative (h : Host) : toFixed h (Num (-25)) 2 = "-25.00".
Proof.
  rewrite (toFixed_text h (-25) 2 2500).
  - destruct (Rlt_dec (-25) 0); [reflexivity|lra].
  - rewrite Rabs_left; lra.
  - rewrite Rabs_left; simpl; lra.
Qed.

Example toFixed_NaN (h : Host) : toFixed h NaN 1 = "NaN".
Proof. reflexivity. Qed.

Example parseFloat_NaN : parseFloat "NaN" = NaN.
Proof. reflexivity. Qed.

Example parseFloat_100 : parseFloat "100.0" = Num 100.
Proof.
  unfold parseFloat.
  change (read_decimal _) with (Some (false, 1000%N, 1%nat, 0%Z)).
  cbn. f_equal. rewrite !Rmult_1_r. lra.
Qed.

Example parseFloat_exponent : parseFloat "  -8.5e1 km" = Num (-85).
Proof.
  unfold parseFloat.
  change (read_decimal _) with (Some (true, 85%N, 1%nat, 1%Z)).
  cbn. f_equal. change (Pos.to_nat 1) with 1%nat. lra.
Qed.

Example digits_384400 : string_of_list_ascii (digits 384400) = "384400".
Proof. reflexivity. Qed.

End JSFacts.

(** ** Arithmetic of the number model *)

Module NumFacts.
Import JS.

Lemma lt_Num (x y : R) : (Num x <? Num y)%js = true <-> x < y.
Proof.
  unfold lt. destruct (Rlt_dec x y); split; intros; try easy.
Qed.

Lemma lt_Num_false (x y : R) : (Num x <? Num y)%js = false <-> y <= x.
Proof.
  unfold lt. destruct (Rlt_dec x y); split; intros; try easy; lra.
Qed.

Lemma le_Num (x y : R) : (Num x <=? Num y)%js = true <-> x <= y.
Proof.
  unfold le. destruct (Rle_dec x y); split; intros; try easy.
Qed.

Lemma lt_inv (a b : number) :
  (a <? b)%js = true -> exists x y, a = Num x /\ b = Num y /\ x < y.
Proof.
  destruct a as [|x], b as [|y]; simpl; try discriminate.
  intros H. exists x, y. repeat split. now apply lt_Num.
Qed.


Lemma div_Num (x y : R) : y <> 0 -> (Num x / Num y)%js = Num (x / y).
Proof.
  intros Hy. unfold div. destruct (Req_dec_T y 0); [contradiction|reflexivity].
Qed.

Lemma Zfloor_INR (n : nat) : Zfloor (INR n) = Z.of_nat n.
Proof. apply Zfloor_eq. rewrite <- INR_IZR_INZ. lra. Qed.

(** A whole positive exponent is repeated multiplication, whatever the sign
    of the base. *)
Lemma Math_pow_nat (x : R) (n : nat) :
  n <> O -> Math_pow (Num x) (Num (INR n)) = Num (x ^ n).
Proof.
  intros Hn. unfold Math_pow.
  assert (0 < INR n) by (apply lt_0_INR; lia).
  destruct (Req_dec_T (INR n) 0) as [E|_]; [lra|].
  destruct (Rlt_dec 0 x) as [Hx|Hx].
  - now rewrite Rpower_pow.
  - destruct (Req_dec_T x 0) as [->|Hx0].
    + destruct (Rlt_dec 0 (INR n)); [|lra].
      rewrite pow_i by lia. reflexivity.
    + unfold integral. rewrite Zfloor_INR, <- INR_IZR_INZ.
      destruct (Req_dec_T (INR n) (INR n)); [|contradiction].
      now rewrite <- pow_powerRZ.
Qed.

Lemma Math_pow_2 (x : R) : Math_pow (Num x) (Num 2) = Num (x ^ 2).
Proof. now rewrite <- (Math_pow_nat x 2); [repeat f_equal; simpl; lra|]. Qed.

Lemma Math_pow_3 (x : R) : Math_pow (Num x) (Num 3) = Num (x ^ 3).
Proof. now rewrite <- (Math_pow_nat x 3); [repeat f_equal; simpl; lra|]. Qed.

(** A positive base under a non-zero exponent. *)
Lemma Math_pow_pos (x y : R) :
  0 < x -> y <> 0 -> Math_pow (Num x) (Num y) = Num (Rpower x y).
Proof.
  intros Hx Hy. unfold Math_pow.
  destruct (Req_dec_T y 0); [contradiction|].
  destruct (Rlt_dec 0 x); [reflexivity|contradiction].
Qed.

(** Zero under a positive exponent. *)
Lemma Math_pow_zero (y : R) : 0 < y -> Math_pow (Num 0) (Num y) = Num 0.
Proof.
  intros Hy. unfold Math_pow.
  destruct (Req_dec_T y 0); [lra|].
  destruct (Rlt_dec 0 0); [lra|].
  destruct (Req_dec_T 0 0); [|contradiction].
  destruct (Rlt_dec 0 y); [reflexivity|contradiction].
Qed.

(** A negative base under an exponent that is not a whole number. *)
Lemma Math_pow_neg (x y : R) :
  x < 0 -> y <> IZR (Zfloor y) -> Math_pow (Num x) (Num y) = NaN.
Proof.
  intros Hx Hy. unfold Math_pow, integral.
  destruct (Req_dec_T y 0) as [->|_].
  - exfalso. apply Hy. rewrite (Zfloor_eq 0); [reflexivity|simpl; lra].
  - destruct (Rlt_dec 0 x); [lra|].
    destruct (Req_dec_T x 0); [lra|].
    destruct (Req_dec_T y (IZR (Zfloor y))); [contradiction|reflexivity].
Qed.

End NumFacts.

(** ** The engine *)

Module EngineFacts.
Import JS JSFacts NumFacts.

Lemma or_else_Some (x : R) (d : number) :
  x <> 0 -> (Some (Num x) || d)%js = Num x.
Proof.
  intros Hx. unfold or_else, truthy.
  destruct (Req_dec_T x 0); [contradiction|reflexivity].
Qed.

Lemma lookup_STONY : DENSITY_MAP !! AsteroidType.STONY = Some (Num 2700).
Proof. reflexivity. Qed.

Lemma lookup_METALLIC : DENSITY_MAP !! AsteroidType.METALLIC = Some (Num 7870).
Proof. reflexivity. Qed.

Lemma lookup_ICY : DENSITY_MAP !! AsteroidType.ICY = Some (Num 1000).
Proof. reflexivity. Qed.

Lemma lookup_CARBONACEOUS :
  DENSITY_MAP !! AsteroidType.CARBONACEOUS = Some (Num 1300).
Proof. reflexivity. Qed.

Lemma lookup_other (t : string) :
  t ∉ AsteroidType.members -> DENSITY_MAP !! t = None.
Proof.
  unfold AsteroidType.members. intros Ht.
  repeat (apply not_elem_of_cons in Ht as [? Ht]).
  unfold DENSITY_MAP. rewrite !lookup_insert_ne by congruence.
  apply lookup_empty.
Qed.

(** The table lookup with its fallback is the specification's density. *)
Lemma density_lookup (t : string) :
  (DENSITY_MAP !! t || 2500)%js = Num (Spec.density t).
Proof.
  unfold Spec.density.
  destruct (String.eqb_spec t AsteroidType.STONY) as [->|H1];
    [rewrite lookup_STONY; apply or_else_Some; lra|].
  destruct (String.eqb_spec t AsteroidType.METALLIC) as [->|H2];
    [rewrite lookup_METALLIC; apply or_else_Some; lra|].
  destruct (String.eqb_spec t AsteroidType.ICY) as [->|H3];
    [rewrite lookup_ICY; apply or_else_Some; lra|].
  destruct (String.eqb_spec t AsteroidType.CARBONACEOUS) as [->|H4];
    [rewrite lookup_CARBONACEOUS; apply or_else_Some; lra|].
  rewrite lookup_other; [reflexivity|].
  unfold AsteroidType.members. rewrite !not_elem_of_cons.
  repeat split; auto. apply not_elem_of_nil.
Qed.

Lemma density_pos (t : string) : 0 < Spec.density t.
Proof.
  unfold Spec.density.
  repeat match goal with |- context [String.eqb ?a ?b] =>
    destruct (String.eqb a b) end; lra.
Qed.

(** Running the engine: the promise is fulfilled in each of the three
    branches of the distance test; the goal is left with the fields of the
    result. *)
Ltac run_engine :=
  unfold analyzeAsteroid; cbv zeta;
  repeat match goal with
  | |- context [if JS.lt ?a ?b then _ else _] => destruct (JS.lt a b) eqn:?
  end;
  (eexists; split; [reflexivity|]);
  cbn [isHit impactProbability kineticEnergyMegatons craterSizeMeters
       analysisSummary dimensionalProcess composition rawMarkdown timestamp].

Lemma fulfilled (h : Host) (now : number) (input : AsteroidInput) :
  exists r, analyzeAsteroid h now input = Fulfilled r
    /\ kineticEnergyMegatons r = Local.energyMt input
    /\ craterSizeMeters r = Local.craterDiameter input
    /\ composition r = getComposition (type input)
    /\ rawMarkdown r = "Generated via Local Physics Engine."
    /\ timestamp r = now.
Proof. run_engine; repeat split. Qed.

(** Evaluation of the arithmetic on numbers that are reals. *)
Ltac js_arith :=
  repeat first
    [ rewrite Math_pow_2 | rewrite Math_pow_3
    | rewrite div_Num by lra
    | progress cbn [add sub mul lift2 Math_max Math_min] ].

(** The mass and the energies of the derivation, for a diameter and a
    velocity that are reals (no sign condition is needed). *)
Lemma mass_value (input : AsteroidInput) (d : R) :
  diameter input = Num d ->
  Local.mass input
  = Num (Spec.density (type input) * (4 / 3 * PI * (d / 2) ^ 3)).
Proof.
  intros Hd. unfold Local.mass, Local.volume, Local.radius, Local.density.
  rewrite density_lookup, Hd. unfold Math_PI. now js_arith.
Qed.

Lemma energyJoules_value (input : AsteroidInput) (d v : R) :
  diameter input = Num d -> velocity input = Num v ->
  Local.energyJoules input
  = Num (0.5 * (Spec.density (type input) * (4 / 3 * PI * (d / 2) ^ 3))
         * (v * 1000) ^ 2).
Proof.
  intros Hd Hv. unfold Local.energyJoules, Local.velocityMs.
  rewrite (mass_value input d Hd), Hv. now js_arith.
Qed.

Lemma energyMt_value (input : AsteroidInput) (d v : R) :
  diameter input = Num d -> velocity input = Num v ->
  Local.energyMt input
  = Num (0.5 * (Spec.density (type input) * (4 / 3 * PI * (d / 2) ^ 3))
         * (v * 1000) ^ 2 / 4.184e15).
Proof.
  intros Hd Hv. unfold Local.energyMt, TNT_JOULES.
  rewrite (energyJoules_value input d v Hd Hv). now js_arith.
Qed.

(** *** The probability clean-up *)

Lemma round1_le (x y : R) : x <= y -> Spec.round1 x <= Spec.round1 y.
Proof.
  intros Hxy. unfold Spec.round1, round_half_up.
  apply Rmult_le_compat_r; [simpl; lra|].
  apply IZR_le, Zfloor_le. simpl. lra.
Qed.

(** A value with a single decimal is left as it is. *)
Lemma round1_tenths (k : Z) : Spec.round1 (IZR k / 10) = IZR k / 10.
Proof.
  unfold Spec.round1, round_half_up. rewrite (Zfloor_eq k); simpl; lra.
Qed.

Lemma round1_0 : Spec.round1 0 = 0.
Proof. replace 0 with (IZR 0 / 10) by lra. apply round1_tenths. Qed.

Lemma round1_100 : Spec.round1 100 = 100.
Proof.
  replace 100 with (IZR 1000 / 10) by lra. apply round1_tenths.
Qed.

Lemma round1_range (p : R) :
  0 <= p <= 100 -> 0 <= Spec.round1 p <= 100.
Proof.
  intros [H0 H100].
  pose proof (round1_le 0 p H0) as L. rewrite round1_0 in L.
  pose proof (round1_le p 100 H100) as U. rewrite round1_100 in U.
  split; assumption.
Qed.

Lemma clamp_id (p : R) : 0 <= p <= 100 -> Spec.clamp p = p.
Proof.
  intros [H0 H100]. unfold Spec.clamp.
  rewrite Rmin_right by lra. now rewrite Rmax_right.
Qed.

(** Line 63 of the source on a probability already in range: the value is
    printed with one decimal, read back, and the clamp changes nothing. *)
Lemma cleanup_in_range (h : Host) (p : R) :
  0 <= p <= 100 ->
  Math_max 0 (Math_min 100 (parseFloat (toFixed h (Num p) 1)))
  = Num (Spec.round1 p).
Proof.
  intros Hp. rewrite parseFloat_toFixed.
  - destruct (Rlt_dec p 0); [lra|].
    rewrite Rabs_pos_eq by lra. cbn [Math_max Math_min lift2]. f_equal.
    apply (clamp_id (round_half_up 1 p)), round1_range, Hp.
  - rewrite Rabs_pos_eq by lra. lra.
Qed.


(** The two fields the classifier decides, for a distance that is a real. *)
Lemma impact_fields (h : Host) (now : number) (input : AsteroidInput) (d : R) :
  distance input = Num d ->
  exists r, analyzeAsteroid h now input = Fulfilled r
    /\ impactProbability r = Num (Spec.round1 (Spec.probability d))
    /\ isHit r = (if Rlt_dec 60 (Spec.probability d) then true else false).
Proof.
  intros Hd. run_engine; rewrite Hd in *; unfold EARTH_RADIUS_KM in *;
    cbn [add sub mul lift2] in *;
    repeat match goal with
    | H : (Num _ <? Num _)%js = true |- _ => apply lt_Num in H
    | H : (Num _ <? Num _)%js = false |- _ => apply lt_Num_false in H
    end;
    unfold Spec.probability;
    (destruct (Rlt_dec d 8371); [try lra|]);
    try (destruct (Rlt_dec d 50000); [try lra|]); try lra.
  - rewrite cleanup_in_range by lra.
    destruct (Rlt_dec 60 100); [auto|lra].
  - rewrite div_Num by lra. cbn [sub mul lift2].
    assert (E : 100 * (1 - (d - (6371 + 2000)) / (50000 - (6371 + 2000)))
                = 100 * (1 - (d - 8371) / (50000 - 8371))) by lra.
    rewrite E. rewrite cleanup_in_range by lra.
    split; [reflexivity|]. unfold gt, lt.
    destruct (Rlt_dec 60 _); reflexivity.
  - rewrite cleanup_in_range by lra.
    destruct (Rlt_dec 60 0); [lra|auto].
Qed.


(** *** The crater estimate *)

Lemma mul_NaN_r (a : number) : (a * NaN)%js = NaN.
Proof. now destruct a. Qed.

Lemma not_whole_078 : 0.78 <> IZR (Zfloor 0.78).
Proof. rewrite (Zfloor_eq 0); simpl; lra. Qed.

Lemma not_whole_044 : 0.44 <> IZR (Zfloor 0.44).
Proof. rewrite (Zfloor_eq 0); simpl; lra. Qed.

Lemma term1_value (input : AsteroidInput) :
  Local.term1 input = Num (Rpower (Spec.density (type input) / 2500) (1 / 3)).
Proof.
  unfold Local.term1, Local.density. rewrite density_lookup.
  rewrite !div_Num by lra. apply Math_pow_pos; [|lra].
  pose proof (density_pos (type input)). lra.
Qed.

Lemma term4_value : Local.term4 = Num (Rpower 9.81 (-0.22)).
Proof. unfold Local.term4. apply Math_pow_pos; lra. Qed.

Lemma Rpower_pos (x y : R) : 0 < Rpower x y.
Proof. unfold Rpower. apply exp_pos. Qed.

(** The crater diameter for a positive diameter and a positive velocity. *)
Lemma crater_value (input : AsteroidInput) (d v : R) :
  diameter input = Num d -> velocity input = Num v -> 0 < d -> 0 < v ->
  Local.craterDiameter input
  = Num (1.161 * Rpower (Spec.density (type input) / 2500) (1 / 3)
         * Rpower d 0.78 * Rpower (v * 1000) 0.44 * Rpower 9.81 (-0.22)).
Proof.
  intros Hd Hv Hdpos Hvpos. unfold Local.craterDiameter.
  rewrite term1_value, term4_value.
  unfold Local.term2, Local.term3, Local.velocityMs. rewrite Hd, Hv.
  cbn [mul lift2].
  rewrite (Math_pow_pos d 0.78), (Math_pow_pos (v * 1000) 0.44) by lra.
  reflexivity.
Qed.

(** A diameter of zero, or a velocity of zero, makes one factor zero. *)
Lemma crater_zero_diameter (input : AsteroidInput) (v : R) :
  diameter input = Num 0 -> velocity input = Num v -> 0 < v ->
  Local.craterDiameter input = Num 0.
Proof.
  intros Hd Hv Hvpos. unfold Local.craterDiameter.
  rewrite term1_value, term4_value.
  unfold Local.term2, Local.term3, Local.velocityMs. rewrite Hd, Hv.
  cbn [mul lift2].
  rewrite (Math_pow_zero 0.78), (Math_pow_pos (v * 1000) 0.44) by lra.
  cbn [mul lift2]. f_equal. lra.
Qed.

Lemma crater_zero_velocity (input : AsteroidInput) (d : R) :
  diameter input = Num d -> velocity input = Num 0 -> 0 < d ->
  Local.craterDiameter input = Num 0.
Proof.
  intros Hd Hv Hdpos. unfold Local.craterDiameter.
  rewrite term1_value, term4_value.
  unfold Local.term2, Local.term3, Local.velocityMs. rewrite Hd, Hv.
  cbn [mul lift2]. replace (0 * 1000) with 0 by lra.
  rewrite (Math_pow_zero 0.44), (Math_pow_pos d 0.78) by lra.
  cbn [mul lift2]. f_equal. lra.
Qed.

(** A negative diameter, or a negative velocity, makes one factor [NaN]. *)
Lemma crater_negative_diameter (input : AsteroidInput) (d : R) :
  diameter input = Num d -> d < 0 -> Local.craterDiameter input = NaN.
Proof.
  intros Hd Hneg. unfold Local.craterDiameter, Local.term2.
  rewrite Hd, (Math_pow_neg d 0.78 Hneg not_whole_078).
  now rewrite mul_NaN_r.
Qed.

Lemma crater_negative_velocity (input : AsteroidInput) (v : R) :
  velocity input = Num v -> v < 0 -> Local.craterDiameter input = NaN.
Proof.
  intros Hv Hneg. unfold Local.craterDiameter, Local.term3, Local.velocityMs.
  rewrite Hv. cbn [mul lift2].
  rewrite (Math_pow_neg (v * 1000) 0.44) by (lra || apply not_whole_044).
  now rewrite mul_NaN_r.
Qed.

(** *** The default input, end to end

    Diameter 50 m, velocity 17 km/s, Stony: radius 25 m, 17000 m/s, about
    2.55e16 J and 6.10 megatons, printed as "25.00 m" and "6.10 MT". *)

Lemma PI_bounds : 3.141 < PI < 3.142.
Proof.
  pose proof (PI_2_3_7_ineq 2) as H.
  unfold sum_f_R0, tg_alt, PI_2_3_7_tg, Ratan_seq in H.
  simpl in H. lra.
Qed.

Example default_radius : Local.radius DEFAULT_INPUT = Num 25.
Proof.
  unfold Local.radius, DEFAULT_INPUT. cbn [diameter].
  rewrite div_Num by lra. f_equal. lra.
Qed.

Example default_velocityMs : Local.velocityMs DEFAULT_INPUT = Num 17000.
Proof.
  unfold Local.velocityMs, DEFAULT_INPUT. cbn [velocity mul lift2].
  f_equal. lra.
Qed.

Example default_energyJoules :
  exists e, Local.energyJoules DEFAULT_INPUT = Num e
    /\ 2.55e16 < e < 2.56e16.
Proof.
  eexists. split.
  - apply (energyJoules_value DEFAULT_INPUT 50 17); reflexivity.
  - change (Spec.density (type DEFAULT_INPUT)) with 2700.
    pose proof PI_bounds. lra.
Qed.

Example default_energyMt :
  exists e, Local.energyMt DEFAULT_INPUT = Num e /\ 6.10 < e < 6.105.
Proof.
  eexists. split.
  - apply (energyMt_value DEFAULT_INPUT 50 17); reflexivity.
  - change (Spec.density (type DEFAULT_INPUT)) with 2700.
    pose proof PI_bounds. lra.
Qed.

Example default_first_step (h : Host) :
  toFixed h (Local.radius DEFAULT_INPUT) 2 +:+ " m" = "25.00 m".
Proof.
  rewrite default_radius, (toFixed_text h 25 2 2500).
  - destruct (Rlt_dec 25 0); [lra|reflexivity].
  - rewrite Rabs_pos_eq; lra.
  - rewrite Rabs_pos_eq; simpl; lra.
Qed.

Example default_last_step (h : Host) :
  toFixed h (Local.energyMt DEFAULT_INPUT) 2 +:+ " MT" = "6.10 MT".
Proof.
  destruct default_energyMt as (e & -> & He).
  rewrite (toFixed_text h e 2 610).
  - destruct (Rlt_dec e 0); [lra|reflexivity].
  - rewrite Rabs_pos_eq; lra.
  - rewrite Rabs_pos_eq; simpl; lra.
Qed.

Example default_severity :
  Spec.severity (Local.energyMt DEFAULT_INPUT) = "Regional Destruction".
Proof.
  destruct default_energyMt as (e & -> & He). unfold Spec.severity, lt.
  destruct (Rlt_dec e 1); [lra|]. destruct (Rlt_dec e 100); [reflexivity|lra].
Qed.

(** In the decay band: 20000 km gives 72.1 % and a hit, 33000 km gives
    40.8 % and a miss. *)
Example band_20000 (h : Host) (now : number) :
  exists r, analyzeAsteroid h now (with_distance DEFAULT_INPUT 20000)
            = Fulfilled r
    /\ impactProbability r = Num 72.1 /\ isHit r = true.
Proof.
  destruct (impact_fields h now (with_distance DEFAULT_INPUT 20000) 20000
              eq_refl) as (r & Hr & Hp & Hh).
  exists r. split; [exact Hr|]. rewrite Hp, Hh. clear Hp Hh.
  unfold Spec.probability. destruct (Rlt_dec 20000 8371); [lra|].
  destruct (Rlt_dec 20000 50000); [|lra]. split.
  - f_equal. unfold Spec.round1, round_half_up.
    rewrite (Zfloor_eq 721); simpl; lra.
  - destruct (Rlt_dec 60 _); [reflexivity|lra].
Qed.

Example band_33000 (h : Host) (now : number) :
  exists r, analyzeAsteroid h now (with_distance DEFAULT_INPUT 33000)
            = Fulfilled r
    /\ impactProbability r = Num 40.8 /\ isHit r = false.
Proof.
  destruct (impact_fields h now (with_distance DEFAULT_INPUT 33000) 33000
              eq_refl) as (r & Hr & Hp & Hh).
  exists r. split; [exact Hr|]. rewrite Hp, Hh. clear Hp Hh.
  unfold Spec.probability. destruct (Rlt_dec 33000 8371); [lra|].
  destruct (Rlt_dec 33000 50000); [|lra]. split.
  - f_equal. unfold Spec.round1, round_half_up.
    rewrite (Zfloor_eq 408); simpl; lra.
  - destruct (Rlt_dec 60 _); [lra|reflexivity].
Qed.

Example default_target : toUpperCase silent_host (name DEFAULT_INPUT) = "NEO-X1".
Proof. reflexivity. Qed.


End EngineFacts.

(** ** The binary64 engine

    Facts about the primitive operations, through their specification
    [SpecFloat], and about the engine of [F64]. *)

Module F64Facts.
Import Floats.FloatClass Floats.PrimFloat Floats.SpecFloat Floats.FloatOps
  Floats.FloatAxioms.
Import F64.
#[local] Set Warnings "-inexact-float".
Local Open Scope float_scope.

(** *** [NaN], the zeros and the infinities under the operations *)

Lemma SFcompare_refl (x : spec_float) :
  x <> S754_nan -> SFcompare x x = Some Eq.
Proof.
  destruct x as [s|s| |s m e]; try easy; intros _; simpl.
  - now destruct s.
  - rewrite Z.compare_refl, Pos.compare_cont_refl. now destruct s.
Qed.

Lemma is_nan_spec (x : float) : is_nan x = true <-> Prim2SF x = S754_nan.
Proof.
  unfold is_nan. rewrite eqb_spec. unfold SFeqb. split.
  - intros H. destruct (Prim2SF x) eqn:E; try reflexivity;
      rewrite SFcompare_refl in H by discriminate; discriminate.
  - now intros ->.
Qed.

Lemma is_nan_false (x : float) :
  is_nan x = false <-> Prim2SF x <> S754_nan.
Proof.
  rewrite <- is_nan_spec. now destruct (is_nan x).
Qed.

Lemma eq_nan (x : float) : Prim2SF x = S754_nan -> x = nan.
Proof. intros H. now apply Prim2SF_inj. Qed.

Lemma is_zero_spec (x : float) :
  is_zero x = true <-> exists s, Prim2SF x = S754_zero s.
Proof.
  unfold is_zero. rewrite eqb_spec. unfold SFeqb.
  change (Prim2SF zero) with (S754_zero false). split.
  - destruct (Prim2SF x) as [s|s| |s m e]; simpl; try discriminate;
      [now exists s| |]; now destruct s.
  - now intros [s ->].
Qed.

Lemma is_infinity_spec (x : float) :
  is_infinity x = true <-> exists s, Prim2SF x = S754_infinity s.
Proof.
  unfold is_infinity. rewrite eqb_spec, abs_spec. unfold SFeqb.
  change (Prim2SF infinity) with (S754_infinity false). split.
  - destruct (Prim2SF x) as [s|s| |s m e]; simpl; try discriminate.
    now exists s.
  - now intros [s ->].
Qed.

(** A finite number is a zero or has a mantissa and an exponent. *)
Lemma is_finite_spec (x : float) :
  is_finite x = true <->
  (exists s, Prim2SF x = S754_zero s)
  \/ (exists s m e, Prim2SF x = S754_finite s m e).
Proof.
  unfold is_finite. split.
  - intros H. apply negb_true_iff, orb_false_iff in H as [Hn Hi].
    apply is_nan_false in Hn.
    destruct (Prim2SF x) as [s|s| |s m e] eqn:E; try contradiction.
    + left. now exists s.
    + assert (is_infinity x = true) by (apply is_infinity_spec; eauto).
      congruence.
    + right. now exists s, m, e.
  - intros H. apply negb_true_iff, orb_false_iff. split.
    + apply is_nan_false. destruct H as [[s ->]|(s & m & e & ->)]; discriminate.
    + destruct (is_infinity x) eqn:E; [|reflexivity].
      apply is_infinity_spec in E as [s E].
      destruct H as [[s' H]|(s' & m & e & H)]; congruence.
Qed.

(** A number is falsy when it is [NaN] or a zero. *)
Lemma falsy_spec (x : float) :
  ToBoolean (Number x) = false <->
  Prim2SF x = S754_nan \/ exists s, Prim2SF x = S754_zero s.
Proof.
  unfold ToBoolean. rewrite negb_false_iff, orb_true_iff.
  now rewrite is_nan_spec, is_zero_spec.
Qed.

Lemma mul_nan_l (x : float) : nan * x = nan.
Proof. apply Prim2SF_inj. rewrite mul_spec. reflexivity. Qed.

Lemma mul_nan_r (x : float) : x * nan = nan.
Proof.
  apply Prim2SF_inj. rewrite mul_spec.
  change (Prim2SF nan) with S754_nan. now destruct (Prim2SF x).
Qed.

Lemma div_nan_l (x : float) : nan / x = nan.
Proof. apply Prim2SF_inj. rewrite div_spec. reflexivity. Qed.

(** A product with a zero is a zero or [NaN]. *)
Lemma mul_zero_falsy (x y : float) :
  is_zero y = true -> ToBoolean (Number (x * y)) = false.
Proof.
  intros [s Hy]%is_zero_spec. apply falsy_spec. rewrite mul_spec, Hy.
  destruct (Prim2SF x) as [sx|sx| |sx mx ex]; simpl; eauto.
Qed.

Lemma mul_falsy_l (x y : float) :
  ToBoolean (Number x) = false -> ToBoolean (Number (x * y)) = false.
Proof.
  intros [Hx|[s Hx]]%falsy_spec; apply falsy_spec; rewrite mul_spec, Hx.
  - now left.
  - destruct (Prim2SF y) as [sy|sy| |sy my ey]; simpl; eauto.
Qed.

(** Zero times infinity: [NaN]. *)
Lemma falsy_mul_infinity (x y : float) :
  ToBoolean (Number x) = false -> is_infinity y = true -> x * y = nan.
Proof.
  intros [Hx|[s Hx]]%falsy_spec [sy Hy]%is_infinity_spec;
    apply eq_nan; rewrite mul_spec, Hx, Hy; reflexivity.
Qed.

Lemma falsy_not_positive (x : float) :
  ToBoolean (Number x) = false -> (0 <? x) = false.
Proof.
  intros [Hx|[s Hx]]%falsy_spec; rewrite ltb_spec, Hx; reflexivity.
Qed.

Lemma falsy_nan_or_zero (x : float) :
  ToBoolean (Number x) = false -> x = nan \/ is_zero x = true.
Proof.
  intros [Hx|Hx]%falsy_spec; [left; now apply eq_nan|right].
  now apply is_zero_spec.
Qed.

(** A zero times a finite number, and a zero divided by a finite number
    that is not a zero, are zeros. *)
Lemma mul_zero_finite (x y : float) :
  is_zero x = true -> is_finite y = true -> is_zero (x * y) = true.
Proof.
  intros [s Hx]%is_zero_spec Hy%is_finite_spec. apply is_zero_spec.
  rewrite mul_spec, Hx.
  destruct Hy as [[sy ->]|(sy & m & e & ->)]; simpl; eauto.
Qed.

Lemma mul_finite_zero (x y : float) :
  is_finite x = true -> is_zero y = true -> is_zero (x * y) = true.
Proof.
  intros Hx%is_finite_spec [s Hy]%is_zero_spec. apply is_zero_spec.
  rewrite mul_spec, Hy.
  destruct Hx as [[sx ->]|(sx & m & e & ->)]; simpl; eauto.
Qed.

Lemma div_zero_finite (x y : float) :
  is_zero x = true -> is_finite y = true -> is_zero y = false ->
  is_zero (x / y) = true.
Proof.
  intros [s Hx]%is_zero_spec Hy%is_finite_spec Hnz. apply is_zero_spec.
  rewrite div_spec, Hx.
  destruct Hy as [[sy Hy]|(sy & m & e & ->)]; simpl; eauto.
  assert (is_zero y = true) by (apply is_zero_spec; eauto). congruence.
Qed.

Lemma mul_falsy_r (x y : float) :
  F64.ToBoolean (F64.Number y) = false ->
  F64.ToBoolean (F64.Number (x * y)) = false.
Proof.
  intros [->|Hy]%falsy_nan_or_zero.
  - now rewrite mul_nan_r.
  - now apply mul_zero_falsy.
Qed.

Lemma is_zero_finite (x : float) : is_zero x = true -> is_finite x = true.
Proof. intros H%is_zero_spec. apply is_finite_spec. now left. Qed.

End F64Facts.

Module F64Engine.
Import Floats.FloatClass Floats.PrimFloat Floats.SpecFloat Floats.FloatOps
  Floats.FloatAxioms.
Import F64 F64Facts.
#[local] Set Warnings "-inexact-float".
Local Open Scope float_scope.

(** *** [Math.pow] in the cases the language fixes *)

Lemma classify_zero (x : float) :
  is_zero x = true -> classify x = PZero \/ classify x = NZero.
Proof.
  intros [s H]%is_zero_spec. rewrite classify_spec, H.
  destruct s; [now right|now left].
Qed.

Lemma zero_not_nan (x : float) : is_zero x = true -> is_nan x = false.
Proof.
  intros [s H]%is_zero_spec. apply is_nan_false. now rewrite H.
Qed.

(** A zero to a positive power is a zero. *)
Lemma Math_pow_zero_base (h : Host) (x y : float) :
  is_zero x = true -> (0 <? y) = true ->
  is_zero (Math_pow h x y) = true.
Proof.
  intros Hx Hy. unfold Math_pow.
  assert (Hyn : is_nan y = false).
  { apply is_nan_false. intros E. rewrite ltb_spec, E in Hy. discriminate. }
  assert (Hyz : is_zero y = false).
  { destruct (is_zero y) eqn:E; [|reflexivity].
    apply is_zero_spec in E as [s E]. rewrite ltb_spec, E in Hy.
    discriminate. }
  rewrite Hyn, Hyz, (zero_not_nan x Hx), Hy.
  destruct (classify_zero x Hx) as [-> | ->];
    destruct (is_odd_integer y); reflexivity.
Qed.

(** Plus infinity to a positive power is plus infinity. *)
Lemma Math_pow_infinity_base (h : Host) (y : float) :
  (0 <? y) = true -> Math_pow h infinity y = infinity.
Proof.
  intros Hy. unfold Math_pow.
  assert (Hyn : is_nan y = false).
  { apply is_nan_false. intros E. rewrite ltb_spec, E in Hy. discriminate. }
  assert (Hyz : is_zero y = false).
  { destruct (is_zero y) eqn:E; [|reflexivity].
    apply is_zero_spec in E as [s E]. rewrite ltb_spec, E in Hy.
    discriminate. }
  rewrite Hyn, Hyz. change (is_nan infinity) with false.
  change (classify infinity) with PInf. cbv iota. now rewrite Hy.
Qed.

(** *** The density *)

Lemma density_member (input : AsteroidInput) :
  type input ∈ AsteroidType.members ->
  density input = Number (Spec.density (type input)).
Proof.
  unfold density, AsteroidType.members. intros Ht.
  repeat (apply elem_of_cons in Ht as [->|Ht]);
    [| | | |apply elem_of_nil in Ht; contradiction]; reflexivity.
Qed.

Lemma density_inherited (input : AsteroidInput) :
  type input ∈ Object_prototype ->
  density input = Inherited (type input).
Proof.
  unfold density, Object_prototype. intros Ht.
  repeat (apply elem_of_cons in Ht as [->|Ht]);
    try (apply elem_of_nil in Ht; contradiction); reflexivity.
Qed.

Lemma density_other (input : AsteroidInput) :
  type input ∉ AsteroidType.members ->
  type input ∉ Object_prototype ->
  density input = Number 2500.
Proof.
  intros Hm Hp. unfold density, Get.
  assert (Hown : DENSITY_MAP !! type input = None).
  { unfold DENSITY_MAP.
    rewrite !lookup_insert_ne, lookup_empty; [reflexivity|..];
      intros E; apply Hm; rewrite <- E; unfold AsteroidType.members;
      repeat first [apply list_elem_of_here | apply list_elem_of_further]. }
  rewrite Hown.
  assert (Hex : existsb (String.eqb (type input)) Object_prototype = false).
  { apply not_true_is_false. intros E. apply existsb_exists in E as (k & Hk & E).
    apply String.eqb_eq in E. subst k. apply Hp, list_elem_of_In, Hk. }
  now rewrite Hex.
Qed.

(** *** The fields of the result *)

Lemma fulfilled64 (h : Host) (now : float) (input : AsteroidInput) :
  exists r, analyzeAsteroid h now input = Fulfilled r
    /\ isHit r = (60 <? Spec.probability (distance input))
    /\ impactProbability r
       = Spec.clamp
           (parseFloat (toFixed h (Spec.probability (distance input)) 1))
    /\ kineticEnergyMegatons r = energyMt h input
    /\ craterSizeMeters r = craterDiameter h input
    /\ composition r = getComposition (type input)
    /\ timestamp r = now.
Proof.
  unfold analyzeAsteroid, Spec.probability.
  change (EARTH_RADIUS_KM + 2000) with 8371.
  destruct (distance input <? 8371); [|destruct (distance input <? 50000)];
    eexists; (split; [reflexivity|]); repeat split.
Qed.

(** The values the trace prints are the local constants from which the
    numeric fields are computed. *)
Lemma trace64 (h : Host) (now : float) (input : AsteroidInput) :
  exists r, analyzeAsteroid h now input = Fulfilled r
    /\ map result (dimensionalProcess r)
       = [ toFixed h (radius input) 2 +:+ " m";
           toExponential h (volume h input) 2 +:+ " m³";
           toExponential h (mass h input) 2 +:+ " kg";
           toLocaleString h (velocityMs input) None +:+ " m/s";
           toExponential h (energyJoules h input) 2 +:+ " J";
           toFixed h (kineticEnergyMegatons r) 2 +:+ " MT" ]
    /\ kineticEnergyMegatons r = energyJoules h input / 4.184e15
    /\ craterSizeMeters r = craterDiameter h input.
Proof.
  unfold analyzeAsteroid.
  destruct (distance input <? EARTH_RADIUS_KM + 2000);
    [|destruct (distance input <? 50000)];
    eexists; (split; [reflexivity|]); repeat split.
Qed.

End F64Engine.

Module F64Print.
Import Floats.FloatClass Floats.PrimFloat Floats.SpecFloat Floats.FloatOps
  Floats.FloatAxioms.
Import JS JSFacts F64 F64Facts.
#[local] Set Warnings "-inexact-float".
Local Open Scope float_scope.

(** *** Reading back what [toFixed] printed *)

(** The digits [toFixed] prints for [n] with at least one decimal: digits,
    a point, [f] digits, and their value is [n]. *)
Lemma fixed_digits_split (n : N) (f : nat) :
  exists a b,
    fixed_digits n (S f) = a ++ ["."%char] ++ b
    /\ all_digits a /\ all_digits b /\ a <> []
    /\ digits_value (a ++ b) = n /\ length b = S f.
Proof.
  unfold fixed_digits. cbv zeta.
  set (m := if (length (digits n) <=? S f)%nat
            then replicate (S f + 1 - length (digits n)) "0"%char ++ digits n
            else digits n).
  assert (Hall : all_digits m).
  { subst m. destruct (length (digits n) <=? S f)%nat.
    - apply Forall_app; split; [|apply digits_aux_all].
      apply Forall_replicate. reflexivity.
    - apply digits_aux_all. }
  assert (Hval : digits_value m = n).
  { subst m. destruct (length (digits n) <=? S f)%nat.
    - rewrite digits_value_zeros. apply digits_value_digits.
    - apply digits_value_digits. }
  assert (Hlen : (S f < length m)%nat).
  { subst m. destruct (Nat.leb_spec (length (digits n)) (S f)) as [Hk|Hk].
    - rewrite length_app, length_replicate. lia.
    - exact Hk. }
  exists (take (length m - S f) m), (drop (length m - S f) m).
  split; [reflexivity|].
  split; [apply Forall_take, Hall|]. split; [apply Forall_drop, Hall|].
  split.
  - intros E. apply (f_equal length) in E. rewrite length_take in E.
    simpl in E. lia.
  - rewrite take_drop, length_drop. split; [exact Hval|lia].
Qed.

Lemma parseFloat_fixed (neg : bool) (n : N) (f : nat) :
  parseFloat
    (string_of_list_ascii
       ((if neg then ["-"%char] else []) ++ fixed_digits n (S f)))
  = of_decimal neg n (- Z.of_nat (S f)).
Proof.
  destruct (fixed_digits_split n f) as (a & b & -> & Ha & Hb & Hne & Hv & Hl).
  unfold parseFloat. rewrite list_ascii_of_string_of_list_ascii.
  rewrite (read_decimal_fixed neg a b Ha Hb Hne), Hv, Hl.
  destruct a as [|c a]; [contradiction|].
  assert (Hc : is_digit c = true) by (inversion Ha; assumption).
  assert (Hsp : is_space c = false) by (apply digit_not_space, Hc).
  assert (Hm : Ascii.eqb c "-" = false) by (apply digit_not_char; auto).
  assert (Hp : Ascii.eqb c "+" = false) by (apply digit_not_char; auto).
  assert (HI : String.prefix "Infinity"
                 (string_of_list_ascii ((c :: a) ++ ["."%char] ++ b)) = false).
  { cbn [app string_of_list_ascii String.prefix].
    destruct (ascii_dec "I" c) as [<-|_]; [discriminate|reflexivity]. }
  destruct neg.
  - change (trim_start (["-"%char] ++ (c :: a) ++ ["."%char] ++ b))
      with (["-"%char] ++ (c :: a) ++ ["."%char] ++ b).
    change (read_sign (["-"%char] ++ (c :: a) ++ ["."%char] ++ b))
      with (true, (c :: a) ++ ["."%char] ++ b).
    cbv iota. now rewrite HI.
  - change ([] ++ (c :: a) ++ ["."%char] ++ b)
      with ((c :: a) ++ ["."%char] ++ b).
    assert (Htrim : trim_start ((c :: a) ++ ["."%char] ++ b)
                    = (c :: a) ++ ["."%char] ++ b)
      by (simpl; now rewrite Hsp).
    assert (Hsign : read_sign ((c :: a) ++ ["."%char] ++ b)
                    = (false, (c :: a) ++ ["."%char] ++ b))
      by (simpl; now rewrite Hm, Hp).
    rewrite Htrim, Hsign. cbv iota. now rewrite HI.
Qed.

(** Reading back what [toFixed] printed with one decimal gives the number
    rounded to one decimal place, for a finite number below 10^21 in
    magnitude. *)
Lemma parseFloat_toFixed1 (h : Host) (x : float) :
  is_finite x = true -> (1e21 <=? abs x) = false ->
  parseFloat (toFixed h x 1) = Spec.round1 x.
Proof.
  intros Hfin Hsmall. unfold toFixed.
  apply negb_true_iff, orb_false_iff in Hfin as [-> ->].
  rewrite Hsmall. apply parseFloat_fixed.
Qed.

(** The binary64 value of 50.05 lies below the tie and goes down; a tie
    that is exact goes up, away from zero for a negative number. *)
Example round1_below_tie : Spec.round1 50.05 = 50.
Proof. vm_compute. reflexivity. Qed.

Example round1_tie : Spec.round1 0.25 = 0.3.
Proof. vm_compute. reflexivity. Qed.

Example round1_negative : Spec.round1 (-0.25) = (-0.3).
Proof. vm_compute. reflexivity. Qed.

Example toFixed_below_tie (h : Host) : toFixed h 50.05 1 = "50.0".
Proof. vm_compute. reflexivity. Qed.

Example parseFloat_tenth : parseFloat "50.1" = 50.1.
Proof. vm_compute. reflexivity. Qed.

End F64Print.

Module F64Bounds.
Import Floats.FloatClass Floats.PrimFloat Floats.SpecFloat Floats.FloatOps
  Floats.FloatAxioms.
Import F64 F64Facts.
#[local] Set Warnings "-inexact-float".
Local Open Scope Z_scope.

(** *** The size of a rounded result *)

Lemma digits2_size (p : positive) : digits2_pos p = Pos.size p.
Proof. induction p; simpl; congruence. Qed.

Lemma digits2_gt (p : positive) : Zpos p < 2 ^ Zpos (digits2_pos p).
Proof.
  rewrite digits2_size. pose proof (Pos.size_gt p) as H.
  apply Pos2Z.pos_lt_pos in H. now rewrite Pos2Z.inj_pow in H.
Qed.

Lemma digits2_le (p : positive) : 2 ^ (Zpos (digits2_pos p) - 1) <= Zpos p.
Proof.
  rewrite digits2_size. pose proof (Pos.size_le p) as H.
  apply Pos2Z.pos_le_pos in H.
  rewrite Pos2Z.inj_pow in H. change (Zpos p~0) with (2 * Zpos p) in H.
  replace (Zpos (Pos.size p)) with (Z.succ (Zpos (Pos.size p) - 1)) in H
    by lia.
  rewrite Z.pow_succ_r in H by lia. lia.
Qed.

(** A positive number below [2^k] has at most [k] digits. *)
Lemma digits2_bound (p : positive) (k : Z) :
  Zpos p < 2 ^ k -> Zpos (digits2_pos p) <= k.
Proof.
  intros H. pose proof (digits2_le p) as Hle.
  destruct (Z.le_gt_cases (Zpos (digits2_pos p)) k) as [|Hgt]; [assumption|].
  exfalso.
  assert (0 <= k).
  { destruct (Z.le_gt_cases 0 k); [assumption|].
    rewrite Z.pow_neg_r in H by lia. lia. }
  assert (2 ^ k <= 2 ^ (Zpos (digits2_pos p) - 1))
    by (apply Z.pow_le_mono_r; lia).
  lia.
Qed.

Lemma Zdigits2_bound (m k : Z) :
  0 <= m -> 0 <= k -> m < 2 ^ k -> Zdigits2 m <= k.
Proof.
  intros Hm Hk H. destruct m as [|p|p]; simpl; [lia| |lia].
  now apply digits2_bound.
Qed.

Lemma shr_1_m (r : shr_record) :
  0 <= shr_m r -> shr_m (shr_1 r) = shr_m r / 2.
Proof.
  destruct r as [m r s]. cbn [shr_m]. intros Hm.
  destruct m as [|[p|p|]|p]; cbn [shr_1 shr_m]; try reflexivity; try lia.
  - apply Z.div_unique with 1; lia.
  - apply Z.div_unique with 0; lia.
Qed.

Lemma pow2_xO (p : positive) : 2 ^ Zpos p~0 = 2 ^ Zpos p * 2 ^ Zpos p.
Proof.
  replace (Zpos p~0) with (Zpos p + Zpos p) by lia.
  apply Z.pow_add_r; lia.
Qed.

Lemma pow2_xI (p : positive) : 2 ^ Zpos p~1 = 2 * (2 ^ Zpos p * 2 ^ Zpos p).
Proof.
  replace (Zpos p~1) with (Z.succ (Zpos p + Zpos p)) by lia.
  rewrite Z.pow_succ_r, Z.pow_add_r by lia. reflexivity.
Qed.

Lemma iter_shr_m (p : positive) :
  forall r, 0 <= shr_m r ->
  shr_m (iter_pos shr_1 p r) = shr_m r / 2 ^ Zpos p.
Proof.
  induction p as [p IH|p IH|]; intros r Hr; cbn [iter_pos].
  - assert (H1 : 0 <= shr_m (shr_1 r))
      by (rewrite shr_1_m by assumption; apply Z.div_pos; lia).
    assert (H2 : 0 <= shr_m (iter_pos shr_1 p (shr_1 r)))
      by (rewrite IH by assumption; apply Z.div_pos; lia).
    rewrite IH, IH, shr_1_m by assumption.
    rewrite !Z.div_div by lia. now rewrite pow2_xI.
  - assert (H2 : 0 <= shr_m (iter_pos shr_1 p r))
      by (rewrite IH by assumption; apply Z.div_pos; lia).
    rewrite IH, IH by assumption.
    rewrite !Z.div_div by lia. now rewrite pow2_xO.
  - rewrite shr_1_m by assumption. now rewrite Z.pow_1_r.
Qed.

(** What [shr_fexp] leaves: the exponent is raised to the canonical one if
    it was below it, and the mantissa divided accordingly. *)
Lemma shr_fexp_spec (m e : Z) (l : location) :
  0 <= m ->
  exists r,
    shr_fexp prec emax m e l
    = (r, Z.max e (fexp prec emax (Zdigits2 m + e)))
    /\ shr_m r = m / 2 ^ (Z.max e (fexp prec emax (Zdigits2 m + e)) - e).
Proof.
  intros Hm. unfold shr_fexp, shr.
  set (t := fexp prec emax (Zdigits2 m + e)).
  assert (Hrec : shr_m (shr_record_of_loc m l) = m)
    by (destruct l as [|[]]; reflexivity).
  destruct (t - e) as [|p|p] eqn:E.
  - eexists. split; [f_equal; lia|].
    rewrite Hrec. replace (Z.max e t - e) with 0 by lia.
    now rewrite Z.pow_0_r, Z.div_1_r.
  - eexists. split; [f_equal; lia|].
    rewrite iter_shr_m by lia. rewrite Hrec. f_equal. f_equal. lia.
  - eexists. split; [f_equal; lia|].
    rewrite Hrec. replace (Z.max e t - e) with 0 by lia.
    now rewrite Z.pow_0_r, Z.div_1_r.
Qed.

Lemma fexp_le (d k : Z) :
  d <= k -> -1074 <= k -> fexp prec emax d <= k.
Proof. unfold fexp, emin, prec, emax. lia. Qed.

Lemma fexp_le_971 (d : Z) : d <= 1024 -> fexp prec emax d <= 971.
Proof. unfold fexp, emin, prec, emax. lia. Qed.

(** One step: a mantissa below [2^(k-e)] stays below it when the exponent
    is raised by [shr_fexp]. *)
Lemma shr_fexp_below (m e k : Z) (l : location) :
  0 <= m -> m < 2 ^ (k - e) -> e <= k -> -1074 <= k ->
  exists r e',
    shr_fexp prec emax m e l = (r, e')
    /\ 0 <= shr_m r /\ shr_m r < 2 ^ (k - e') /\ e' <= k
    /\ (e' <= e \/ e' <= fexp prec emax k).
Proof.
  intros Hm Hlt He Hk.
  destruct (shr_fexp_spec m e l Hm) as (r & Hr & Hrm).
  set (e' := Z.max e (fexp prec emax (Zdigits2 m + e))) in *.
  assert (Hd : Zdigits2 m + e <= k)
    by (pose proof (Zdigits2_bound m (k - e) Hm ltac:(lia) Hlt); lia).
  assert (He' : e' <= k).
  { subst e'. apply Z.max_lub; [assumption|]. now apply fexp_le. }
  exists r, e'. split; [exact Hr|]. rewrite Hrm.
  split; [apply Z.div_pos; lia|]. split; [|split; [exact He'|]].
  - apply Z.div_lt_upper_bound; [lia|].
    rewrite <- Z.pow_add_r by lia.
    now replace (e' - e + (k - e')) with (k - e) by lia.
  - subst e'. destruct (Z.max_spec e (fexp prec emax (Zdigits2 m + e)))
      as [[_ ->]|[_ ->]]; [right|left; lia].
    unfold fexp. lia.
Qed.

Lemma round_nearest_even_bound (m : Z) (l : location) :
  0 <= m -> m <= round_nearest_even m l <= m + 1.
Proof.
  intros Hm. destruct l as [|[]]; simpl; try lia.
  destruct (Z.even m); lia.
Qed.

(** The rounding at the end of every operation: from a magnitude below
    [2^k] it gives a zero or a finite number below [2^(k+1)]. *)
Lemma binary_round_aux_below (s : bool) (m e k : Z) (l : location) :
  0 <= m -> m < 2 ^ (k - e) -> e <= k -> e <= 971 ->
  -1074 <= k <= 1023 ->
  below (k + 1) (binary_round_aux prec emax s m e l).
Proof.
  intros Hm Hlt He He971 Hk. unfold binary_round_aux.
  destruct (shr_fexp_below m e k l Hm Hlt He ltac:(lia))
    as (r1 & e1 & -> & Hr1 & Hr1lt & He1 & He1').
  set (m1 := round_nearest_even (shr_m r1) (loc_of_shr_record r1)).
  pose proof (round_nearest_even_bound (shr_m r1) (loc_of_shr_record r1) Hr1)
    as Hm1. fold m1 in Hm1.
  assert (Hm1lt : m1 < 2 ^ (k + 1 - e1)).
  { replace (k + 1 - e1) with (Z.succ (k - e1)) by lia.
    rewrite Z.pow_succ_r by lia.
    assert (0 < 2 ^ (k - e1)) by (apply Z.pow_pos_nonneg; lia). lia. }
  destruct (shr_fexp_below m1 e1 (k + 1) loc_Exact ltac:(lia) Hm1lt
              ltac:(lia) ltac:(lia))
    as (r2 & e2 & -> & Hr2 & Hr2lt & He2 & He2').
  assert (He2971 : e2 <= 971).
  { assert (fexp prec emax k <= 971) by (apply fexp_le_971; lia).
    assert (fexp prec emax (k + 1) <= 971) by (apply fexp_le_971; lia).
    lia. }
  destruct (shr_m r2) as [|p|p] eqn:E; [exact I| |lia].
  apply Z.leb_le in He2971.
  change (emax - prec) with 971. rewrite He2971. simpl.
  pose proof (digits2_bound p (k + 1 - e2) Hr2lt). lia.
Qed.


Lemma below_mono (k k' : Z) (x : spec_float) :
  k <= k' -> below k x -> below k' x.
Proof. destruct x; simpl; try easy. lia. Qed.

Lemma below_mantissa (s : bool) (m : positive) (e k : Z) :
  below k (S754_finite s m e) -> Zpos m < 2 ^ (k - e) /\ e < k.
Proof.
  simpl. intros H. pose proof (digits2_gt m) as Hm. split; [|lia].
  eapply Z.lt_le_trans; [exact Hm|]. apply Z.pow_le_mono_r; lia.
Qed.

(** *** Multiplication *)

Lemma SFmul_below (x y : spec_float) (kx ky : Z) :
  below kx x -> below ky y -> -1074 <= kx + ky <= 972 ->
  below (kx + ky + 1) (SFmul prec emax x y).
Proof.
  intros Hx Hy Hk.
  destruct x as [sx|sx| |sx mx ex], y as [sy|sy| |sy my ey];
    try contradiction; try exact I.
  apply below_mantissa in Hx as [Hx Hex], Hy as [Hy Hey].
  unfold SFmul. apply binary_round_aux_below; try lia.
  rewrite Pos2Z.inj_mul.
  replace (kx + ky - (ex + ey)) with ((kx - ex) + (ky - ey)) by lia.
  rewrite Z.pow_add_r by lia.
  apply Z.mul_lt_mono_nonneg; lia.
Qed.

(** *** Division *)

Lemma SFdiv_below (x y : spec_float) (k j : Z) :
  below k x ->
  (exists s m e, y = S754_finite s m e /\ j < Zpos (digits2_pos m) + e) ->
  -1074 <= k - j <= 1023 ->
  below (k - j + 1) (SFdiv prec emax x y).
Proof.
  intros Hx (sy & my & ey & -> & Hy) Hk.
  destruct x as [sx|sx| |sx mx ex]; try contradiction; try exact I.
  pose proof (digits2_gt mx) as Hmx. pose proof (digits2_le my) as Hmy.
  simpl in Hx.
  unfold SFdiv, SFdiv_core_binary.
  change (Zdigits2 (Zpos mx)) with (Zpos (digits2_pos mx)).
  change (Zdigits2 (Zpos my)) with (Zpos (digits2_pos my)).
  remember (Zpos (digits2_pos mx)) as d1 eqn:Hd1.
  remember (Zpos (digits2_pos my)) as d2 eqn:Hd2.
  assert (Hd1pos : 0 < d1) by lia. assert (Hd2pos : 0 < d2) by lia.
  clear Hd1 Hd2.
  set (e' := Z.min (fexp prec emax (d1 + ex - (d2 + ey))) (ex - ey)).
  set (s := ex - ey - e').
  assert (Hs : 0 <= s) by (subst s e'; lia).
  set (m' := match s with Zpos _ => Z.shiftl (Zpos mx) s | 0 => Zpos mx
             | Zneg _ => 0 end).
  assert (Hm' : m' = Zpos mx * 2 ^ s).
  { subst m'. destruct s as [|p|p]; [lia| |lia].
    now rewrite Z.shiftl_mul_pow2 by lia. }
  assert (Hm'pos : 0 < m') by (rewrite Hm'; apply Z.mul_pos_pos; [lia|];
                               apply Z.pow_pos_nonneg; lia).
  pose proof (Z.div_eucl_eq m' (Zpos my) ltac:(lia)) as Heq.
  pose proof (Z.mod_pos_bound m' (Zpos my) ltac:(lia)) as Hmod.
  unfold Z.modulo in Hmod.
  destruct (Z.div_eucl m' (Zpos my)) as [q r] eqn:Ediv.
  assert (Hq : 0 <= q) by nia.
  assert (He' : e' <= k - j).
  { subst e'. etransitivity; [apply Z.le_min_l|].
    apply fexp_le; lia. }
  assert (He'971 : e' <= 971).
  { subst e'. etransitivity; [apply Z.le_min_l|].
    apply fexp_le_971; lia. }
  apply binary_round_aux_below; try lia.
  (* q * 2^(d2-1) <= q * my <= mx * 2^s < 2^(d1+s) <= 2^(k-j-e') * 2^(d2-1) *)
  assert (H1 : q * 2 ^ (d2 - 1) < 2 ^ (d1 + s)).
  { rewrite Z.pow_add_r by lia.
    assert (0 < 2 ^ s) by (apply Z.pow_pos_nonneg; lia).
    assert (q * 2 ^ (d2 - 1) <= q * Zpos my) by (apply Z.mul_le_mono_nonneg_l; lia).
    assert (Zpos mx * 2 ^ s < 2 ^ d1 * 2 ^ s) by (apply Z.mul_lt_mono_pos_r; lia).
    nia. }
  assert (H2 : 2 ^ (d1 + s) <= 2 ^ (k - j - e') * 2 ^ (d2 - 1)).
  { rewrite <- Z.pow_add_r by lia.
    apply Z.pow_le_mono_r; [lia|]. subst s. lia. }
  assert (0 < 2 ^ (d2 - 1)) by (apply Z.pow_pos_nonneg; lia).
  nia.
Qed.

(** *** Addition and subtraction *)

Lemma iter_xO (d m : positive) :
  Zpos (Pos.iter xO m d) = Zpos m * 2 ^ Zpos d.
Proof.
  induction d as [|d IH] using Pos.peano_ind.
  - simpl. lia.
  - rewrite Pos.iter_succ, Pos2Z.inj_xO, IH, Pos2Z.inj_succ,
      Z.pow_succ_r by lia. lia.
Qed.

(** [shl_align] lowers the exponent to the target if it was above it, and
    keeps the value. *)
Lemma shl_align_spec (m : positive) (e t : Z) :
  exists m' e',
    shl_align m e t = (m', e')
    /\ e' = Z.min e t
    /\ Zpos m' = Zpos m * 2 ^ (e - e').
Proof.
  unfold shl_align. destruct (t - e) as [|p|p] eqn:E.
  - exists m, e. split; [reflexivity|]. split; [lia|].
    now rewrite Z.sub_diag, Z.pow_0_r, Z.mul_1_r.
  - exists m, e. split; [reflexivity|]. split; [lia|].
    now rewrite Z.sub_diag, Z.pow_0_r, Z.mul_1_r.
  - eexists _, t. split; [reflexivity|]. split; [lia|].
    rewrite iter_xO. f_equal. f_equal. lia.
Qed.

Lemma binary_round_below (s : bool) (m : positive) (e k : Z) :
  Zpos m < 2 ^ (k - e) -> e <= k -> e <= 971 -> -1074 <= k <= 1023 ->
  below (k + 1) (binary_round prec emax s m e).
Proof.
  intros Hm He He971 Hk. unfold binary_round.
  destruct (shl_align_spec m e (fexp prec emax (Zpos (digits2_pos m) + e)))
    as (m' & e' & -> & He' & Hm').
  apply binary_round_aux_below; try lia.
  rewrite Hm'.
  replace (k - e') with ((k - e) + (e - e')) by lia.
  rewrite Z.pow_add_r by lia.
  apply Z.mul_lt_mono_pos_r; [apply Z.pow_pos_nonneg; lia|assumption].
Qed.

Lemma binary_normalize_below (m e k : Z) (sz : bool) :
  Z.abs m < 2 ^ (k - e) -> e <= k -> e <= 971 -> -1074 <= k <= 1023 ->
  below (k + 1) (binary_normalize prec emax m e sz).
Proof.
  intros Hm He He971 Hk.
  destruct m as [|p|p]; [exact I| |]; apply binary_round_below; auto.
Qed.

Lemma aligned_bound (s : bool) (m : positive) (e ez k : Z) :
  below k (S754_finite s m e) -> ez <= e ->
  Z.abs (cond_Zopp s (Zpos (fst (shl_align m e ez)))) < 2 ^ (k - ez).
Proof.
  intros [Hm He]%below_mantissa Hez.
  destruct (shl_align_spec m e ez) as (m' & e' & -> & He' & Hm'). simpl fst.
  replace (Z.abs (cond_Zopp s (Zpos m'))) with (Zpos m')
    by (destruct s; simpl; lia).
  rewrite Hm'. replace e' with ez by lia.
  replace (k - ez) with ((k - e) + (e - ez)) by lia.
  rewrite Z.pow_add_r by lia.
  apply Z.mul_lt_mono_pos_r; [apply Z.pow_pos_nonneg; lia|assumption].
Qed.

Lemma SFsub_below (x y : spec_float) (k : Z) :
  below k x -> below k y -> -1074 <= k <= 970 ->
  below (k + 2) (SFsub prec emax x y).
Proof.
  intros Hx Hy Hk.
  destruct x as [sx|sx| |sx mx ex], y as [sy|sy| |sy my ey];
    try contradiction.
  - destruct sx, sy; exact I.
  - simpl in *. lia.
  - simpl in *. lia.
  - unfold SFsub. cbv zeta.
    pose proof (aligned_bound sx mx ex (Z.min ex ey) k Hx ltac:(lia)) as H1.
    pose proof (aligned_bound sy my ey (Z.min ex ey) k Hy ltac:(lia)) as H2.
    apply below_mantissa in Hx as [_ Hex], Hy as [_ Hey].
    replace (k + 2) with ((k + 1) + 1) by lia.
    apply binary_normalize_below; try lia.
    replace (k + 1 - Z.min ex ey) with (Z.succ (k - Z.min ex ey)) by lia.
    rewrite Z.pow_succ_r by lia.
    set (a := cond_Zopp sx _) in *. set (b := cond_Zopp sy _) in *.
    set (c := 2 ^ _) in *. clearbody a b c. lia.
Qed.

End F64Bounds.

Module F64Probability.
Import Floats.FloatClass Floats.PrimFloat Floats.SpecFloat Floats.FloatOps
  Floats.FloatAxioms.
Import F64 F64Facts F64Engine F64Print F64Bounds.
#[local] Set Warnings "-inexact-float".
Local Open Scope float_scope.

(** *** Comparisons *)

Lemma SFcompare_antisym (x y : spec_float) :
  SFcompare y x = option_map CompOpp (SFcompare x y).
Proof.
  destruct x as [sx|sx| |sx mx ex], y as [sy|sy| |sy my ey]; simpl;
    try reflexivity;
    try (destruct sx; reflexivity); try (destruct sy; reflexivity);
    try (destruct sx, sy; reflexivity).
  rewrite (Z.compare_antisym ex ey).
  assert (Hm : Pos.compare_cont Eq my mx
               = CompOpp (Pos.compare_cont Eq mx my))
    by (symmetry; exact (Pos.compare_cont_antisym mx my Eq)).
  rewrite Hm.
  destruct sx, sy, (ex ?= ey)%Z, (Pos.compare_cont Eq mx my); reflexivity.
Qed.

Lemma leb_not_ltb (a b : float) : (a <=? b) = true -> (b <? a) = false.
Proof.
  rewrite leb_spec, ltb_spec. unfold SFleb, SFltb.
  rewrite (SFcompare_antisym (Prim2SF a) (Prim2SF b)).
  destruct (SFcompare (Prim2SF a) (Prim2SF b)) as [[]|]; simpl; congruence.
Qed.

Lemma is_nan_not_ltb (a b : float) : is_nan a = true -> (a <? b) = false.
Proof.
  intros H%is_nan_spec. rewrite ltb_spec. unfold SFltb. now rewrite H.
Qed.

(** From 50000 on a distance is not below 8371. *)
Lemma far_not_close (d : float) : (50000 <=? d) = true -> (d <? 8371) = false.
Proof.
  rewrite leb_spec, ltb_spec. unfold SFleb, SFltb.
  change (Prim2SF 50000) with (S754_finite false 6871947673600000 (-37)).
  change (Prim2SF 8371) with (S754_finite false 4602005918056448 (-39)).
  destruct (Prim2SF d) as [s|s| |s m e]; cbn [SFcompare]; try discriminate.
  - destruct s; [discriminate|reflexivity].
  - destruct s; [discriminate|].
    destruct (Z.compare_spec (-37) e) as [<-|H|H]; try discriminate;
      intros _.
    + reflexivity.
    + destruct (Z.compare_spec e (-39)); try reflexivity; lia.
Qed.

(** *** The size of the probability in the decay band *)

Lemma valid_digits (x : float) (s : bool) (m : positive) (e : Z) :
  Prim2SF x = S754_finite s m e -> (Zpos (digits2_pos m) <= 53)%Z.
Proof.
  intros H. pose proof (Prim2SF_valid x) as Hv. rewrite H in Hv.
  simpl in Hv. apply andb_prop in Hv as [Hc _].
  unfold canonical_mantissa, fexp, emin, prec, emax in Hc.
  apply Z.eqb_eq in Hc. lia.
Qed.

Lemma distance_below (d : float) :
  (d <? 8371) = false -> (d <? 50000) = true -> below 16 (Prim2SF d).
Proof.
  intros Hclose Hfar. pose proof (valid_digits d) as Hv.
  rewrite ltb_spec in Hclose, Hfar. unfold SFltb in *.
  change (Prim2SF 50000) with (S754_finite false 6871947673600000 (-37))
    in Hfar.
  change (Prim2SF 8371) with (S754_finite false 4602005918056448 (-39))
    in Hclose.
  destruct (Prim2SF d) as [s|s| |s m e]; cbn [SFcompare below] in *;
    try discriminate.
  - destruct s; discriminate.
  - specialize (Hv s m e eq_refl). destruct s; [discriminate|].
    destruct (Z.compare_spec e (-37)); try discriminate; lia.
Qed.

Lemma probability_below (d : float) :
  (d <? 8371) = false -> (d <? 50000) = true ->
  below 14 (Prim2SF (100 * (1 - (d - 8371) / (50000 - 8371)))).
Proof.
  intros Hclose Hfar.
  pose proof (distance_below d Hclose Hfar) as Hd.
  assert (Hpos : below 18 (Prim2SF (d - 8371))).
  { rewrite sub_spec. apply (SFsub_below _ _ 16); [assumption| |lia].
    change (Prim2SF 8371) with (S754_finite false 4602005918056448 (-39)).
    simpl. lia. }
  assert (Hq : below 4 (Prim2SF ((d - 8371) / (50000 - 8371)))).
  { rewrite div_spec. apply (SFdiv_below _ _ 18 15); [assumption| |lia].
    change (Prim2SF (50000 - 8371))
      with (S754_finite false 5721446194085888 (-37)).
    eexists _, _, _. split; [reflexivity|]. simpl. lia. }
  assert (Ht : below 6 (Prim2SF (1 - (d - 8371) / (50000 - 8371)))).
  { rewrite sub_spec. apply (SFsub_below _ _ 4); [|assumption|lia].
    change (Prim2SF 1) with (S754_finite false 4503599627370496 (-52)).
    simpl. lia. }
  rewrite mul_spec. apply (SFmul_below _ _ 7 6); [|assumption|lia].
  change (Prim2SF 100) with (S754_finite false 7036874417766400 (-46)).
  simpl. lia.
Qed.

(** A number below [2^14] is finite and far below 10^21. *)
Lemma below_small (x : float) :
  below 14 (Prim2SF x) ->
  is_finite x = true /\ (1e21 <=? abs x) = false.
Proof.
  intros H. split.
  - apply is_finite_spec.
    destruct (Prim2SF x) as [s|s| |s m e]; try contradiction; eauto.
  - rewrite leb_spec, abs_spec. unfold SFleb.
    change (Prim2SF 1e21) with (S754_finite false 7629394531250000 17).
    destruct (Prim2SF x) as [s|s| |s m e]; try contradiction;
      [reflexivity|].
    cbn [SFabs SFcompare below] in *.
    pose proof (Pos2Z.is_pos (digits2_pos m)).
    destruct (Z.compare_spec 17 e); try reflexivity; lia.
Qed.

(** The returned probability is the piecewise value rounded to one decimal
    place and clamped, for every distance. *)
Lemma cleanup_round1 (h : Host) (d : float) :
  parseFloat (toFixed h (Spec.probability d) 1)
  = Spec.round1 (Spec.probability d).
Proof.
  unfold Spec.probability.
  destruct (d <? 8371) eqn:Hclose; [now apply parseFloat_toFixed1|].
  destruct (d <? 50000) eqn:Hfar; [|now apply parseFloat_toFixed1].
  destruct (below_small _ (probability_below d Hclose Hfar)).
  now apply parseFloat_toFixed1.
Qed.

End F64Probability.

Module F64Overflow.
Import Floats.FloatClass Floats.PrimFloat Floats.SpecFloat Floats.FloatOps
  Floats.FloatAxioms.
Import F64 F64Facts F64Engine.
#[local] Set Warnings "-inexact-float".
Local Open Scope float_scope.

(** *** Numbers that are not finite *)

Lemma not_finite_spec (x : float) :
  is_finite x = false <->
  Prim2SF x = S754_nan \/ exists s, Prim2SF x = S754_infinity s.
Proof.
  split.
  - intros H. destruct (Prim2SF x) as [s|s| |s m e] eqn:E; eauto;
      assert (is_finite x = true) by (apply is_finite_spec; eauto);
      congruence.
  - intros H. destruct (is_finite x) eqn:E; [|reflexivity].
    apply is_finite_spec in E.
    destruct H as [H|[s H]], E as [[s' E]|(s' & m & e & E)]; congruence.
Qed.

Lemma is_infinity_not_finite (x : float) :
  is_infinity x = true -> is_finite x = false.
Proof.
  intros [s H]%is_infinity_spec. apply not_finite_spec. eauto.
Qed.

Lemma mul_not_finite_l (x y : float) :
  is_finite x = false -> is_finite (x * y) = false.
Proof.
  intros H%not_finite_spec. apply not_finite_spec. rewrite mul_spec.
  destruct H as [->|[s ->]]; [now left|].
  destruct (Prim2SF y) as [sy|sy| |sy my ey]; simpl; eauto.
Qed.

Lemma mul_not_finite_r (x y : float) :
  is_finite y = false -> is_finite (x * y) = false.
Proof.
  intros H%not_finite_spec. apply not_finite_spec. rewrite mul_spec.
  destruct H as [->|[s ->]];
    destruct (Prim2SF x) as [sx|sx| |sx mx ex]; simpl; eauto.
Qed.

Lemma div_not_finite_l (x y : float) :
  is_finite x = false -> is_finite (x / y) = false.
Proof.
  intros H%not_finite_spec. apply not_finite_spec. rewrite div_spec.
  destruct H as [->|[s ->]]; [now left|].
  destruct (Prim2SF y) as [sy|sy| |sy my ey]; simpl; eauto.
Qed.

(** An infinity to a positive power is an infinity. *)
Lemma Math_pow_infinite_base (h : Host) (x y : float) :
  is_infinity x = true -> (0 <? y) = true ->
  is_infinity (Math_pow h x y) = true.
Proof.
  intros Hx Hy. unfold Math_pow.
  assert (Hyn : is_nan y = false).
  { apply is_nan_false. intros E. rewrite ltb_spec, E in Hy. discriminate. }
  assert (Hyz : is_zero y = false).
  { destruct (is_zero y) eqn:E; [|reflexivity].
    apply is_zero_spec in E as [s E]. rewrite ltb_spec, E in Hy.
    discriminate. }
  assert (Hxn : is_nan x = false).
  { apply is_infinity_spec in Hx as [s Hx]. apply is_nan_false.
    now rewrite Hx. }
  rewrite Hyn, Hyz, Hxn, Hy.
  apply is_infinity_spec in Hx as [s Hx]. rewrite classify_spec, Hx.
  destruct s; simpl; [destruct (is_odd_integer y)|]; reflexivity.
Qed.

End F64Overflow.

(** ** The claims *)

Import JS NumFacts EngineFacts.

Section Binary64_C1_C2.
Import Floats.PrimFloat.
Import F64Facts F64Engine F64Probability.
#[local] Set Warnings "-inexact-float".
Local Open Scope float_scope.

(** C1 (as stated, refuted).  On the default input (Stony, 50 m, 17 km/s)
    both powers are exact (25³ = 15625 and 17000² = 289000000), yet the
    formula of the claim with its products taken from left to right gives
    6.103073084956869, while the engine returns 6.103073084956868: every
    product is rounded, so the value depends on how the products are
    grouped. *)
Lemma C1_counterexample :
  F64.type F64.DEFAULT_INPUT ∈ AsteroidType.members
  /\ (0 <? F64.diameter F64.DEFAULT_INPUT) = true
  /\ (0 <? F64.velocity F64.DEFAULT_INPUT) = true
  /\ F64.Math_pow F64.plain_host (50 / 2) 3 = 15625
  /\ F64.Math_pow F64.plain_host (17 * 1000) 2 = 289000000
  /\ exists r,
       F64.analyzeAsteroid F64.plain_host 0 F64.DEFAULT_INPUT = Fulfilled r
       /\ F64.kineticEnergyMegatons r = 6.103073084956868
       /\ F64.Spec.kineticEnergy_as_written F64.plain_host
            AsteroidType.STONY 50 17 = 6.103073084956869
       /\ (F64.kineticEnergyMegatons r
           =? F64.Spec.kineticEnergy_as_written F64.plain_host
                (F64.type F64.DEFAULT_INPUT)
                (F64.diameter F64.DEFAULT_INPUT)
                (F64.velocity F64.DEFAULT_INPUT)) = false.
Proof.
  split; [apply list_elem_of_here|]. repeat (split; [reflexivity|]).
  destruct (fulfilled64 F64.plain_host 0 F64.DEFAULT_INPUT)
    as (r & Hr & _ & _ & He & _).
  exists r. split; [exact Hr|]. rewrite He.
  repeat split; vm_compute; reflexivity.
Qed.

(** C1 (amended).  For one of the four types the kinetic energy in megatons
    is 0.5 · density(type) · (4/3)·π·(d/2)³ · (v·1000)² / 4.184e15 computed
    in binary64 arithmetic, each operation rounded, with the operations
    grouped as the specification defines them (the volume, then the mass,
    then the energy): 0.5 · (density · ((4/3 · π) · (d/2)³)) · (v·1000)² /
    4.184e15.  The density is the fixed table (Stony 2700, Metallic 7870,
    Icy 1000, Carbonaceous 1300), the velocity is converted to m/s before
    squaring, and the two powers are the host's [Math.pow].  The diameter
    and the velocity may be any numbers, positive or not. *)
Theorem C1_kinetic_energy
    (h : F64.Host) (now : float) (input : F64.AsteroidInput) :
  F64.type input ∈ AsteroidType.members ->
  exists r, F64.analyzeAsteroid h now input = Fulfilled r
    /\ F64.kineticEnergyMegatons r
       = 0.5
         * (F64.Spec.density (F64.type input)
            * (4 / 3 * F64.Math_PI
               * F64.Math_pow h (F64.diameter input / 2) 3))
         * F64.Math_pow h (F64.velocity input * 1000) 2
         / 4.184e15
    /\ F64.kineticEnergyMegatons r
       = F64.Spec.kineticEnergyMegatons h (F64.type input)
           (F64.diameter input) (F64.velocity input).
Proof.
  intros Ht.
  destruct (fulfilled64 h now input) as (r & Hr & _ & _ & He & _).
  exists r. split; [exact Hr|]. rewrite He.
  unfold F64.energyMt, F64.energyJoules, F64.mass, F64.volume, F64.radius,
    F64.velocityMs, F64.TNT_JOULES.
  rewrite (density_member input Ht). split; reflexivity.
Qed.

Lemma C1_kinetic_energy_witness :
  exists r, F64.analyzeAsteroid F64.plain_host 0 F64.DEFAULT_INPUT
            = Fulfilled r
    /\ F64.kineticEnergyMegatons r
       = 0.5
         * (F64.Spec.density AsteroidType.STONY
            * (4 / 3 * F64.Math_PI * F64.Math_pow F64.plain_host (50 / 2) 3))
         * F64.Math_pow F64.plain_host (17 * 1000) 2
         / 4.184e15.
Proof.
  destruct (C1_kinetic_energy F64.plain_host 0 F64.DEFAULT_INPUT)
    as (r & Hr & He & _); [apply list_elem_of_here|].
  exists r. split; [exact Hr|exact He].
Defined.

(** C2.  The classifier is the piecewise rule of the distance [d], computed
    in binary64 arithmetic: below 8371 the probability is 100 and the
    asteroid hits; from 8371 up to but not including 50000 the probability
    is 100·(1 − (d − 8371)/(50000 − 8371)) and the asteroid hits exactly
    when that value exceeds 60; from 50000 on the probability is 0 and the
    asteroid misses; a distance that is [NaN] satisfies none of the
    conditions and is served by the last branch.  The returned
    [impactProbability] is this probability rounded to one decimal place
    (the tenth nearest to its exact value, a tie going up, then the number
    nearest to that tenth) and clamped to [0,100]; [isHit] is decided on the
    value before the rounding. *)
Theorem C2_probability_rule
    (h : F64.Host) (now : float) (input : F64.AsteroidInput) :
  let d := F64.distance input in
  exists r, F64.analyzeAsteroid h now input = Fulfilled r
    /\ F64.impactProbability r
       = F64.Spec.clamp (F64.Spec.round1 (F64.Spec.probability d))
    /\ F64.isHit r = (60 <? F64.Spec.probability d)
    /\ ((d <? 8371) = true ->
        F64.impactProbability r = 100 /\ F64.isHit r = true)
    /\ ((8371 <=? d) = true -> (d <? 50000) = true ->
        let p := 100 * (1 - (d - 8371) / (50000 - 8371)) in
        F64.impactProbability r = F64.Spec.clamp (F64.Spec.round1 p)
        /\ F64.isHit r = (60 <? p))
    /\ ((50000 <=? d) = true ->
        F64.impactProbability r = 0 /\ F64.isHit r = false)
    /\ (is_nan d = true ->
        F64.impactProbability r = 0 /\ F64.isHit r = false).
Proof.
  intros d.
  destruct (fulfilled64 h now input) as (r & Hr & Hh & Hp & _).
  fold d in Hh, Hp. rewrite cleanup_round1 in Hp.
  exists r. split; [exact Hr|]. split; [exact Hp|]. split; [exact Hh|].
  rewrite Hp, Hh. unfold F64.Spec.probability. repeat split.
  - now rewrite H.
  - now rewrite H.
  - now rewrite (leb_not_ltb _ _ H), H0.
  - now rewrite (leb_not_ltb _ _ H), H0.
  - now rewrite (far_not_close _ H), (leb_not_ltb _ _ H).
  - now rewrite (far_not_close _ H), (leb_not_ltb _ _ H).
  - now rewrite !(is_nan_not_ltb _ _ H).
  - now rewrite !(is_nan_not_ltb _ _ H).
Qed.

(** The distance 29164.6855 km lies in the decay band: the probability
    before the rounding is the number nearest to 50.05, which is below it,
    so the returned value is 50. *)
Lemma C2_probability_rule_witness :
  exists r,
    F64.analyzeAsteroid F64.plain_host 0
      (F64.with_distance F64.DEFAULT_INPUT 29164.6855) = Fulfilled r
    /\ F64.impactProbability r = 50 /\ F64.isHit r = false.
Proof.
  destruct (C2_probability_rule F64.plain_host 0
              (F64.with_distance F64.DEFAULT_INPUT 29164.6855))
    as (r & Hr & _ & _ & _ & Hband & _).
  exists r. split; [exact Hr|].
  destruct (Hband eq_refl eq_refl) as [Hp Hh]. split.
  - rewrite Hp. vm_compute. reflexivity.
  - rewrite Hh. vm_compute. reflexivity.
Defined.

End Binary64_C1_C2.

(** C3 (as stated, refuted).  The input NEGATIVE_INPUT has a negative
    diameter and a negative distance, yet the call is fulfilled, not
    rejected, and the result carries a negative energy and a [NaN] crater
    size. *)
Lemma C3_counterexample :
  Spec.invalid NEGATIVE_INPUT = true
  /\ exists r, analyzeAsteroid silent_host 0 NEGATIVE_INPUT = Fulfilled r
       /\ (forall reason,
             analyzeAsteroid silent_host 0 NEGATIVE_INPUT <> Rejected reason)
       /\ (kineticEnergyMegatons r <? 0)%js = true
       /\ craterSizeMeters r = NaN.
Proof.
  split.
  - unfold Spec.invalid, NEGATIVE_INPUT. cbn [diameter velocity distance].
    rewrite (proj2 (le_Num (-50) 0)) by lra. reflexivity.
  - destruct (fulfilled silent_host 0 NEGATIVE_INPUT)
      as (r & Hr & He & Hc & _).
    exists r. split; [exact Hr|]. split; [rewrite Hr; discriminate|].
    rewrite He, Hc. split.
    + rewrite (energyMt_value NEGATIVE_INPUT (-50) 17) by reflexivity.
      apply lt_Num. pose proof PI_RGT_0 as Hpi.
      change (Spec.density (type NEGATIVE_INPUT)) with 2700.
      assert (E : 0.5 * (2700 * (4 / 3 * PI * (-50 / 2) ^ 3))
                  * (17 * 1000) ^ 2 / 4.184e15
                  = - (PI * (0.5 * 2700 * (4 / 3) * 25 ^ 3 * 17000 ^ 2
                             / 4.184e15))) by lra.
      rewrite E. apply Ropp_lt_gt_0_contravar, Rmult_gt_0_compat; lra.
    + apply (crater_negative_diameter NEGATIVE_INPUT (-50)); [reflexivity|lra].
Qed.

(** C3 (amended).  An input with a non-positive diameter, a non-positive
    velocity or a negative distance passes no validation: the call is never
    rejected and is fulfilled with a result. *)
Theorem C3_no_validation
    (h : Host) (now : number) (input : AsteroidInput) :
  Spec.invalid input = true ->
  exists r, analyzeAsteroid h now input = Fulfilled r
    /\ (forall reason, analyzeAsteroid h now input <> Rejected reason).
Proof.
  intros _.
  destruct (fulfilled h now input) as (r & Hr & _).
  exists r. split; [exact Hr|]. rewrite Hr. discriminate.
Qed.

Lemma C3_no_validation_witness :
  exists r, analyzeAsteroid silent_host 0 NEGATIVE_INPUT = Fulfilled r
    /\ (forall reason,
          analyzeAsteroid silent_host 0 NEGATIVE_INPUT <> Rejected reason).
Proof.
  apply (C3_no_validation silent_host 0 NEGATIVE_INPUT).
  unfold Spec.invalid, NEGATIVE_INPUT. cbn [diameter velocity distance].
  rewrite (proj2 (le_Num (-50) 0)) by lra. reflexivity.
Defined.


(** C5.  The composition of the result is [getComposition] of the type and
    of nothing else: two calls on inputs of the same type return the same
    list.  Each of the four types has a fixed list (four entries for Stony,
    Icy and Carbonaceous, three for Metallic) whose percentages sum to 100,
    and any other type value gives the empty list, without error. *)
Theorem C5_composition (h : Host) (now : number) (input : AsteroidInput) :
  exists r, analyzeAsteroid h now input = Fulfilled r
    /\ composition r = getComposition (type input)
    /\ (forall h' now' input', type input' = type input ->
          exists r', analyzeAsteroid h' now' input' = Fulfilled r'
            /\ composition r' = composition r)
    /\ map percentage (getComposition AsteroidType.STONY)
       = [Num 70; Num 15; Num 10; Num 5]
    /\ map percentage (getComposition AsteroidType.METALLIC)
       = [Num 85; Num 14; Num 1]
    /\ map percentage (getComposition AsteroidType.ICY)
       = [Num 60; Num 20; Num 15; Num 5]
    /\ map percentage (getComposition AsteroidType.CARBONACEOUS)
       = [Num 45; Num 20; Num 25; Num 10]
    /\ (forall t, t ∈ AsteroidType.members ->
          Spec.total_percentage (getComposition t) = Num 100)
    /\ (forall t, t ∉ AsteroidType.members -> getComposition t = [])
    /\ (type input ∉ AsteroidType.members -> composition r = []).
Proof.
  assert (Hother : forall t, t ∉ AsteroidType.members -> getComposition t = []).
  { intros t Ht. unfold AsteroidType.members in Ht.
    repeat (apply not_elem_of_cons in Ht as [? Ht]).
    unfold getComposition.
    repeat match goal with
    | |- context [String.eqb t ?c] =>
      destruct (String.eqb_spec t c); [congruence|]
    end.
    reflexivity. }
  destruct (fulfilled h now input) as (r & Hr & _ & _ & Hc & _).
  exists r. split; [exact Hr|]. split; [exact Hc|].
  split; [|repeat split; [| exact Hother | rewrite Hc; apply Hother]].
  - intros h' now' input' Ht.
    destruct (fulfilled h' now' input') as (r' & Hr' & _ & _ & Hc' & _).
    exists r'. split; [exact Hr'|]. now rewrite Hc, Hc', Ht.
  - intros t Ht. unfold AsteroidType.members in Ht.
    repeat (apply elem_of_cons in Ht as [->|Ht]);
      [| | | |apply elem_of_nil in Ht; contradiction];
      cbn; f_equal; lra.
Qed.

Section Binary64_C6.
Import Floats.PrimFloat.
Import F64Facts F64Engine.
#[local] Set Warnings "-inexact-float".
Local Open Scope float_scope.

(** C6 (as stated, refuted).  With the positive diameter 50 and the
    velocity 0 the factor [Math.pow(0, 0.44)] is zero whatever the host, so
    the crater size is a zero or [NaN] and is not positive. *)
Lemma C6_counterexample :
  (0 <? F64.diameter (F64.with_velocity F64.DEFAULT_INPUT 0)) = true
  /\ forall (h : F64.Host) (now : float),
       exists r,
         F64.analyzeAsteroid h now (F64.with_velocity F64.DEFAULT_INPUT 0)
         = Fulfilled r
         /\ (0 <? F64.craterSizeMeters r) = false.
Proof.
  split; [reflexivity|]. intros h now.
  destruct (fulfilled64 h now (F64.with_velocity F64.DEFAULT_INPUT 0))
    as (r & Hr & _ & _ & _ & Hc & _).
  exists r. split; [exact Hr|]. rewrite Hc.
  unfold F64.craterDiameter. apply falsy_not_positive, mul_falsy_l.
  apply mul_zero_falsy. reflexivity.
Qed.

(** C6 (amended).  For every input the crater size is
    1.161 · (density/2500)^(1/3) · diameter^0.78 · (velocity·1000)^0.44 ·
    9.81^(−0.22) in binary64 arithmetic, multiplied from left to right, the
    powers being the host's [Math.pow].  The density is
    [DENSITY_MAP[type] || 2500] as JavaScript evaluates it: the table value
    for the four types, 2500 for a type that names no property of the
    table, and the function inherited from [Object.prototype] for a type
    such as "constructor", which is no number and makes the crater size
    [NaN].  The crater size is not positive when the velocity is zero,
    whatever the diameter. *)
Theorem C6_crater_size
    (h : F64.Host) (now : float) (input : F64.AsteroidInput) :
  exists r, F64.analyzeAsteroid h now input = Fulfilled r
    /\ F64.craterSizeMeters r
       = 1.161
         * F64.Math_pow h (F64.ToNumber (F64.density input) / 2500) (1 / 3)
         * F64.Math_pow h (F64.diameter input) 0.78
         * F64.Math_pow h (F64.velocity input * 1000) 0.44
         * F64.Math_pow h 9.81 (-0.22)
    /\ (F64.type input ∈ AsteroidType.members ->
        F64.density input = F64.Number (F64.Spec.density (F64.type input)))
    /\ (F64.type input ∉ AsteroidType.members ->
        F64.type input ∉ F64.Object_prototype ->
        F64.density input = F64.Number 2500)
    /\ (F64.type input ∈ F64.Object_prototype ->
        F64.density input = F64.Inherited (F64.type input)
        /\ F64.craterSizeMeters r = nan)
    /\ (is_zero (F64.velocity input) = true ->
        (0 <? F64.craterSizeMeters r) = false).
Proof.
  destruct (fulfilled64 h now input) as (r & Hr & _ & _ & _ & Hc & _).
  exists r. split; [exact Hr|]. rewrite Hc.
  split; [reflexivity|].
  split; [apply density_member|].
  split; [apply density_other|].
  split.
  - intros Ht. split; [now apply density_inherited|].
    unfold F64.craterDiameter, F64.term1.
    rewrite (density_inherited input Ht). cbn [F64.ToNumber].
    change (F64.Math_pow h (nan / 2500) (1 / 3)) with nan.
    change (1.161 * nan) with nan. now rewrite !mul_nan_l.
  - intros Hv. unfold F64.craterDiameter.
    apply falsy_not_positive, mul_falsy_l, mul_falsy_r.
    apply negb_false_iff. apply orb_true_iff. right.
    apply Math_pow_zero_base; [|reflexivity].
    unfold F64.velocityMs. now apply mul_zero_finite.
Qed.

(** The default input: diameter 50 m, velocity 17 km/s, Stony. *)
Lemma C6_crater_size_witness :
  exists r, F64.analyzeAsteroid F64.plain_host 0 F64.DEFAULT_INPUT
            = Fulfilled r
    /\ F64.density F64.DEFAULT_INPUT = F64.Number 2700
    /\ F64.craterSizeMeters r
       = 1.161
         * F64.Math_pow F64.plain_host (2700 / 2500) (1 / 3)
         * F64.Math_pow F64.plain_host 50 0.78
         * F64.Math_pow F64.plain_host (17 * 1000) 0.44
         * F64.Math_pow F64.plain_host 9.81 (-0.22).
Proof.
  destruct (C6_crater_size F64.plain_host 0 F64.DEFAULT_INPUT)
    as (r & Hr & Hc & Hd & _).
  exists r. split; [exact Hr|]. split; [|exact Hc].
  apply Hd, list_elem_of_here.
Defined.

End Binary64_C6.



(** C8 (as stated, refuted).  On the default input the report is in
    [analysisSummary] only: [rawMarkdown] is a different text. *)
Lemma C8_counterexample :
  exists r, analyzeAsteroid silent_host 0 DEFAULT_INPUT = Fulfilled r
    /\ rawMarkdown r = "Generated via Local Physics Engine."
    /\ rawMarkdown r <> analysisSummary r
    /\ rawMarkdown r
       <> Spec.report silent_host (name DEFAULT_INPUT) (type DEFAULT_INPUT)
            (impactProbability r) (isHit r) (kineticEnergyMegatons r)
            (Spec.severity (kineticEnergyMegatons r)).
Proof. run_engine; repeat split; discriminate. Qed.

(** C8 (amended).  The severity tier of the report is chosen by the
    thresholds on [kineticEnergyMegatons]: below 1 "Local Damage", below 100
    "Regional Destruction", below 10000 "Continental Catastrophe", otherwise
    (also for [NaN]) "Extinction Event".  The fixed-template report built
    from the name, the type label, the probability, the status line, the
    energy value and the tier is placed in [analysisSummary]; [rawMarkdown]
    is the fixed text "Generated via Local Physics Engine.". *)
Theorem C8_report (h : Host) (now : number) (input : AsteroidInput) :
  exists r, analyzeAsteroid h now input = Fulfilled r
    /\ analysisSummary r
       = generateSummary h (name input) (isHit r) (kineticEnergyMegatons r)
           (type input) (impactProbability r)
    /\ analysisSummary r
       = Spec.report h (name input) (type input) (impactProbability r)
           (isHit r) (kineticEnergyMegatons r)
           (Spec.severity (kineticEnergyMegatons r))
    /\ rawMarkdown r = "Generated via Local Physics Engine."
    /\ (forall x : R,
          (x < 1 -> Spec.severity (Num x) = "Local Damage")
          /\ (1 <= x < 100 -> Spec.severity (Num x) = "Regional Destruction")
          /\ (100 <= x < 10000 ->
              Spec.severity (Num x) = "Continental Catastrophe")
          /\ (10000 <= x -> Spec.severity (Num x) = "Extinction Event"))
    /\ Spec.severity NaN = "Extinction Event".
Proof.
  run_engine; (repeat split; try reflexivity);
    intros; unfold Spec.severity, lt;
    repeat match goal with
    | |- context [Rlt_dec ?a ?b] => destruct (Rlt_dec a b); try lra
    end; reflexivity.
Qed.

Section Binary64_C9.
Import Floats.PrimFloat.
Import F64Facts F64Engine.
#[local] Set Warnings "-inexact-float".
Local Open Scope float_scope.

(** C9 (as stated, refuted).  With the diameter 0 and the positive
    velocity 1e306 km/s the conversion to m/s overflows to [+Infinity];
    its square is [+Infinity] and the zero mass times it is [NaN], whatever
    the host.  The kinetic energy and the crater size are [NaN], not
    zero. *)
Lemma C9_counterexample :
  let input := F64.with_velocity (F64.with_diameter F64.DEFAULT_INPUT 0) 1e306 in
  is_zero (F64.diameter input) = true
  /\ (0 <? F64.velocity input) = true
  /\ is_finite (F64.velocity input) = true
  /\ (0 <=? F64.distance input) = true
  /\ forall (h : F64.Host) (now : float),
       exists r, F64.analyzeAsteroid h now input = Fulfilled r
         /\ F64.kineticEnergyMegatons r = nan
         /\ F64.craterSizeMeters r = nan
         /\ is_zero (F64.kineticEnergyMegatons r) = false
         /\ is_zero (F64.craterSizeMeters r) = false.
Proof.
  intros input. repeat (split; [reflexivity|]). intros h now.
  destruct (fulfilled64 h now input) as (r & Hr & _ & _ & He & Hc & _).
  exists r. split; [exact Hr|].
  assert (E : F64.energyMt h input = nan) by reflexivity.
  assert (C : F64.craterDiameter h input = nan).
  { unfold F64.craterDiameter.
    change (F64.term3 h input) with infinity.
    rewrite (falsy_mul_infinity _ infinity); [apply mul_nan_l| |reflexivity].
    apply mul_zero_falsy. reflexivity. }
  rewrite He, Hc, E, C. repeat split.
Qed.

(** C9 (amended).  The call is fulfilled and never rejected, for every
    input, and the radius, the volume, the mass and the energy that its
    trace prints are the values from which the kinetic energy in megatons
    is computed.  With a diameter that is zero, the radius and the volume
    are zero, and for one of the four types so is the mass; the kinetic
    energy is zero provided the square of the velocity in m/s is finite,
    and the crater size is zero provided the other factors of the crater
    law are finite.  When the velocity in m/s overflows to [+Infinity] the
    kinetic energy and the crater size are [NaN] instead. *)
Theorem C9_total
    (h : F64.Host) (now : float) (input : F64.AsteroidInput) :
  exists r, F64.analyzeAsteroid h now input = Fulfilled r
    /\ (forall reason, F64.analyzeAsteroid h now input <> Rejected reason)
    /\ map result (F64.dimensionalProcess r)
       = [ F64.toFixed h (F64.radius input) 2 +:+ " m";
           F64.toExponential h (F64.volume h input) 2 +:+ " m³";
           F64.toExponential h (F64.mass h input) 2 +:+ " kg";
           F64.toLocaleString h (F64.velocityMs input) None +:+ " m/s";
           F64.toExponential h (F64.energyJoules h input) 2 +:+ " J";
           F64.toFixed h (F64.kineticEnergyMegatons r) 2 +:+ " MT" ]
    /\ F64.kineticEnergyMegatons r = F64.energyJoules h input / 4.184e15
    /\ (is_zero (F64.diameter input) = true ->
        is_zero (F64.radius input) = true
        /\ is_zero (F64.volume h input) = true
        /\ (F64.type input ∈ AsteroidType.members ->
            is_zero (F64.mass h input) = true
            /\ (is_finite (F64.Math_pow h (F64.velocity input * 1000) 2)
                = true ->
                is_zero (F64.energyJoules h input) = true
                /\ is_zero (F64.kineticEnergyMegatons r) = true))
        /\ (is_finite (1.161 * F64.term1 h input) = true ->
            is_finite (F64.term3 h input) = true ->
            is_finite (F64.term4 h) = true ->
            is_zero (F64.craterSizeMeters r) = true)
        /\ (F64.velocity input * 1000 = infinity ->
            F64.kineticEnergyMegatons r = nan
            /\ F64.craterSizeMeters r = nan)).
Proof.
  destruct (trace64 h now input) as (r & Hr & Htrace & He & Hc).
  exists r. split; [exact Hr|]. split; [rewrite Hr; discriminate|].
  split; [exact Htrace|]. split; [exact He|].
  intros Hd. rewrite He, Hc.
  assert (Hrad : is_zero (F64.radius input) = true).
  { unfold F64.radius. now apply div_zero_finite. }
  assert (Hvol : is_zero (F64.volume h input) = true).
  { unfold F64.volume. apply mul_finite_zero; [reflexivity|].
    now apply Math_pow_zero_base. }
  assert (Hterm2 : is_zero (F64.term2 h input) = true).
  { unfold F64.term2. now apply Math_pow_zero_base. }
  split; [exact Hrad|]. split; [exact Hvol|]. split; [|split].
  - intros Ht.
    assert (Hmass : is_zero (F64.mass h input) = true).
    { unfold F64.mass. rewrite (density_member input Ht). cbn [F64.ToNumber].
      apply mul_finite_zero; [|exact Hvol].
      unfold AsteroidType.members in Ht.
      repeat (apply elem_of_cons in Ht as [->|Ht]);
        [| | | |apply elem_of_nil in Ht; contradiction]; reflexivity. }
    split; [exact Hmass|]. intros Hfin.
    assert (Hj : is_zero (F64.energyJoules h input) = true).
    { unfold F64.energyJoules. apply mul_zero_finite; [|exact Hfin].
      now apply mul_finite_zero. }
    split; [exact Hj|]. now apply div_zero_finite.
  - intros H1 H3 H4. unfold F64.craterDiameter.
    apply mul_zero_finite; [|exact H4].
    apply mul_zero_finite; [|exact H3].
    now apply mul_finite_zero.
  - intros Hinf. split.
    + unfold F64.energyJoules, F64.velocityMs. rewrite Hinf.
      rewrite (Math_pow_infinity_base h 2) by reflexivity.
      rewrite (falsy_mul_infinity _ infinity); [apply div_nan_l| |reflexivity].
      apply mul_falsy_r. unfold F64.mass. apply mul_falsy_r.
      apply negb_false_iff, orb_true_iff. now right.
    + unfold F64.craterDiameter, F64.term3, F64.velocityMs. rewrite Hinf.
      rewrite (Math_pow_infinity_base h 0.44) by reflexivity.
      rewrite (falsy_mul_infinity _ infinity); [apply mul_nan_l| |reflexivity].
      apply mul_falsy_r.
      apply negb_false_iff, orb_true_iff. now right.
Qed.

(** Diameter 0 at 17 km/s: everything is zero. *)
Lemma C9_total_witness :
  exists r,
    F64.analyzeAsteroid F64.plain_host 0
      (F64.with_diameter F64.DEFAULT_INPUT 0) = Fulfilled r
    /\ is_zero (F64.volume F64.plain_host
                  (F64.with_diameter F64.DEFAULT_INPUT 0)) = true
    /\ is_zero (F64.mass F64.plain_host
                  (F64.with_diameter F64.DEFAULT_INPUT 0)) = true
    /\ is_zero (F64.kineticEnergyMegatons r) = true
    /\ is_zero (F64.craterSizeMeters r) = true.
Proof.
  destruct (C9_total F64.plain_host 0 (F64.with_diameter F64.DEFAULT_INPUT 0))
    as (r & Hr & _ & _ & _ & H).
  destruct (H eq_refl) as (_ & Hvol & Hm & Hcr & _).
  destruct (Hm (list_elem_of_here _ _)) as (Hmass & He).
  destruct (He eq_refl) as (_ & Hmt).
  exists r. split; [exact Hr|]. split; [exact Hvol|]. split; [exact Hmass|].
  split; [exact Hmt|]. apply Hcr; reflexivity.
Defined.

End Binary64_C9.

(** C10.  A negative distance is not rejected: it takes the first branch of
    the classifier, so the probability is 100 and the asteroid hits, as for
    any distance below 8371 km. *)
Theorem C10_negative_distance
    (h : Host) (now : number) (input : AsteroidInput) :
  (distance input <? 0)%js = true ->
  exists r, analyzeAsteroid h now input = Fulfilled r
    /\ impactProbability r = Num 100 /\ isHit r = true.
Proof.
  intros Hneg. apply lt_inv in Hneg as (d & z & Hd & Hz & Hlt).
  injection Hz as <-.
  destruct (impact_fields h now input d Hd) as (r & Hr & Hp & Hh).
  exists r. split; [exact Hr|].
  rewrite Hp, Hh. unfold Spec.probability.
  destruct (Rlt_dec d 8371); [|lra].
  rewrite round1_100. destruct (Rlt_dec 60 100); [auto|lra].
Qed.

Lemma C10_negative_distance_witness :
  exists r,
    analyzeAsteroid silent_host 0 (with_distance DEFAULT_INPUT (-1))
    = Fulfilled r
    /\ impactProbability r = Num 100 /\ isHit r = true.
Proof.
  apply (C10_negative_distance silent_host 0 (with_distance DEFAULT_INPUT (-1))).
  apply lt_Num. lra.
Defined.

(** * Further properties of the engine *)

(** ** The classifier (lines 43-63 of [analyzeAsteroid]) *)




(** ** The physical quantities (lines 22-35 and 65-80) *)


Lemma Math_pow_NaN (y : R) : y <> 0 -> Math_pow NaN (Num y) = NaN.
Proof.
  intros Hy. unfold Math_pow. destruct (Req_dec_T y 0); [contradiction|].
  reflexivity.
Qed.

Lemma energyMt_NaN (input : AsteroidInput) :
  diameter input = NaN \/ velocity input = NaN -> Local.energyMt input = NaN.
Proof.
  unfold Local.energyMt, Local.energyJoules, Local.mass, Local.volume,
    Local.radius, Local.velocityMs.
  intros [H|H]; rewrite H; cbn [div mul lift2];
    rewrite Math_pow_NaN by lra; now rewrite !mul_NaN_r.
Qed.

Lemma crater_NaN (input : AsteroidInput) :
  diameter input = NaN \/ velocity input = NaN ->
  Local.craterDiameter input = NaN.
Proof.
  unfold Local.craterDiameter, Local.term2, Local.term3, Local.velocityMs.
  intros [H|H]; rewrite H; cbn [mul lift2];
    rewrite Math_pow_NaN by lra; now rewrite !mul_NaN_r.
Qed.

(** The fields of a result, the summary included. *)
Lemma fulfilled_summary (h : Host) (now : number) (input : AsteroidInput) :
  exists r, analyzeAsteroid h now input = Fulfilled r
    /\ kineticEnergyMegatons r = Local.energyMt input
    /\ craterSizeMeters r = Local.craterDiameter input
    /\ analysisSummary r
       = Spec.report h (name input) (type input) (impactProbability r)
           (isHit r) (kineticEnergyMegatons r)
           (Spec.severity (kineticEnergyMegatons r)).
Proof. run_engine; repeat split. Qed.

(** X9.  A diameter or a velocity that is [NaN] (an emptied form field) is
    not detected: the call is fulfilled, the kinetic energy and the crater
    size are [NaN], and because [NaN] fails every threshold test the report
    carries the gravest tier, "Extinction Event". *)
Theorem X9_nan_propagation
    (h : Host) (now : number) (input : AsteroidInput) :
  diameter input = NaN \/ velocity input = NaN ->
  exists r, analyzeAsteroid h now input = Fulfilled r
    /\ kineticEnergyMegatons r = NaN
    /\ craterSizeMeters r = NaN
    /\ analysisSummary r
       = Spec.report h (name input) (type input) (impactProbability r)
           (isHit r) NaN "Extinction Event".
Proof.
  intros Hnan.
  destruct (fulfilled_summary h now input) as (r & Hr & He & Hc & Hs).
  exists r. split; [exact Hr|].
  rewrite Hs, He, Hc, (energyMt_NaN input Hnan), (crater_NaN input Hnan).
  repeat split.
Qed.

Lemma X9_nan_propagation_witness :
  exists r,
    analyzeAsteroid silent_host 0
      {| name := "Neo-X1"; diameter := NaN; velocity := 17;
         distance := 384400; type := AsteroidType.STONY |} = Fulfilled r
    /\ kineticEnergyMegatons r = NaN
    /\ craterSizeMeters r = NaN
    /\ analysisSummary r
       = Spec.report silent_host "Neo-X1" AsteroidType.STONY
           (impactProbability r) (isHit r) NaN "Extinction Event".
Proof.
  apply (X9_nan_propagation silent_host 0
           {| name := "Neo-X1"; diameter := NaN; velocity := 17;
              distance := 384400; type := AsteroidType.STONY |}).
  left. reflexivity.
Defined.



(** ** The narrative ([generateSummary], lines 175-189) *)




(** * The consumers of the engine *)

(** ** The results panel *)

Lemma round1_above_50 (p : R) : 50 < Spec.round1 p <-> 50.05 <= p.
Proof.
  unfold Spec.round1, round_half_up. simpl.
  pose proof (Zfloor_bound (p * (10 * 1) + / 2)) as [Hlo Hhi].
  split; intros H.
  - assert (Hz : (500 < Zfloor (p * (10 * 1) + / 2))%Z).
    { apply lt_IZR. lra. }
    assert (Hz' : (501 <= Zfloor (p * (10 * 1) + / 2))%Z) by lia.
    apply IZR_le in Hz'. lra.
  - assert (Hz : (501 <= Zfloor (p * (10 * 1) + / 2))%Z).
    { apply Zfloor_lub. lra. }
    apply IZR_le in Hz. lra.
Qed.


(** At 27000 km: a probability of 55.2 % in red, under "Safe Trajectory". *)
Example panel_27000 (h : Host) (now : number) :
  exists r, analyzeAsteroid h now (with_distance DEFAULT_INPUT 27000)
            = Fulfilled r
    /\ ResultsDisplay.impactColor r = "text-red-500"
    /\ ResultsDisplay.heading r = "Safe Trajectory".
Proof.
  destruct (impact_fields h now (with_distance DEFAULT_INPUT 27000) 27000
              eq_refl) as (r & Hr & Hp & Hh).
  exists r. split; [exact Hr|].
  unfold ResultsDisplay.impactColor, ResultsDisplay.heading.
  rewrite Hp, Hh. clear Hp Hh. unfold gt, lt, Spec.probability.
  destruct (Rlt_dec 27000 8371); [lra|].
  destruct (Rlt_dec 27000 50000); [|lra].
  destruct (Rlt_dec 60 _); [lra|].
  destruct (Rlt_dec 50 _) as [|Hn]; [split; reflexivity|].
  exfalso. apply Hn. apply round1_above_50. lra.
Qed.

(** X13.  The step cards of the panel, for any result (also one with no
    step or with a trace of another length): there is one card per step, in
    order; the card at position [i] is headed "Step i+1: " followed by the
    label of its step; and the arrow is left out under the last card and
    under no other.  For a result of the engine these are six cards, headed
    "Step 1: Calculate Radius" to "Step 6: TNT Equivalent", with five
    arrows. *)
Theorem X13_step_cards (result : AnalysisResult) :
  length (ResultsDisplay.cards result) = length (dimensionalProcess result)
  /\ (forall i c, ResultsDisplay.cards result !! i = Some c ->
        dimensionalProcess result !! i = Some (DimensionalStepCard.data c)
        /\ DimensionalStepCard.index c = i
        /\ DimensionalStepCard.title c
           = "Step " +:+ decimal (i + 1) +:+ ": "
             +:+ step (DimensionalStepCard.data c)
        /\ (DimensionalStepCard.arrow c = false
            <-> S i = length (dimensionalProcess result)))
  /\ (forall h now input r,
        analyzeAsteroid h now input = Fulfilled r ->
        map DimensionalStepCard.title (ResultsDisplay.cards r)
        = [ "Step 1: Calculate Radius"; "Step 2: Calculate Volume";
            "Step 3: Derive Mass"; "Step 4: Velocity Conversion";
            "Step 5: Kinetic Energy"; "Step 6: TNT Equivalent" ]
        /\ map DimensionalStepCard.arrow (ResultsDisplay.cards r)
           = [true; true; true; true; true; false]).
Proof.
  unfold ResultsDisplay.cards. split; [apply length_imap|]. split.
  - intros i c Hc. rewrite list_lookup_imap in Hc.
    destruct (dimensionalProcess result !! i) as [s|] eqn:Hs;
      [|discriminate].
    injection Hc as <-. unfold DimensionalStepCard.arrow,
      DimensionalStepCard.title. cbn.
    repeat split; intros H.
    + apply negb_false_iff, Z.eqb_eq in H. lia.
    + apply negb_false_iff, Z.eqb_eq. lia.
  - intros h now input r Hr. unfold analyzeAsteroid in Hr.
    cbv zeta in Hr.
    repeat match type of Hr with
    | context [if JS.lt ?a ?b then _ else _] => destruct (JS.lt a b)
    end; injection Hr as <-; split; reflexivity.
Qed.

(** ** The page (App.tsx) *)

Module AppFacts.
Import App.

Lemma handleInputChange_frame (name value : string) (s : State) :
  loading (handleInputChange name value s) = loading s
  /\ result (handleInputChange name value s) = result s
  /\ history (handleInputChange name value s) = history s
  /\ isSidebarOpen (handleInputChange name value s) = isSidebarOpen s.
Proof.
  unfold handleInputChange. destruct (input s). repeat split.
Qed.

Lemma handleInputChange_distance (value : string) (s : State) :
  input (handleInputChange "distance" value s)
  = with_distance (input s) (parseFloat value).
Proof. unfold handleInputChange. destruct (input s). reflexivity. Qed.

Lemma handleInputChange_diameter (value : string) (s : State) :
  diameter (input (handleInputChange "diameter" value s)) = parseFloat value.
Proof. unfold handleInputChange. destruct (input s). reflexivity. Qed.

Lemma handleInputChange_velocity (value : string) (s : State) :
  velocity (input (handleInputChange "velocity" value s)) = parseFloat value.
Proof. unfold handleInputChange. destruct (input s). reflexivity. Qed.

(** The engine never rejects, so [handleSubmit] always takes its [try]
    branch to the end. *)
Lemma handleSubmit_resume_ok (h : Host) (now stamp : number)
    (captured : AsteroidInput) (s : State) :
  exists data,
    analyzeAsteroid h now captured = Fulfilled data
    /\ handleSubmit_resume h now stamp captured s
       = ({| input := input s; loading := false; result := Some data;
             history := {| HistoryItem.id := Number_toString h stamp;
                           HistoryItem.input := captured;
                           HistoryItem.result := data |} :: history s;
             isSidebarOpen := isSidebarOpen s |}, []).
Proof.
  destruct (fulfilled h now captured) as (data & Hdata & _).
  exists data. split; [exact Hdata|].
  unfold handleSubmit_resume. now rewrite Hdata.
Qed.

Lemma run_snoc (h : Host) (w : World) (events : list Event) (e : Event) :
  run h w (events ++ [e]) = dispatch h (run h w events) e.
Proof. unfold run. now rewrite foldl_snoc. Qed.

(** A property kept by every event is kept by every run. *)
Lemma run_invariant (h : Host) (P : World -> Prop) :
  (forall w e, P w -> P (dispatch h w e)) ->
  forall w events, P w -> P (run h w events).
Proof.
  intros Hstep w events. revert w.
  induction events as [|e events IH]; intros w Hw; [exact Hw|].
  apply (IH (dispatch h w e)), Hstep, Hw.
Qed.

Lemma consistent_step (h : Host) (w : World) (e : Event) :
  consistent h w -> consistent h (dispatch h w e).
Proof.
  intros (Hlog & Hshown & Halert). destruct e as [n v| |k now stamp|i| |];
    cbn [dispatch].
  - destruct (handleInputChange_frame n v (state w)) as (_ & Hr & Hh & _).
    repeat split; cbn [state alerts]; try assumption.
    + now rewrite Hh.
    + rewrite Hr, Hh. apply Hshown.
  - destruct (loading (state w)); [now repeat split|].
    repeat split; cbn; try assumption. discriminate.
  - destruct (inflight w !! k) as [captured|]; [|now repeat split].
    destruct (handleSubmit_resume_ok h now stamp captured (state w))
      as (data & Hdata & ->).
    repeat split; cbn [state alerts history result].
    + intros item [->|Hin]%elem_of_cons; [now exists now|now apply Hlog].
    + intros r [= <-]. eexists. split; [apply list_elem_of_here|reflexivity].
    + now rewrite Halert.
  - destruct (history (state w) !! i) as [item|] eqn:Hi; [|now repeat split].
    repeat split; cbn; try assumption.
    intros r [= <-]. exists item. split; [|reflexivity].
    now apply list_elem_of_lookup_2 in Hi.
  - now repeat split.
  - now repeat split.
Qed.

Lemma single_flight_step (h : Host) (w : World) (e : Event) :
  single_flight w -> single_flight (dispatch h w e).
Proof.
  unfold single_flight. intros (Hload & Hlen).
  destruct e as [n v| |k now stamp|i| |]; cbn [dispatch].
  - destruct (handleInputChange_frame n v (state w)) as (Hl & _).
    split; cbn [state inflight]; [now rewrite Hl|assumption].
  - destruct (loading (state w)) eqn:Hl; [rewrite Hl; now split|].
    assert (Hnil : inflight w = []).
    { destruct (inflight w) as [|x l] eqn:E; [reflexivity|].
      assert (false = true) by (apply Hload; discriminate). discriminate. }
    rewrite Hnil. split; cbn; [|lia]. split; [discriminate|reflexivity].
  - destruct (inflight w !! k) as [captured|] eqn:Hk; [|now split].
    destruct (handleSubmit_resume_ok h now stamp captured (state w))
      as (data & _ & ->).
    destruct (inflight w) as [|x [|y l]]; cbn in Hlen; try lia;
      [discriminate|].
    destruct k as [|k]; [|discriminate].
    split; cbn; [|lia]. split; [discriminate|contradiction].
  - destruct (history (state w) !! i); now split.
  - now split.
  - now split.
Qed.

Lemma history_step (h : Host) (w : World) (e : Event) :
  exists new,
    history (state (dispatch h w e)) = new ++ history (state w)
    /\ (length new <= if is_settle e then 1 else 0)%nat.
Proof.
  destruct e as [n v| |k now stamp|i| |]; cbn [dispatch is_settle].
  - destruct (handleInputChange_frame n v (state w)) as (_ & _ & Hh & _).
    exists []. cbn [state]. now rewrite Hh.
  - exists []. now destruct (loading (state w)).
  - destruct (inflight w !! k) as [captured|]; [|exists []; split; cbn; lia || reflexivity].
    destruct (handleSubmit_resume_ok h now stamp captured (state w))
      as (data & _ & ->).
    eexists [_]. split; [reflexivity|cbn; lia].
  - exists []. now destruct (history (state w) !! i).
  - now exists [].
  - now exists [].
Qed.

Lemma edits_frame (h : Host) (w : World) (l : list (string * string)) :
  loading (state (run h w (edits l))) = loading (state w)
  /\ result (state (run h w (edits l))) = result (state w)
  /\ history (state (run h w (edits l))) = history (state w)
  /\ inflight (run h w (edits l)) = inflight w
  /\ alerts (run h w (edits l)) = alerts w.
Proof.
  revert w. induction l as [|[n v] l IH]; intros w; [now repeat split|].
  cbn [edits map run foldl fst snd].
  destruct (IH (dispatch h w (Change n v))) as (H1 & H2 & H3 & H4 & H5).
  unfold run, edits in *. rewrite H1, H2, H3, H4, H5. cbn [dispatch state inflight alerts].
  destruct (handleInputChange_frame n v (state w)) as (F1 & F2 & F3 & _).
  now rewrite F1, F2, F3.
Qed.

Lemma recognised_step (h : Host) (w : World) (e : Event) :
  from_form e -> recognised w -> recognised (dispatch h w e).
Proof.
  intros He (Hin & Hfly & Hlog).
  destruct e as [n v| |k now stamp|i| |]; cbn [dispatch].
  - destruct (handleInputChange_frame n v (state w)) as (_ & _ & Hh & _).
    split; [|split]; cbn [state inflight]; [|assumption|now rewrite Hh].
    unfold handleInputChange. destruct (input (state w)) eqn:E.
    cbn [type] in Hin.
    repeat match goal with
    | |- context [String.eqb n ?c] => destruct (String.eqb_spec n c)
    end; cbn [input type]; try assumption.
    subst n. apply He. reflexivity.
  - destruct (loading (state w)); [now repeat split|].
    split; [|split]; cbn; try assumption.
    intros i [Hi| ->%list_elem_of_singleton]%elem_of_app;
      [now apply Hfly|assumption].
  - destruct (inflight w !! k) as [captured|] eqn:Hk; [|now repeat split].
    destruct (handleSubmit_resume_ok h now stamp captured (state w))
      as (data & _ & ->).
    split; [|split]; cbn [state inflight history input].
    + assumption.
    + intros i Hi. apply Hfly. now apply list_elem_of_delete_inv in Hi.
    + intros item [->|Hitem]%elem_of_cons; [|now apply Hlog].
      cbn. apply Hfly. now apply list_elem_of_lookup_2 in Hk.
  - destruct (history (state w) !! i) as [item|] eqn:Hi; [|now repeat split].
    split; [|split]; cbn; try assumption.
    apply Hlog. now apply list_elem_of_lookup_2 in Hi.
  - now repeat split.
  - now repeat split.
Qed.

End AppFacts.

Import AppFacts.

Lemma member_tables (t : string) :
  t ∈ AsteroidType.members ->
  DENSITY_MAP !! t <> None
  /\ getComposition t <> []
  /\ Spec.total_percentage (getComposition t) = Num 100.
Proof.
  unfold AsteroidType.members. intros Ht.
  repeat (apply elem_of_cons in Ht as [->|Ht]);
    [| | | |apply elem_of_nil in Ht; contradiction];
    (split; [discriminate|split; [discriminate|cbn; f_equal; lra]]).
Qed.

(** X14.  The form can only produce inputs the engine recognises.  As long
    as every change of the type select carries the value of one of the
    options of [ASTEROID_TYPES], the type on the form, of every pending
    analysis and of every logged input is a member of the enum; so for each
    logged item the density comes from [DENSITY_MAP] itself (the 2500
    fallback is never used) and the composition is a non-empty list whose
    percentages add up to 100. *)
Theorem X14_recognised_type (h : Host) (events : list App.Event) :
  Forall App.from_form events ->
  App.recognised (App.run h App.start events)
  /\ (forall item,
        item ∈ App.history (App.state (App.run h App.start events)) ->
        DENSITY_MAP !! type (HistoryItem.input item) <> None
        /\ composition (HistoryItem.result item) <> []
        /\ Spec.total_percentage (composition (HistoryItem.result item))
           = Num 100).
Proof.
  intros Hev.
  assert (Hinv : App.recognised (App.run h App.start events)
                 /\ App.consistent h (App.run h App.start events)).
  { assert (H0 : App.recognised App.start /\ App.consistent h App.start).
    { split.
      - repeat split; cbn; try (intros ? []%elem_of_nil).
        apply list_elem_of_here.
      - repeat split; cbn; try discriminate; intros ? []%elem_of_nil. }
    revert H0. generalize App.start as w.
    induction Hev as [|e events He _ IH]; intros w Hw; [exact Hw|].
    apply (IH (App.dispatch h w e)). destruct Hw as [Hr Hc]. split.
    - now apply recognised_step.
    - now apply consistent_step. }
  destruct Hinv as [Hrec Hcons]. split; [exact Hrec|].
  intros item Hitem.
  destruct Hrec as (_ & _ & Hlog). destruct Hcons as (Heng & _ & _).
  specialize (Hlog item Hitem). destruct (Heng item Hitem) as [now Hnow].
  destruct (fulfilled h now (HistoryItem.input item))
    as (r & Hr & _ & _ & Hcomp & _).
  assert (r = HistoryItem.result item) by congruence. subst r.
  rewrite Hcomp. now apply member_tables.
Qed.

Lemma X14_recognised_type_witness :
  App.recognised
    (App.run silent_host App.start
       [App.Change "type" AsteroidType.ICY; App.Submit;
        App.Settle 0 0 0])
  /\ (forall item,
        item ∈ App.history (App.state
                 (App.run silent_host App.start
                    [App.Change "type" AsteroidType.ICY; App.Submit;
                     App.Settle 0 0 0])) ->
        DENSITY_MAP !! type (HistoryItem.input item) <> None
        /\ composition (HistoryItem.result item) <> []
        /\ Spec.total_percentage (composition (HistoryItem.result item))
           = Num 100).
Proof.
  apply (X14_recognised_type silent_host
           [App.Change "type" AsteroidType.ICY; App.Submit;
            App.Settle 0 0 0]).
  apply Forall_cons. split; [|repeat (apply Forall_cons; split; [exact I|]);
                              apply Forall_nil_2].
  intros _. cbn.
  apply list_elem_of_further, list_elem_of_further, list_elem_of_here.
Defined.

(** X15.  Whatever the user does, the log stays truthful: after any
    sequence of events from the initial page, every history item pairs an
    input with exactly the result the engine returns for that input, the
    result on display (when there is one) is the result of a logged item,
    and the error alert of [handleSubmit] has never been shown. *)
Theorem X15_history_consistent (h : Host) (events : list App.Event) :
  let w := App.run h App.start events in
  (forall item, item ∈ App.history (App.state w) ->
     exists now, analyzeAsteroid h now (HistoryItem.input item)
                 = Fulfilled (HistoryItem.result item))
  /\ (forall r, App.result (App.state w) = Some r ->
        exists item, item ∈ App.history (App.state w)
                     /\ HistoryItem.result item = r)
  /\ App.alerts w = [].
Proof.
  apply (run_invariant h (App.consistent h)); [apply consistent_step|].
  repeat split; cbn; try discriminate; intros ? []%elem_of_nil.
Qed.

(** X16.  The history is append-only and newest first: from any page and
    for any sequence of events, the history afterwards is the history
    before with new items in front of it, no item ever being removed,
    changed or reordered, and at most one new item per settled analysis. *)
Theorem X16_history_append_only
    (h : Host) (w : App.World) (events : list App.Event) :
  exists new,
    App.history (App.state (App.run h w events))
    = new ++ App.history (App.state w)
    /\ (length new <= length (filter App.is_settle events))%nat.
Proof.
  revert w. induction events as [|e events IH]; intros w.
  - exists []. split; [reflexivity|cbn; lia].
  - destruct (IH (App.dispatch h w e)) as (new2 & H2 & L2).
    destruct (history_step h w e) as (new1 & H1 & L1).
    exists (new2 ++ new1). split.
    + cbn [App.run foldl]. unfold App.run in H2. rewrite H2, H1.
      now rewrite app_assoc.
    + rewrite length_app. rewrite filter_cons.
      destruct (decide _) as [D|D]; cbn [length];
        destruct (App.is_settle e); cbn in D; try lia; tauto.
Qed.

(** X17.  At most one analysis is ever pending, and the loading indicator
    tells the truth about it: after any sequence of events from the initial
    page, [loading] holds exactly when an analysis has been started and has
    not settled, and there is never a second one. *)
Theorem X17_single_flight (h : Host) (events : list App.Event) :
  let w := App.run h App.start events in
  (App.loading (App.state w) = true <-> App.inflight w <> [])
  /\ (length (App.inflight w) <= 1)%nat.
Proof.
  apply (run_invariant h App.single_flight); [apply single_flight_step|].
  split; cbn; [|lia]. split; [discriminate|contradiction].
Qed.

Lemma handleInputChange_input (name value : string) (s1 s2 : App.State) :
  App.input s1 = App.input s2 ->
  App.input (App.handleInputChange name value s1)
  = App.input (App.handleInputChange name value s2).
Proof.
  unfold App.handleInputChange. intros ->. now destruct (App.input s2).
Qed.

Lemma edits_input (h : Host) (l : list (string * string)) :
  forall w1 w2 : App.World,
  App.input (App.state w1) = App.input (App.state w2) ->
  App.input (App.state (App.run h w1 (App.edits l)))
  = App.input (App.state (App.run h w2 (App.edits l))).
Proof.
  induction l as [|[n v] l IH]; intros w1 w2 H; [exact H|].
  cbn [App.edits map App.run foldl fst snd].
  apply (IH (App.dispatch h w1 (App.Change n v))
            (App.dispatch h w2 (App.Change n v))).
  cbn [App.dispatch App.state]. now apply handleInputChange_input.
Qed.

(** X18.  [handleSubmit] analyses the input it captured when the form was
    submitted, not the input on the form when the promise settles.  From an
    idle page: submit, edit the form in any way while the analysis is
    pending, let the analysis settle.  Then the result on display and the
    new history item are the engine's output for the input as it was at the
    submit, the history item stores that input, the form keeps the edits,
    and the page is idle again. *)
Theorem X18_submit_captures_input
    (h : Host) (w : App.World) (l : list (string * string))
    (now stamp : number) :
  App.loading (App.state w) = false ->
  App.inflight w = [] ->
  let w' := App.run h w
              ((App.Submit :: App.edits l) ++ [App.Settle 0 now stamp]) in
  exists data,
    analyzeAsteroid h now (App.input (App.state w)) = Fulfilled data
    /\ App.result (App.state w') = Some data
    /\ App.history (App.state w')
       = {| HistoryItem.id := Number_toString h stamp;
            HistoryItem.input := App.input (App.state w);
            HistoryItem.result := data |} :: App.history (App.state w)
    /\ App.input (App.state w')
       = App.input (App.state (App.run h w (App.edits l)))
    /\ App.loading (App.state w') = false
    /\ App.inflight w' = []
    /\ App.alerts w' = App.alerts w.
Proof.
  intros Hidle Hnone w'. subst w'. rewrite run_snoc.
  change (App.run h w (App.Submit :: App.edits l))
    with (App.run h (App.dispatch h w App.Submit) (App.edits l)).
  set (w1 := App.dispatch h w App.Submit).
  assert (H1 : App.state w1 = App.handleSubmit_start (App.state w)
               /\ App.inflight w1 = [App.input (App.state w)]
               /\ App.alerts w1 = App.alerts w).
  { subst w1. cbn [App.dispatch]. rewrite Hidle, Hnone. now repeat split. }
  destruct H1 as (Hs1 & Hi1 & Ha1).
  destruct (edits_frame h w1 l) as (_ & _ & Hh & Hi & Ha).
  assert (Hin : App.input (App.state (App.run h w1 (App.edits l)))
                = App.input (App.state (App.run h w (App.edits l)))).
  { apply edits_input. now rewrite Hs1. }
  set (w2 := App.run h w1 (App.edits l)) in *.
  cbn [App.dispatch]. rewrite Hi, Hi1. cbn [lookup list_lookup].
  destruct (handleSubmit_resume_ok h now stamp (App.input (App.state w))
              (App.state w2)) as (data & Hdata & ->).
  exists data. cbn [App.state App.inflight App.alerts App.result
                    App.history App.input App.loading delete list_delete].
  rewrite Hh, Hs1, Ha, Ha1, Hin. cbn [App.handleSubmit_start App.history].
  repeat split; [exact Hdata|now rewrite app_nil_r].
Qed.

Lemma X18_submit_captures_input_witness :
  exists data,
    analyzeAsteroid silent_host 0 DEFAULT_INPUT = Fulfilled data
    /\ App.result (App.state (App.run silent_host App.start
          ((App.Submit :: App.edits [("distance", "5")])
             ++ [App.Settle 0 0 0]))) = Some data.
Proof.
  destruct (X18_submit_captures_input silent_host App.start
              [("distance", "5")] 0 0 eq_refl eq_refl)
    as (data & H1 & H2 & _).
  exists data. split; [exact H1|exact H2].
Defined.

(** X19.  Loading a history entry puts a matching pair back on the page.
    On any page reached from the initial one, a click on the [i]-th entry
    shows that entry's input and result and closes the sidebar, leaves the
    history, the loading flag and the pending analyses alone, and the result
    now on display is what the engine returns for the input now on the
    form. *)
Theorem X19_load_history_item
    (h : Host) (events : list App.Event) (i : nat) (item : HistoryItem.t) :
  let w := App.run h App.start events in
  App.history (App.state w) !! i = Some item ->
  let w' := App.dispatch h w (App.Load i) in
  App.input (App.state w') = HistoryItem.input item
  /\ App.result (App.state w') = Some (HistoryItem.result item)
  /\ App.isSidebarOpen (App.state w') = false
  /\ App.history (App.state w') = App.history (App.state w)
  /\ App.loading (App.state w') = App.loading (App.state w)
  /\ App.inflight w' = App.inflight w
  /\ (exists now, analyzeAsteroid h now (App.input (App.state w'))
                  = Fulfilled (HistoryItem.result item)).
Proof.
  intros w Hi w'. subst w'. cbn [App.dispatch]. rewrite Hi.
  cbn [App.state App.inflight App.loadHistoryItem App.input App.result
       App.isSidebarOpen App.history App.loading].
  repeat split.
  assert (Hc : App.consistent h w).
  { apply (run_invariant h (App.consistent h)); [apply consistent_step|].
    repeat split; cbn; try discriminate; intros ? []%elem_of_nil. }
  destruct Hc as (Hlog & _). apply Hlog.
  now apply list_elem_of_lookup_2 with i.
Qed.

Lemma X19_load_history_item_witness :
  exists item,
    App.result (App.state
      (App.dispatch silent_host
         (App.run silent_host App.start [App.Submit; App.Settle 0 0 0])
         (App.Load 0)))
    = Some (HistoryItem.result item).
Proof.
  destruct (handleSubmit_resume_ok silent_host 0 0 DEFAULT_INPUT
              (App.handleSubmit_start App.initial)) as (data & Hd & Hs).
  exists {| HistoryItem.id := Number_toString silent_host 0;
            HistoryItem.input := DEFAULT_INPUT;
            HistoryItem.result := data |}.
  refine (proj1 (proj2 (X19_load_history_item silent_host
                          [App.Submit; App.Settle 0 0 0] 0 _ _))).
  cbn [App.run foldl App.dispatch App.start App.state App.initial
       App.loading App.inflight app lookup list_lookup].
  change (App.input App.initial) with DEFAULT_INPUT.
  rewrite Hs. reflexivity.
Defined.

(** X20.  The functional update of [handleInputChange] makes edits behave
    like writes to independent fields: a later edit of a field overrides an
    earlier edit of the same field, and edits of two different fields give
    the same page in either order. *)
Theorem X20_edits_commute (n1 n2 v1 v2 : string) (s : App.State) :
  App.handleInputChange n1 v2 (App.handleInputChange n1 v1 s)
  = App.handleInputChange n1 v2 s
  /\ (n1 <> n2 ->
      App.handleInputChange n2 v2 (App.handleInputChange n1 v1 s)
      = App.handleInputChange n1 v1 (App.handleInputChange n2 v2 s)).
Proof.
  unfold App.handleInputChange. destruct s as [[nm d v ds t] ld r hs sb].
  cbn [App.input App.loading App.result App.history App.isSidebarOpen].
  split.
  - repeat (destruct (String.eqb n1 _); [reflexivity|]). reflexivity.
  - intros Hne.
    destruct (String.eqb_spec n1 "diameter") as [->|?];
    [|destruct (String.eqb_spec n1 "velocity") as [->|?];
    [|destruct (String.eqb_spec n1 "distance") as [->|?];
    [|destruct (String.eqb_spec n1 "name") as [->|?];
    [|destruct (String.eqb_spec n1 "type") as [->|?]]]]];
    (destruct (String.eqb_spec n2 "diameter") as [->|?];
    [|destruct (String.eqb_spec n2 "velocity") as [->|?];
    [|destruct (String.eqb_spec n2 "distance") as [->|?];
    [|destruct (String.eqb_spec n2 "name") as [->|?];
    [|destruct (String.eqb_spec n2 "type") as [->|?]]]]]);
    try reflexivity; try contradiction.
Qed.

Lemma X20_edits_commute_witness :
  App.handleInputChange "velocity" "30"
    (App.handleInputChange "diameter" "100" App.initial)
  = App.handleInputChange "diameter" "100"
      (App.handleInputChange "velocity" "30" App.initial).
Proof.
  apply (proj2 (X20_edits_commute "diameter" "velocity" "100" "30"
                  App.initial)).
  discriminate.
Defined.

(** X21.  The generative variant fulfils exactly when the key is not empty,
    the service answers the prompt built from the input with a non-empty
    text, and that text parses; in every other case it rejects.  Without a
    key the reason is "API Key is required", whatever the service would
    have answered.  Otherwise a rejection carries "No response from Gemini"
    or the very reason the service or the parser gave: a failure is rethrown
    as it is, there is no retry and no fallback to the local engine. *)
Theorem X21_remote_outcome
    (h : Host) (service : Remote.Service) (now : number)
    (input : AsteroidInput) (apiKey : string) :
  (apiKey = "" ->
   Remote.analyzeAsteroid h service now input apiKey
   = Rejected "API Key is required")
  /\ (forall v,
     Remote.analyzeAsteroid h service now input apiKey = Fulfilled v <->
     apiKey <> ""
     /\ exists text data,
          Remote.generateContent service (Remote.prompt h input)
          = Fulfilled (Some text)
          /\ text <> ""
          /\ Remote.JSON_parse service text = Fulfilled data
          /\ v = <["timestamp" := Remote.JNum now]>
                   (Remote.own_properties data))
  /\ (forall e,
        Remote.analyzeAsteroid h service now input apiKey = Rejected e ->
        e = "API Key is required"
        \/ e = "No response from Gemini"
        \/ Remote.generateContent service (Remote.prompt h input)
           = Rejected e
        \/ exists text,
             Remote.generateContent service (Remote.prompt h input)
             = Fulfilled (Some text)
             /\ Remote.JSON_parse service text = Rejected e).
Proof.
  unfold Remote.analyzeAsteroid.
  destruct (String.eqb_spec apiKey "") as [->|Hkey].
  { split; [reflexivity|]. split; [|intros e [= <-]; now left].
    intros v. split; [discriminate|]. now intros [[] _]. }
  split; [contradiction|].
  destruct (Remote.generateContent service (Remote.prompt h input))
    as [[text|]|e0] eqn:Hgen.
  - destruct (String.eqb_spec text "") as [->|Htext].
    { split; [|intros e [= <-]; right; now left].
      intros v. split; [discriminate|].
      intros (_ & t & d & [= <-] & Ht & _). now destruct Ht. }
    destruct (Remote.JSON_parse service text) as [data|e1] eqn:Hparse.
    + split; [|discriminate].
      intros v. split.
      * intros [= <-]. split; [exact Hkey|]. now exists text, data.
      * intros (_ & t & d & [= <-] & _ & Hd & ->).
        rewrite Hparse in Hd. now injection Hd as <-.
    + split.
      * intros v. split; [discriminate|].
        intros (_ & t & d & [= <-] & _ & Hd & _). congruence.
      * intros e [= <-]. right; right; right. now exists text.
  - split; [|intros e [= <-]; right; now left].
    intros v. split; [discriminate|].
    intros (_ & t & d & Hd & _). discriminate.
  - split; [|intros e [= <-]; right; right; now left].
    intros v. split; [discriminate|].
    intros (_ & t & d & Hd & _). discriminate.
Qed.

(** X22.  A fulfilled result of the generative variant is the parsed answer
    with the clock written over it, and nothing is checked on the way: the
    [timestamp] is the time of the call also when the answer carries one of
    its own, every other property is exactly the answer's, and the promise
    fulfils for any parsed value, be it an object without the required
    fields, [null] or a number (the result then has no property but
    [timestamp]). *)
Theorem X22_remote_timestamp
    (h : Host) (service : Remote.Service) (now : number)
    (input : AsteroidInput) (apiKey text : string) (data : Remote.json) :
  apiKey <> "" ->
  Remote.generateContent service (Remote.prompt h input)
  = Fulfilled (Some text) ->
  text <> "" ->
  Remote.JSON_parse service text = Fulfilled data ->
  exists v,
    Remote.analyzeAsteroid h service now input apiKey = Fulfilled v
    /\ v !! "timestamp" = Some (Remote.JNum now)
    /\ (forall k, k <> "timestamp" ->
          v !! k = Remote.own_properties data !! k)
    /\ (match data with
        | Remote.JNull | Remote.JBool _ | Remote.JNum _ =>
          v = {[ "timestamp" := Remote.JNum now ]}
        | _ => True
        end).
Proof.
  intros Hkey Hgen Htext Hparse.
  exists (<["timestamp" := Remote.JNum now]> (Remote.own_properties data)).
  split.
  - unfold Remote.analyzeAsteroid.
    destruct (String.eqb_spec apiKey ""); [contradiction|].
    rewrite Hgen. destruct (String.eqb_spec text ""); [contradiction|].
    now rewrite Hparse.
  - split; [apply lookup_insert_eq|]. split.
    + intros k Hk. now apply lookup_insert_ne.
    + destruct data; try exact I; reflexivity.
Qed.

Lemma X22_remote_timestamp_witness :
  exists v,
    Remote.analyzeAsteroid silent_host
      (canned_service "{}" (Remote.JObj {[ "timestamp" := Remote.JNum 7 ]}))
      0 DEFAULT_INPUT "key"
    = Fulfilled v
    /\ v !! "timestamp" = Some (Remote.JNum 0).
Proof.
  destruct (X22_remote_timestamp silent_host
              (canned_service "{}"
                 (Remote.JObj {[ "timestamp" := Remote.JNum 7 ]}))
              0 DEFAULT_INPUT "key" "{}"
              (Remote.JObj {[ "timestamp" := Remote.JNum 7 ]}))
    as (v & H1 & H2 & _);
    [discriminate|reflexivity|discriminate|reflexivity|].
  exists v. split; [exact H1|exact H2].
Defined.

(** ** The engine in binary64: names and magnitudes outside the table *)

Section Binary64_Extras.
Import Floats.PrimFloat.
Import F64Facts F64Engine F64Overflow.
#[local] Set Warnings "-inexact-float".
Local Open Scope float_scope.

(** X23.  A type that names a property every object inherits (such as
    "constructor" or "toString") is not served by the 2500 fallback: the
    lookup on [DENSITY_MAP] finds the inherited function, which is truthy
    and is no number, so the kinetic energy and the crater size are [NaN];
    the composition is empty, as for any type outside the enum. *)
Theorem X23_inherited_type
    (h : F64.Host) (now : float) (input : F64.AsteroidInput) :
  F64.type input ∈ F64.Object_prototype ->
  exists r, F64.analyzeAsteroid h now input = Fulfilled r
    /\ F64.density input = F64.Inherited (F64.type input)
    /\ F64.kineticEnergyMegatons r = nan
    /\ F64.craterSizeMeters r = nan
    /\ F64.composition r = [].
Proof.
  intros Ht.
  destruct (fulfilled64 h now input) as (r & Hr & _ & _ & He & Hc & Hcomp & _).
  exists r. split; [exact Hr|]. rewrite He, Hc, Hcomp.
  split; [now apply density_inherited|].
  unfold F64.energyMt, F64.energyJoules, F64.mass, F64.craterDiameter,
    F64.term1.
  rewrite (density_inherited input Ht). cbn [F64.ToNumber].
  split; [|split].
  - rewrite mul_nan_l. change (0.5 * nan) with nan.
    now rewrite mul_nan_l, div_nan_l.
  - change (F64.Math_pow h (nan / 2500) (1 / 3)) with nan.
    change (1.161 * nan) with nan. now rewrite !mul_nan_l.
  - unfold F64.Object_prototype in Ht.
    repeat (apply elem_of_cons in Ht as [->|Ht]);
      try (apply elem_of_nil in Ht; contradiction); reflexivity.
Qed.

Lemma X23_inherited_type_witness :
  exists r,
    F64.analyzeAsteroid F64.plain_host 0
      (F64.with_type F64.DEFAULT_INPUT "constructor") = Fulfilled r
    /\ F64.kineticEnergyMegatons r = nan
    /\ F64.craterSizeMeters r = nan.
Proof.
  destruct (X23_inherited_type F64.plain_host 0
              (F64.with_type F64.DEFAULT_INPUT "constructor"))
    as (r & Hr & _ & He & Hc & _); [apply list_elem_of_here|].
  exists r. split; [exact Hr|]. split; [exact He|exact Hc].
Defined.

(** X24.  A velocity so large that its conversion to m/s overflows (from
    about 1.8e305 km/s on) never gives a finite result: the velocity in
    m/s is an infinity, so are its powers, and the kinetic energy and the
    crater size are each an infinity or [NaN], whatever the diameter, the
    type and the host. *)
Theorem X24_velocity_overflow
    (h : F64.Host) (now : float) (input : F64.AsteroidInput) :
  is_infinity (F64.velocity input * 1000) = true ->
  exists r, F64.analyzeAsteroid h now input = Fulfilled r
    /\ is_finite (F64.kineticEnergyMegatons r) = false
    /\ is_finite (F64.craterSizeMeters r) = false.
Proof.
  intros Hinf.
  destruct (fulfilled64 h now input) as (r & Hr & _ & _ & He & Hc & _).
  exists r. split; [exact Hr|]. rewrite He, Hc. split.
  - unfold F64.energyMt, F64.energyJoules.
    apply div_not_finite_l, mul_not_finite_r, is_infinity_not_finite.
    now apply Math_pow_infinite_base.
  - unfold F64.craterDiameter.
    apply mul_not_finite_l, mul_not_finite_r, is_infinity_not_finite.
    now apply Math_pow_infinite_base.
Qed.

Lemma X24_velocity_overflow_witness :
  exists r,
    F64.analyzeAsteroid F64.plain_host 0
      (F64.with_velocity F64.DEFAULT_INPUT 1e306) = Fulfilled r
    /\ is_finite (F64.kineticEnergyMegatons r) = false
    /\ is_finite (F64.craterSizeMeters r) = false.
Proof.
  apply (X24_velocity_overflow F64.plain_host 0
           (F64.with_velocity F64.DEFAULT_INPUT 1e306)).
  reflexivity.
Defined.

End Binary64_Extras.
